(** * LoreForge: retrieval-augmented memory and session orchestration

    A shallow embedding of the Python sources

      - [src/core/character_manager.py]  (ability scores, characters),
      - [src/game/dice.py]               (dice and dice notation),
      - [src/ai/ollama_client.py]        (narrative generation gateway),
      - [src/data/vector_store.py]       (semantic memory index),
      - [src/data/database.py]           (structured store),
      - [src/core/dm_engine.py]          (session orchestrator),

    together with the properties of the specification that concern them.

    Conventions of the embedding.
      - Python [int] is [Z]; [//] is [Z.div] (both round towards minus
        infinity for a positive divisor).
      - Text is ASCII text, a [string]; [str.lower], [str.strip], [in],
        slicing and [str.join] are written out below. On ASCII text they
        are the methods of Python, character for character; a theorem
        about [len], [str.lower] or [str.strip] of a text that comes from
        outside says that the text is ASCII, with [PyStr.isascii].
      - A dict whose keys vary at run time is an association list of
        [pyval]s or a [gmap]; a dict with a fixed row layout is a record.
      - Finite floats (distances, loop time) are rationals.
      - A coroutine is run to completion at each [await]: the sources use
        no concurrent tasks.
      - Exceptions are values of [py_exn]; a method is a function from the
        object graph to a result and the object graph after the call, so
        that a mutation made before a [raise] stays visible.
      - Of the log only the records of [logger.error] are kept; the calls
        to [logger.info] and [logger.debug] have no effect on the flow.
      - The engine is taken after [initialize]: its database and its
        vector store are in place. *)

From Stdlib Require Import ZArith QArith Qround String Ascii List Sorting Permutation Lia DecimalString.
From stdpp Require Import gmap strings list fin_maps.

Open Scope string_scope.
Open Scope list_scope.
Open Scope Z_scope.

(** ** Text primitives of Python *)

Module PyStr.

(** [s.isascii()]: every character is below 128. *)
Fixpoint isascii (s : string) : bool :=
  match s with
  | EmptyString => true
  | String c t => (nat_of_ascii c <? 128)%nat && isascii t
  end.

Definition is_upper (c : ascii) : bool :=
  let n := nat_of_ascii c in (65 <=? n)%nat && (n <=? 90)%nat.

Definition lower_char (c : ascii) : ascii :=
  if is_upper c then ascii_of_nat (nat_of_ascii c + 32) else c.

(** [s.lower()] of an ASCII text *)
Fixpoint lower (s : string) : string :=
  match s with
  | EmptyString => EmptyString
  | String c t => String (lower_char c) (lower t)
  end.

(** [s.startswith(p)] *)
Fixpoint startswith (p s : string) : bool :=
  match p, s with
  | EmptyString, _ => true
  | String _ _, EmptyString => false
  | String a p', String b s' => if Ascii.eqb a b then startswith p' s' else false
  end.

(** [p in s] *)
Fixpoint contains (p s : string) : bool :=
  startswith p s ||
  match s with
  | EmptyString => false
  | String _ t => contains p t
  end.

(** [c.isspace()] on ASCII: tab, line feed, vertical tab, form feed,
    carriage return, the four separators 28-31 and the blank. *)
Definition isspace (c : ascii) : bool :=
  let n := nat_of_ascii c in
  ((9 <=? n)%nat && (n <=? 13)%nat) || ((28 <=? n)%nat && (n <=? 32)%nat).

Fixpoint lstrip (s : string) : string :=
  match s with
  | EmptyString => EmptyString
  | String c t => if isspace c then lstrip t else s
  end.

Fixpoint rstrip (s : string) : string :=
  match s with
  | EmptyString => EmptyString
  | String c t =>
      match rstrip t with
      | EmptyString => if isspace c then EmptyString else String c EmptyString
      | t' => String c t'
      end
  end.

(** [s.strip()] of an ASCII text *)
Definition strip (s : string) : string := rstrip (lstrip s).

(** [sep.join(parts)] *)
Definition join (sep : string) (parts : list string) : string :=
  String.concat sep parts.

(** [s[-n:]] for a positive [n]: the last [n] characters, the whole
    string when it is shorter. *)
Definition last_chars (n : nat) (s : string) : string :=
  let len := String.length s in
  String.substring (len - n) (len - (len - n)) s.

(** [str(z)] for an integer *)
Definition str_of_int (z : Z) : string :=
  NilZero.string_of_int (Z.to_int z).

(** [l[:k]]: a negative [k] counts from the end. *)
Definition slice_to {A} (k : Z) (l : list A) : list A :=
  if 0 <=? k then firstn (Z.to_nat k) l
  else firstn (Z.to_nat (Z.of_nat (length l) + k)) l.

(** [l[-n:]] for a positive [n] *)
Definition last_items {A} (n : nat) (l : list A) : list A :=
  skipn (length l - n) l.

(** Truth value of a string: the empty string is false. *)
Definition truthy (s : string) : bool :=
  match s with EmptyString => false | _ => true end.

End PyStr.

(** ** Dynamic values and exceptions *)

#[local] Set Warnings "-register-all".

(** The values that the response dicts of the sources hold. *)
Inductive pyval : Type :=
  | VNone
  | VBool (b : bool)
  | VInt (z : Z)
  | VStr (s : string)
  | VList (l : list pyval)
  | VDict (d : list (string * pyval)).

Abbreviation pydict := (list (string * pyval)).

(** [d.get(k)] *)
Fixpoint dict_get (k : string) (d : pydict) : option pyval :=
  match d with
  | [] => None
  | (k', v) :: rest => if String.eqb k k' then Some v else dict_get k rest
  end.

Inductive exn_class : Type :=
  | ValueError | RuntimeError | TypeError | KeyError | AttributeError
  | IntegrityError | ConnectionError | OverflowError | Exception.

(** An exception: its class and [str(e)]. *)
Record py_exn : Type := mk_exn { exn_kind : exn_class; exn_text : string }.

(** ** [character_manager.py]: ability scores *)

Module AbilityScores.

Record t : Type := mk {
  strength : Z;
  dexterity : Z;
  constitution : Z;
  intelligence : Z;
  wisdom : Z;
  charisma : Z
}.

(** The dataclass defaults. *)
Definition default : t := mk 10 10 10 10 10 10.

(** [getattr(self, name)] on the six fields. Any other name makes
    [get_modifier] fail: a missing name with an [AttributeError], which is
    what the model raises, and the name of a method or of an attribute
    inherited from [object] with a [TypeError] at the subtraction, which
    the model does not tell apart. *)
Definition getattr (self : t) (name : string) : py_exn + Z :=
  if String.eqb name "strength" then inr (strength self)
  else if String.eqb name "dexterity" then inr (dexterity self)
  else if String.eqb name "constitution" then inr (constitution self)
  else if String.eqb name "intelligence" then inr (intelligence self)
  else if String.eqb name "wisdom" then inr (wisdom self)
  else if String.eqb name "charisma" then inr (charisma self)
  else inl (mk_exn AttributeError
              ("'AbilityScores' object has no attribute '" +:+ name +:+ "'")).

(** [AbilityScores.get_modifier] *)
Definition get_modifier (self : t) (ability : string) : py_exn + Z :=
  match getattr self (PyStr.lower ability) with
  | inl e => inl e
  | inr score => inr ((score - 10) / 2)
  end.

(** The modifier in the words of the specification: the floor of the
    rational number (score - 10) / 2. *)
Definition spec_modifier (score : Z) : Z :=
  Qfloor (inject_Z (score - 10) / inject_Z 2)%Q.

Definition ability_names : list string :=
  ["strength"; "dexterity"; "constitution"; "intelligence"; "wisdom"; "charisma"].

End AbilityScores.

(** ** The object graph and its collaborators *)

(** A reading of the wall clock, [datetime.now()]. *)
Record datetime : Type := mk_datetime {
  year : Z; month : Z; day : Z;
  hour : Z; minute : Z; second : Z; microsecond : Z
}.

(** [str(z).zfill(w)] for a non-negative [z], as [strftime] pads. *)
Definition zero_pad (w : nat) (z : Z) : string :=
  let s := PyStr.str_of_int z in
  String.concat "" (repeat "0" (w - String.length s)) +:+ s.

(** [dt.strftime("%Y%m%d_%H%M%S")] *)
Definition strftime_compact (dt : datetime) : string :=
  zero_pad 4 (year dt) +:+ zero_pad 2 (month dt) +:+ zero_pad 2 (day dt) +:+ "_" +:+
  zero_pad 2 (hour dt) +:+ zero_pad 2 (minute dt) +:+ zero_pad 2 (second dt).

(** [dt.isoformat()]: the fraction is printed only when it is not zero. *)
Definition isoformat (dt : datetime) : string :=
  zero_pad 4 (year dt) +:+ "-" +:+ zero_pad 2 (month dt) +:+ "-" +:+ zero_pad 2 (day dt) +:+ "T" +:+
  zero_pad 2 (hour dt) +:+ ":" +:+ zero_pad 2 (minute dt) +:+ ":" +:+ zero_pad 2 (second dt) +:+
  (if microsecond dt =? 0 then "" else "." +:+ zero_pad 6 (microsecond dt)).

(** Metadata of a fragment: a dict of text values. *)
Abbreviation metadata := (gmap string string).

(** [md.get(k)] followed by a truth test: a missing key and an empty value
    are both false. *)
Definition md_truthy (md : metadata) (k : string) : option string :=
  match md !! k with
  | Some v => if PyStr.truthy v then Some v else None
  | None => None
  end.

(** An entry of a ChromaDB collection, stored under its id. *)
Record fragment : Type := mk_fragment {
  f_document : string;
  f_metadata : metadata
}.

Abbreviation collection := (gmap string fragment).

Inductive partition : Type := Campaigns | Memories | Characters.

(** What [collection.query] returns: four optional lists, one inner list
    per query text. *)
Record query_result : Type := mk_query_result {
  q_documents : option (list (list string));
  q_metadatas : option (list (list metadata));
  q_distances : option (list (list Q));
  q_ids : option (list (list string))
}.

(** A formatted result of [VectorStore._format_results]. *)
Record result : Type := mk_result {
  r_id : option string;
  r_content : string;
  r_metadata : metadata;
  r_distance : option Q;
  r_collection : string
}.

(** The reply of the HTTP call to [/api/generate]. *)
Record http_reply : Type := mk_reply {
  status : Z;
  body_text : string;
  body_response : option string
}.

(** Rows of the relational tables that the orchestrator reads. *)
Record character_row : Type := mk_character {
  ch_id : string; ch_name : string; ch_class : string; ch_level : Z; ch_race : string
}.

Record campaign_row : Type := mk_campaign {
  cp_id : string; cp_name : string; cp_description : string; cp_content : string
}.

Record session_row : Type := mk_session_row {
  sr_character_id : string;
  sr_campaign_id : option string;
  sr_ended : bool
}.

Record action_row : Type := mk_action_row {
  ar_session_id : string;
  ar_action_type : string;
  ar_content : string;
  ar_context : pydict;
  ar_dice_rolls : option (list pyval)
}.

Record database : Type := mk_database {
  characters : gmap string character_row;
  campaigns : gmap string campaign_row;
  sessions : gmap string session_row;
  actions : list action_row
}.

(** The calls made to the relational store. *)
Inductive db_call : Type :=
  | GetCharacter (character_id : string)
  | GetCampaign (campaign_id : string)
  | CreateSession (session_id : string)
  | EndSession (session_id : string)
  | GetRecentSessions (character_id : string)
  | LogAction (session_id : string).

(** [DMEngine.current_session] *)
Record session : Type := mk_session {
  s_id : string;
  s_character_id : string;
  s_campaign_id : option string;
  s_start_time : Q
}.

(** An entry of [DMEngine.session_memory]. *)
Record memory_entry : Type := mk_entry {
  m_type : string;
  m_content : string;
  m_timestamp : Q;
  m_extra : pydict
}.

(** The fields of a [DMEngine]. [ollama_client] tells whether the client
    is set; [campaign_context] is a dict that is either empty ([None]
    here) or a campaign row. *)
Record engine : Type := mk_engine {
  ollama_client : bool;
  current_session : option session;
  active_character : option character_row;
  campaign_context : option campaign_row;
  session_memory : list memory_entry;
  campaign_memory : list result
}.

(** The three collections of a [VectorStore]. *)
Record vector_store : Type := mk_vector_store {
  campaign_collection : collection;
  memory_collection : collection;
  character_collection : collection
}.

(** The object graph: the engine, its two stores, the number of clock
    readings made so far, and the records written by [logger.error]
    (logger name, message), oldest first. *)
Record world : Type := mk_world {
  eng : engine;
  db : database;
  vs : vector_store;
  ticks : nat;
  errors : list (string * string)
}.

(** The collaborators outside the repository, as oracles. Time is counted
    in clock readings; an oracle that stands for a service takes the time
    of the call, so that a service may fail at one moment and work at the
    next.
      - [wall_clock n], [loop_clock n]: what [datetime.now()] and the event
        loop's [time()] return when they are the [n]-th clock reading;
      - [ollama_post]: the HTTP exchange with the generation backend;
      - [chroma_query]: embedding and nearest-neighbour search of a
        collection, given its contents, a [where] filter, the query text
        and [n_results]; [None] stands for an empty reply;
      - [chroma_add_fault]: the failure, if any, of embedding or indexing
        a document;
      - [db_fault]: the failure, if any, of a call to SQLite;
      - [str_result]: [str()] of a formatted result inside an f-string;
      - [ai_model]: [config.ai_model]. *)
Record env : Type := mk_env {
  wall_clock : nat -> datetime;
  loop_clock : nat -> Q;
  ollama_post : nat -> string -> py_exn + http_reply;
  chroma_query : nat -> partition -> collection -> list (string * string) -> string -> Z ->
                 py_exn + option query_result;
  chroma_add_fault : nat -> partition -> string -> option py_exn;
  db_fault : nat -> db_call -> option py_exn;
  str_result : result -> string;
  ai_model : string
}.

(** ** Methods as state transformers with exceptions *)

Inductive outcome (A : Type) : Type :=
  | Return (a : A)
  | Raise (e : py_exn).
Arguments Return {A} a.
Arguments Raise {A} e.

Definition M (A : Type) : Type := world -> outcome A * world.

Definition ret {A} (a : A) : M A := fun w => (Return a, w).

Definition raise {A} (e : py_exn) : M A := fun w => (Raise e, w).

Definition bind {A B} (m : M A) (k : A -> M B) : M B :=
  fun w => match m w with
           | (Return a, w') => k a w'
           | (Raise e, w') => (Raise e, w')
           end.

(** [try: body  except Exception as e: handler(e)] *)
Definition try_except {A} (body : M A) (handler : py_exn -> M A) : M A :=
  fun w => match body w with
           | (Return a, w') => (Return a, w')
           | (Raise e, w') => handler e w'
           end.

Definition get : M world := fun w => (Return w, w).

Definition modify (f : world -> world) : M unit := fun w => (Return tt, f w).

Definition lift {A} (r : py_exn + A) : M A :=
  match r with inl e => raise e | inr a => ret a end.

Notation "'do' x <- m ; k" := (bind m (fun x => k))
  (at level 10, x name, m at level 100, k at level 200,
   format "'[v' 'do'  x  <-  m ; '/' k ']'").

Definition set_eng (f : engine -> engine) : M unit :=
  modify (fun w => mk_world (f (eng w)) (db w) (vs w) (ticks w) (errors w)).

Definition set_db (f : database -> database) : M unit :=
  modify (fun w => mk_world (eng w) (f (db w)) (vs w) (ticks w) (errors w)).

Definition set_vs (f : vector_store -> vector_store) : M unit :=
  modify (fun w => mk_world (eng w) (db w) (f (vs w)) (ticks w) (errors w)).

(** [logger.error(msg)] of the logger [name]. *)
Definition log_error (name msg : string) : M unit :=
  modify (fun w => mk_world (eng w) (db w) (vs w) (ticks w) (errors w ++ [(name, msg)])).

Definition tick : M nat :=
  fun w => (Return (ticks w), mk_world (eng w) (db w) (vs w) (S (ticks w)) (errors w)).

Section Clocks.
Context (E : env).

(** [datetime.now()] *)
Definition now : M datetime := do n <- tick; ret (wall_clock E n).

(** [asyncio.get_event_loop().time()] *)
Definition loop_time : M Q := do n <- tick; ret (loop_clock E n).
End Clocks.

(** ** [hashlib.md5]: the MD5 digest of RFC 1321 on 32-bit words *)

Module MD5.

Definition mask32 : Z := 0xffffffff.

Definition add32 (x y : Z) : Z := Z.land (x + y) mask32.

Definition not32 (x : Z) : Z := Z.lxor x mask32.

Definition rotl32 (x : Z) (c : Z) : Z :=
  Z.land (Z.lor (Z.shiftl x c) (Z.shiftr x (32 - c))) mask32.

Definition shifts : list Z :=
  [7; 12; 17; 22; 7; 12; 17; 22; 7; 12; 17; 22; 7; 12; 17; 22;
   5; 9; 14; 20; 5; 9; 14; 20; 5; 9; 14; 20; 5; 9; 14; 20;
   4; 11; 16; 23; 4; 11; 16; 23; 4; 11; 16; 23; 4; 11; 16; 23;
   6; 10; 15; 21; 6; 10; 15; 21; 6; 10; 15; 21; 6; 10; 15; 21].

Definition sines : list Z :=
  [0xd76aa478; 0xe8c7b756; 0x242070db; 0xc1bdceee;
   0xf57c0faf; 0x4787c62a; 0xa8304613; 0xfd469501;
   0x698098d8; 0x8b44f7af; 0xffff5bb1; 0x895cd7be;
   0x6b901122; 0xfd987193; 0xa679438e; 0x49b40821;
   0xf61e2562; 0xc040b340; 0x265e5a51; 0xe9b6c7aa;
   0xd62f105d; 0x02441453; 0xd8a1e681; 0xe7d3fbc8;
   0x21e1cde6; 0xc33707d6; 0xf4d50d87; 0x455a14ed;
   0xa9e3e905; 0xfcefa3f8; 0x676f02d9; 0x8d2a4c8a;
   0xfffa3942; 0x8771f681; 0x6d9d6122; 0xfde5380c;
   0xa4beea44; 0x4bdecfa9; 0xf6bb4b60; 0xbebfbc70;
   0x289b7ec6; 0xeaa127fa; 0xd4ef3085; 0x04881d05;
   0xd9d4d039; 0xe6db99e5; 0x1fa27cf8; 0xc4ac5665;
   0xf4292244; 0x432aff97; 0xab9423a7; 0xfc93a039;
   0x655b59c3; 0x8f0ccc92; 0xffeff47d; 0x85845dd1;
   0x6fa87e4f; 0xfe2ce6e0; 0xa3014314; 0x4e0811a1;
   0xf7537e82; 0xbd3af235; 0x2ad7d2bb; 0xeb86d391].

(** [content.encode()] on ASCII text *)
Fixpoint encode (s : string) : list Z :=
  match s with
  | EmptyString => []
  | String c t => Z.of_nat (nat_of_ascii c) :: encode t
  end.

(** [n] as [k] little-endian bytes *)
Fixpoint le_bytes (k : nat) (n : Z) : list Z :=
  match k with
  | O => []
  | S k' => Z.land n 0xff :: le_bytes k' (Z.shiftr n 8)
  end.

(** The message followed by the bit 1, zeros up to 56 modulo 64, and the
    length in bits on eight bytes. *)
Definition pad (msg : list Z) : list Z :=
  let len := Z.of_nat (length msg) in
  let zeros := Z.to_nat ((55 - len) mod 64) in
  msg ++ [0x80] ++ repeat 0 zeros ++ le_bytes 8 (Z.land (8 * len) 0xffffffffffffffff).

Fixpoint le_word (bytes : list Z) : Z :=
  match bytes with
  | [] => 0
  | b :: rest => Z.lor b (Z.shiftl (le_word rest) 8)
  end.

(** [count] words of four bytes each *)
Fixpoint words (count : nat) (bytes : list Z) : list Z :=
  match count with
  | O => []
  | S n => le_word (firstn 4 bytes) :: words n (skipn 4 bytes)
  end.

Record state : Type := mk_state { sa : Z; sb : Z; sc : Z; sd : Z }.

Definition init : state := mk_state 0x67452301 0xefcdab89 0x98badcfe 0x10325476.

(** Round [i] of the compression of the block [m]. *)
Definition round (m : list Z) (st : state) (i : Z) : state :=
  let '(mk_state a b c d) := st in
  let '(f, g) :=
    if i <? 16 then (Z.lor (Z.land b c) (Z.land (not32 b) d), i)
    else if i <? 32 then (Z.lor (Z.land d b) (Z.land (not32 d) c), (5 * i + 1) mod 16)
    else if i <? 48 then (Z.lxor b (Z.lxor c d), (3 * i + 5) mod 16)
    else (Z.lxor c (Z.lor b (not32 d)), (7 * i) mod 16) in
  let f' := add32 (add32 (add32 f a) (nth (Z.to_nat i) sines 0)) (nth (Z.to_nat g) m 0) in
  mk_state d (add32 b (rotl32 f' (nth (Z.to_nat i) shifts 0))) b c.

Definition compress (st : state) (block : list Z) : state :=
  let m := words 16 block in
  let st' := fold_left (round m) (map Z.of_nat (seq 0 64)) st in
  mk_state (add32 (sa st) (sa st')) (add32 (sb st) (sb st'))
           (add32 (sc st) (sc st')) (add32 (sd st) (sd st')).

Fixpoint blocks (count : nat) (st : state) (bytes : list Z) : state :=
  match count with
  | O => st
  | S n => blocks n (compress st (firstn 64 bytes)) (skipn 64 bytes)
  end.

Definition digest (msg : list Z) : list Z :=
  let p := pad msg in
  let st := blocks (length p / 64) init p in
  le_bytes 4 (sa st) ++ le_bytes 4 (sb st) ++ le_bytes 4 (sc st) ++ le_bytes 4 (sd st).

Definition hex_digit (n : Z) : ascii :=
  if n <? 10 then ascii_of_nat (48 + Z.to_nat n) else ascii_of_nat (87 + Z.to_nat n).

Fixpoint hex (bytes : list Z) : string :=
  match bytes with
  | [] => EmptyString
  | b :: rest => String (hex_digit (Z.shiftr b 4)) (String (hex_digit (Z.land b 0xf)) (hex rest))
  end.

(** [hashlib.md5(data).hexdigest()] *)
Definition hexdigest (data : list Z) : string := hex (digest data).

End MD5.

(** The line feed of Python's ["\n"]. *)
Definition nl : string := String (ascii_of_nat 10) EmptyString.

(** ** [ollama_client.py]: the narrative generation gateway *)

Module OllamaClient.

Definition logger : string := "ollama_client".

Definition dice_patterns : list string :=
  ["roll a d"; "make a"; "roll for"; "d20"; "d12"; "d10"; "d8"; "d6"; "d4"].

Definition action_keywords : list string :=
  ["roll"; "choose"; "decide"; "what do you"; "make a"].

(** The loop over [dice_patterns] of [_parse_dm_response]: it stops at the
    first pattern found in the response. *)
Fixpoint scan_dice (patterns : list string) (response : string) (dice_needed : list pydict)
  : list pydict :=
  match patterns with
  | [] => dice_needed
  | pattern :: rest =>
      if PyStr.contains (PyStr.lower pattern) (PyStr.lower response) then
        if PyStr.contains "d20" (PyStr.lower response) then
          dice_needed ++ [[("type", VStr "d20"); ("reason", VStr "skill check or attack")]]
        else dice_needed
      else scan_dice rest response dice_needed
  end.

(** [OllamaClient._parse_dm_response] on an ASCII response, of which
    [len] is the number of characters *)
Definition _parse_dm_response (model : string) (response : string) : pydict :=
  let dice_needed := scan_dice dice_patterns response [] in
  let action_required :=
    existsb (fun keyword => PyStr.contains keyword (PyStr.lower response)) action_keywords in
  [("narrative", VStr (PyStr.strip response));
   ("action_required", VBool action_required);
   ("dice_needed", VList (map VDict dice_needed));
   ("metadata", VDict [("model", VStr model);
                       ("length", VInt (Z.of_nat (String.length response)));
                       ("has_dice_request", VBool (0 <? Z.of_nat (length dice_needed)))])].

(** [OllamaClient._build_dm_prompt]; the values of the context dict are
    text. *)
Definition _build_dm_prompt (user_prompt : string) (context : option metadata) : string :=
  let prompt_parts :=
    ["You are an expert Dungeon Master for D&D 5th Edition. You create immersive, engaging narratives and follow the rules accurately.";
     "";
     "Response Format:";
     "- Provide vivid, descriptive narrative";
     "- If dice rolls are needed, specify them clearly (e.g., 'Roll a d20 for Investigation')";
     "- Keep responses engaging but not overly long";
     "- Follow D&D 5e rules precisely";
     "- Remember that player choices have permanent consequences";
     ""] in
  let of_key (k label : string) (ctx : metadata) : list string :=
    match md_truthy ctx k with
    | Some v => [label +:+ v]
    | None => []
    end in
  let prompt_parts :=
    match context with
    | Some ctx =>
        if bool_decide (ctx = ∅) then prompt_parts
        else prompt_parts ++ of_key "character" "Player Character: " ctx
                          ++ of_key "location" "Current Location: " ctx
                          ++ of_key "recent_events" "Recent Events: " ctx
                          ++ [""]
    | None => prompt_parts
    end in
  PyStr.join nl (prompt_parts ++
    ["Player Action/Question: " +:+ user_prompt; ""; "Provide your DM response:"]).

Section Gateway.
Context (E : env).

(** [OllamaClient.generate_response] with the default options *)
Definition generate_response (prompt : string) : M string :=
  try_except
    (do w <- get;
     do reply <- lift (ollama_post E (ticks w) prompt);
     if negb (status reply =? 200) then
       raise (mk_exn Exception
                ("Ollama API error " +:+ PyStr.str_of_int (status reply) +:+ ": " +:+ body_text reply))
     else
       ret (PyStr.strip (default "" (body_response reply))))
    (fun e =>
       do _ <- log_error logger ("Failed to generate response: " +:+ exn_text e);
       raise e).

End Gateway.

End OllamaClient.

(** ** [vector_store.py]: the semantic memory index *)

Module VectorStore.

Definition logger : string := "vector_store".

Definition get_collection (p : partition) (v : vector_store) : collection :=
  match p with
  | Campaigns => campaign_collection v
  | Memories => memory_collection v
  | Characters => character_collection v
  end.

Definition set_collection (p : partition) (c : collection) (v : vector_store) : vector_store :=
  match p with
  | Campaigns => mk_vector_store c (memory_collection v) (character_collection v)
  | Memories => mk_vector_store (campaign_collection v) c (character_collection v)
  | Characters => mk_vector_store (campaign_collection v) (memory_collection v) c
  end.

(** [x[0] if x else []] on one of the four lists of a query result. *)
Definition first_or_empty {A} (x : option (list (list A))) : list A :=
  match x with
  | Some (inner :: _) => inner
  | _ => []
  end.

(** [VectorStore._format_results] *)
Definition _format_results (results : option query_result) (collection_type : string)
  : list result :=
  match results with
  | None => []
  | Some results =>
      match q_documents results with
      | None | Some [] => []
      | Some _ =>
          let documents := first_or_empty (q_documents results) in
          let metadatas := first_or_empty (q_metadatas results) in
          let distances := first_or_empty (q_distances results) in
          let ids := first_or_empty (q_ids results) in
          imap (fun i doc =>
                  mk_result (ids !! i) doc (default ∅ (metadatas !! i)) (distances !! i)
                            collection_type)
               documents
      end
  end.

(** Insertion of [x] before the first entry whose distance is not
    smaller: entries of equal distance keep their order. *)
Fixpoint insert_by_distance (x : Q * result) (l : list (Q * result)) : list (Q * result) :=
  match l with
  | [] => [x]
  | y :: rest =>
      if Qle_bool (fst x) (fst y) then x :: y :: rest
      else y :: insert_by_distance x rest
  end.

Definition stable_sort (l : list (Q * result)) : list (Q * result) :=
  foldr insert_by_distance [] l.

(** The sort keys [x.get("distance", float('inf'))]: the key ['distance']
    is always present, so the key is the stored distance, [None] included. *)
Fixpoint keyed (results : list result) : option (list (Q * result)) :=
  match results with
  | [] => Some []
  | x :: rest =>
      match r_distance x, keyed rest with
      | Some d, Some l => Some ((d, x) :: l)
      | _, _ => None
      end
  end.

(** [results.sort(key=...)]: a stable sort. With two results or more every
    key is compared with another one, and comparing [None] is a
    [TypeError]; a list of at most one result is left as it is. *)
Definition sort_by_distance (results : list result) : py_exn + list result :=
  match results with
  | [] | [_] => inr results
  | _ =>
      match keyed results with
      | Some l => inr (map snd (stable_sort l))
      | None => inl (mk_exn TypeError "'<' not supported between instances of 'NoneType' and 'float'")
      end
  end.

Section Index.
Context (E : env).

(** [VectorStore._generate_id] *)
Definition _generate_id (content : string) (md : metadata) : M string :=
  let content_hash := String.substring 0 8 (MD5.hexdigest (MD5.encode content)) in
  do dt <- now E;
  let timestamp := strftime_compact dt in
  let id_parts := [content_hash; timestamp] in
  let id_parts :=
    match md_truthy md "session_id" with
    | Some v => id_parts ++ ["sess_" +:+ PyStr.last_chars 8 v]
    | None => id_parts
    end in
  let id_parts :=
    match md_truthy md "character_id" with
    | Some v => id_parts ++ ["char_" +:+ PyStr.last_chars 8 v]
    | None => id_parts
    end in
  let id_parts :=
    match md_truthy md "campaign_id" with
    | Some v => id_parts ++ ["camp_" +:+ PyStr.last_chars 8 v]
    | None => id_parts
    end in
  ret (PyStr.join "_" id_parts).

(** [collection.add(documents=[content], metadatas=[md], ids=[id])] of
    ChromaDB: the document is embedded and indexed under its id; ids are
    unique keys of a collection and a record whose id is already present
    is not added again. *)
Definition chroma_add (p : partition) (id content : string) (md : metadata) : M unit :=
  do w <- get;
  match chroma_add_fault E (ticks w) p content with
  | Some e => raise e
  | None =>
      set_vs (fun v =>
                let c := get_collection p v in
                match c !! id with
                | Some _ => v
                | None => set_collection p (<[id := mk_fragment content md]> c) v
                end)
  end.

(** The body shared by the three [add_*] methods, which differ in the
    collection, the ["type"] tag and the log message. *)
Definition add_to (p : partition) (type_tag failure : string)
           (content : string) (md : metadata) : M string :=
  try_except
    (do content_id <- _generate_id content md;
     do dt <- now E;
     do _ <- chroma_add p content_id content
               (<["type" := type_tag]> (<["timestamp" := isoformat dt]> md));
     ret content_id)
    (fun e =>
       do _ <- log_error logger (failure +:+ exn_text e);
       raise e).

(** [VectorStore.add_campaign_content] *)
Definition add_campaign_content : string -> metadata -> M string :=
  add_to Campaigns "campaign_content" "Failed to add campaign content: ".

(** [VectorStore.add_memory] *)
Definition add_memory : string -> metadata -> M string :=
  add_to Memories "memory" "Failed to add memory: ".

(** [VectorStore.add_character_info] *)
Definition add_character_info : string -> metadata -> M string :=
  add_to Characters "character_info" "Failed to add character info: ".

(** [collection.query(query_texts=[text], where=..., n_results=n)] *)
Definition chroma_query_at (p : partition) (filter : list (string * string))
           (text : string) (n : Z) : M (option query_result) :=
  do w <- get;
  lift (chroma_query E (ticks w) p (get_collection p (vs w)) filter text n).

(** One of the three searches of [get_relevant_context]. *)
Definition search (p : partition) (name : string) (collection_type query : string)
           (limit : Z) (results : list result) : M (list result) :=
  if String.eqb collection_type "all" || String.eqb collection_type name then
    do found <- chroma_query_at p [] query limit;
    ret (results ++ _format_results found name)
  else ret results.

(** [VectorStore.get_relevant_context] *)
Definition get_relevant_context (query : string) (limit : Z) (collection_type : string)
  : M (list result) :=
  try_except
    (let results := [] in
     do results <- search Campaigns "campaign" collection_type query limit results;
     do results <- search Memories "memory" collection_type query limit results;
     do results <- search Characters "character" collection_type query limit results;
     do results <- lift (sort_by_distance results);
     ret (PyStr.slice_to limit results))
    (fun e =>
       do _ <- log_error logger ("Failed to get relevant context: " +:+ exn_text e);
       ret []).

(** [VectorStore.get_campaign_memories] *)
Definition get_campaign_memories (campaign_id : string) (limit : Z) : M (list result) :=
  try_except
    (do results <- chroma_query_at Memories [("campaign_id", campaign_id)]
                     "campaign memories" limit;
     ret (_format_results results "memory"))
    (fun e =>
       do _ <- log_error logger ("Failed to get campaign memories: " +:+ exn_text e);
       ret []).
End Index.

End VectorStore.

(** ** [database.py]: the structured store *)

Module DatabaseManager.

Section Store.
Context (E : env).

(** A call reaches SQLite or fails as the oracle says. *)
Definition connect (c : db_call) : M unit :=
  do w <- get;
  match db_fault E (ticks w) c with
  | Some e => raise e
  | None => ret tt
  end.

(** [DatabaseManager.get_character] *)
Definition get_character (character_id : string) : M (option character_row) :=
  do _ <- connect (GetCharacter character_id);
  do w <- get;
  ret (characters (db w) !! character_id).

(** [DatabaseManager.get_campaign] *)
Definition get_campaign (campaign_id : string) : M (option campaign_row) :=
  do _ <- connect (GetCampaign campaign_id);
  do w <- get;
  ret (campaigns (db w) !! campaign_id).

(** [DatabaseManager.create_session]: the id is a primary key, and
    SQLite does not check the foreign keys unless asked to. *)
Definition create_session (character_id : string) (campaign_id : option string) : M string :=
  do dt <- now E;
  let session_id := "sess_" +:+ strftime_compact dt in
  do _ <- connect (CreateSession session_id);
  do w <- get;
  match sessions (db w) !! session_id with
  | Some _ => raise (mk_exn IntegrityError "UNIQUE constraint failed: sessions.id")
  | None =>
      do _ <- set_db (fun d =>
                mk_database (characters d) (campaigns d)
                  (<[session_id := mk_session_row character_id campaign_id false]> (sessions d))
                  (actions d));
      ret session_id
  end.

(** [DatabaseManager.end_session] *)
Definition end_session (session_id : string) : M unit :=
  do _ <- connect (EndSession session_id);
  set_db (fun d =>
    mk_database (characters d) (campaigns d)
      (alter (fun r => mk_session_row (sr_character_id r) (sr_campaign_id r) true)
             session_id (sessions d))
      (actions d)).

(** [DatabaseManager.get_recent_sessions]: the rows of a character, at
    most [limit] of them; their order by start time is not modelled. *)
Definition get_recent_sessions (character_id : string) (limit : Z)
  : M (list (string * session_row)) :=
  do _ <- connect (GetRecentSessions character_id);
  do w <- get;
  ret (firstn (Z.to_nat limit)
         (filter (fun r => sr_character_id (snd r) = character_id)
                 (map_to_list (sessions (db w))))).

(** [DatabaseManager.log_action]: two rows, the player's action and the
    DM's response. *)
Definition log_action (session_id player_action dm_response : string)
           (context : option pydict) (dice_rolls : option (list pyval)) : M unit :=
  do _ <- connect (LogAction session_id);
  set_db (fun d =>
    mk_database (characters d) (campaigns d) (sessions d)
      (actions d ++
         [mk_action_row session_id "player_action" player_action
                        (default [] context) (Some (default [] dice_rolls));
          mk_action_row session_id "dm_response" dm_response
                        (default [] context) None])).
End Store.

End DatabaseManager.

(** ** [dm_engine.py]: the session orchestrator *)

Module DMEngine.

Definition logger : string := "dm_engine".

Definition system_prompt : string :=
  "You are an expert Dungeon Master for D&D 5th Edition. You are creative, fair, and focused on creating an engaging story. "
  +:+ nl +:+ nl +:+
  "Key principles:" +:+ nl +:+
  "- Follow D&D 5e rules accurately" +:+ nl +:+
  "- Create vivid, immersive descriptions" +:+ nl +:+
  "- Respond to player actions meaningfully" +:+ nl +:+
  "- Ask for dice rolls when appropriate" +:+ nl +:+
  "- Keep the story moving forward" +:+ nl +:+
  "- Remember that player choices have permanent consequences" +:+ nl +:+ nl +:+
  "Current situation:".

Definition fallback_narrative : string :=
  "The DM pauses, deep in thought about your action...".

(** The line of the prompt for one entry of the session memory, if any. *)
Definition memory_line (memory : memory_entry) : list string :=
  if String.eqb (m_type memory) "player_action" then ["Player: " +:+ m_content memory]
  else if String.eqb (m_type memory) "dm_response" then ["DM: " +:+ m_content memory]
  else [].

Section Orchestrator.
Context (E : env).

(** The list [prompt_parts] at the end of [_build_dm_prompt]. *)
Definition prompt_parts (self : engine) (action : string) (context : list result)
  : list string :=
  let parts := [system_prompt] in
  let parts :=
    match active_character self with
    | Some c =>
        parts ++ ["Player Character: " +:+ ch_name c +:+ " (Level " +:+
                  PyStr.str_of_int (ch_level c) +:+ " " +:+ ch_class c +:+ ")"]
    | None => parts
    end in
  let parts :=
    match campaign_context self with
    | Some c => parts ++ ["Campaign: " +:+ cp_name c]
    | None => parts
    end in
  let parts :=
    match context with
    | [] => parts
    | _ =>
        parts ++ ["Recent events and relevant context:"]
              ++ map (fun ctx => "- " +:+ str_result E ctx) (PyStr.last_items 3 context)
    end in
  let parts :=
    match session_memory self with
    | [] => parts
    | _ =>
        parts ++ [nl +:+ "Recent actions in this session:"]
              ++ concat (map memory_line (PyStr.last_items 5 (session_memory self)))
    end in
  parts ++ [nl +:+ "Player's current action: " +:+ action;
            nl +:+ "Provide a detailed DM response:"].

(** [DMEngine._build_dm_prompt] *)
Definition _build_dm_prompt (self : engine) (action : string) (context : list result)
  : string :=
  PyStr.join nl (prompt_parts self action context).

(** [DMEngine._generate_dm_response] *)
Definition _generate_dm_response (action : string) (context : list result) : M pydict :=
  do w <- get;
  if negb (ollama_client (eng w)) then
    ret [("narrative", VStr "The DM seems to be deep in thought..."); ("metadata", VDict [])]
  else
    let prompt := _build_dm_prompt (eng w) action context in
    try_except
      (do response <- OllamaClient.generate_response E prompt;
       ret [("narrative", VStr response);
            ("metadata", VDict [("model_used", VStr (ai_model E));
                                ("context_used", VInt (Z.of_nat (length context)))])])
      (fun e =>
         do _ <- log_error logger ("Failed to generate DM response: " +:+ exn_text e);
         ret [("narrative", VStr fallback_narrative);
              ("metadata", VDict [("error", VStr (exn_text e))])]).

(** [DMEngine._load_session_context] *)
Definition _load_session_context : M unit :=
  do w <- get;
  match current_session (eng w) with
  | None => ret tt
  | Some s =>
      do recent_sessions <- DatabaseManager.get_recent_sessions E (s_character_id s) 5;
      match s_campaign_id s with
      | Some campaign_id =>
          if PyStr.truthy campaign_id then
            do campaign_memories <- VectorStore.get_campaign_memories E campaign_id 10;
            set_eng (fun e =>
              mk_engine (ollama_client e) (current_session e) (active_character e)
                        (campaign_context e) (session_memory e)
                        (campaign_memory e ++ campaign_memories))
          else ret tt
      | None => ret tt
      end
  end.

(** [DMEngine.create_session] *)
Definition create_session (character_id : string) (campaign_id : option string) : M string :=
  do found <- DatabaseManager.get_character E character_id;
  do _ <- set_eng (fun e =>
            mk_engine (ollama_client e) (current_session e) found
                      (campaign_context e) (session_memory e) (campaign_memory e));
  match found with
  | None => raise (mk_exn ValueError ("Character " +:+ character_id +:+ " not found"))
  | Some _ =>
      do _ <- match campaign_id with
              | Some cid =>
                  if PyStr.truthy cid then
                    do campaign_data <- DatabaseManager.get_campaign E cid;
                    match campaign_data with
                    | Some c =>
                        set_eng (fun e =>
                          mk_engine (ollama_client e) (current_session e) (active_character e)
                                    (Some c) (session_memory e) (campaign_memory e))
                    | None => ret tt
                    end
                  else ret tt
              | None => ret tt
              end;
      do session_id <- DatabaseManager.create_session E character_id campaign_id;
      do start_time <- loop_time E;
      do _ <- set_eng (fun e =>
                mk_engine (ollama_client e)
                          (Some (mk_session session_id character_id campaign_id start_time))
                          (active_character e) (campaign_context e)
                          (session_memory e) (campaign_memory e));
      do _ <- _load_session_context;
      ret session_id
  end.

(** [self.session_memory.append(entry)] *)
Definition remember (entry : memory_entry) : M unit :=
  set_eng (fun e =>
    mk_engine (ollama_client e) (current_session e) (active_character e)
              (campaign_context e) (session_memory e ++ [entry]) (campaign_memory e)).

(** [dm_response['narrative']] *)
Definition narrative_of (dm_response : pydict) : M string :=
  match dict_get "narrative" dm_response with
  | Some (VStr s) => ret s
  | Some _ => raise (mk_exn TypeError "narrative is not a string")
  | None => raise (mk_exn KeyError "'narrative'")
  end.

(** [DMEngine.process_player_action] *)
Definition process_player_action (action : string) (context : option pydict) : M pydict :=
  do w <- get;
  match current_session (eng w) with
  | None => raise (mk_exn RuntimeError "No active session")
  | Some current =>
      do asked_at <- loop_time E;
      do _ <- remember (mk_entry "player_action" action asked_at
                          [("context", VDict (default [] context))]);
      do relevant_context <- VectorStore.get_relevant_context E action 5 "all";
      do dm_response <- _generate_dm_response action relevant_context;
      do narrative <- narrative_of dm_response;
      do answered_at <- loop_time E;
      do _ <- remember (mk_entry "dm_response" narrative answered_at
                          [("metadata", default (VDict []) (dict_get "metadata" dm_response))]);
      do _ <- VectorStore.add_memory E
                ("Player: " +:+ action +:+ " | DM: " +:+ narrative)
                (<["session_id" := s_id current]>
                   (<["character_id" := s_character_id current]>
                      (<["action_type" := "interaction"]> ∅)));
      do _ <- DatabaseManager.log_action E (s_id current) action narrative None None;
      ret dm_response
  end.

(** [DMEngine.end_session] *)
Definition end_session : M unit :=
  do w <- get;
  match current_session (eng w) with
  | None => ret tt
  | Some current =>
      do _ <- DatabaseManager.end_session E (s_id current);
      set_eng (fun e => mk_engine (ollama_client e) None None None [] [])
  end.
End Orchestrator.

End DMEngine.

(** * Vocabulary of the properties *)

Definition sample_scores : AbilityScores.t := AbilityScores.mk 15 8 10 3 10 10.

Definition d20_entry : pydict :=
  [("type", VStr "d20"); ("reason", VStr "skill check or attack")].

(** The list that [_parse_dm_response] stores under ["dice_needed"]. *)
Definition dice_needed_of (response : string) : list pydict :=
  OllamaClient.scan_dice OllamaClient.dice_patterns response [].

(** [s] ends with [suffix]. *)
Definition ends_with (suffix s : string) : Prop :=
  exists before, s = before +:+ suffix.

(** [s] starts with [prefix]. *)
Definition starts_with (prefix s : string) : Prop :=
  exists after, s = prefix +:+ after.

(** The two lines that close every prompt of the orchestrator. *)
Definition action_line (action : string) : string :=
  nl +:+ "Player's current action: " +:+ action.

Definition closing_line : string := nl +:+ "Provide a detailed DM response:".

(** What the session contributes to a prompt between the system
    instructions and the action: the character, the campaign, the last
    three retrieved results and the last five entries of the session
    memory. *)
Definition dynamic_parts (E : env) (self : engine) (context : list result) : list string :=
  match active_character self with
  | Some c =>
      ["Player Character: " +:+ ch_name c +:+ " (Level " +:+
       PyStr.str_of_int (ch_level c) +:+ " " +:+ ch_class c +:+ ")"]
  | None => []
  end ++
  match campaign_context self with
  | Some c => ["Campaign: " +:+ cp_name c]
  | None => []
  end ++
  match context with
  | [] => []
  | _ => "Recent events and relevant context:"
         :: map (fun ctx => "- " +:+ str_result E ctx) (PyStr.last_items 3 context)
  end ++
  match session_memory self with
  | [] => []
  | _ => (nl +:+ "Recent actions in this session:")
         :: concat (map DMEngine.memory_line (PyStr.last_items 5 (session_memory self)))
  end.

(** The text that [sep.join] puts after the first part. *)
Definition joined_tail (sep : string) (parts : list string) : string :=
  String.concat "" (map (fun part => sep +:+ part) parts).

(** The first of two results is at least as near as the second. *)
Definition distance_le (x y : result) : Prop :=
  match r_distance x, r_distance y with
  | Some a, Some b => (a <= b)%Q
  | _, _ => False
  end.

(** Ascending order of distance, between any two positions. *)
Definition ascending (l : list result) : Prop := StronglySorted distance_le l.

(** The three searches of a query over all partitions, made at one moment
    on one state of the store, and their formatted results in the order of
    the searches: campaign, memory, character. *)
Definition pool_all (E : env) (query : string) (limit : Z) (w : world) : py_exn + list result :=
  let ask p := chroma_query E (ticks w) p (VectorStore.get_collection p (vs w)) [] query limit in
  match ask Campaigns with
  | inl e => inl e
  | inr c =>
      match ask Memories with
      | inl e => inl e
      | inr m =>
          match ask Characters with
          | inl e => inl e
          | inr h =>
              inr (VectorStore._format_results c "campaign"
                   ++ VectorStore._format_results m "memory"
                   ++ VectorStore._format_results h "character")
          end
      end
  end.

(** The world after [logger.error(msg)]. *)
Definition logged (name msg : string) (w : world) : world :=
  mk_world (eng w) (db w) (vs w) (ticks w) (errors w ++ [(name, msg)]).

(** Order of the sort keys. *)
Definition key_le (a b : Q * result) : Prop := (fst a <= fst b)%Q.

(** The id that [_generate_id] derives when the clock reads [dt]. *)
Definition fragment_id (dt : datetime) (content : string) (md : metadata) : string :=
  let part (k label : string) : list string :=
    match md_truthy md k with
    | Some v => [label +:+ PyStr.last_chars 8 v]
    | None => []
    end in
  PyStr.join "_"
    ([String.substring 0 8 (MD5.hexdigest (MD5.encode content)); strftime_compact dt]
     ++ part "session_id" "sess_" ++ part "character_id" "char_" ++ part "campaign_id" "camp_").

(** The world after [n] more clock readings. *)
Definition later (n : nat) (w : world) : world :=
  mk_world (eng w) (db w) (vs w) (n + ticks w) (errors w).

(** The world after a record was stored in a partition under an id, unless
    the id was taken. *)
Definition stored (p : partition) (id content : string) (md : metadata) (w : world) : world :=
  mk_world (eng w) (db w)
    (match VectorStore.get_collection p (vs w) !! id with
     | Some _ => vs w
     | None => VectorStore.set_collection p
                 (<[id := mk_fragment content md]> (VectorStore.get_collection p (vs w))) (vs w)
     end)
    (ticks w) (errors w).

(** The metadata stored with a fragment. *)
Definition stamped (type_tag : string) (dt : datetime) (md : metadata) : metadata :=
  <["type" := type_tag]> (<["timestamp" := isoformat dt]> md).

(** The world after [self.session_memory.append(entry)]. *)
Definition remembered (entry : memory_entry) (w : world) : world :=
  mk_world (mk_engine (ollama_client (eng w)) (current_session (eng w))
                      (active_character (eng w)) (campaign_context (eng w))
                      (session_memory (eng w) ++ [entry]) (campaign_memory (eng w)))
           (db w) (vs w) (ticks w) (errors w).

(** [w'] is [w] with more records in the error log, and nothing else
    changed. *)
Definition only_logs (w w' : world) : Prop :=
  eng w' = eng w /\ db w' = db w /\ vs w' = vs w /\ ticks w' = ticks w
  /\ exists more, errors w' = errors w ++ more.

(** What [generate_response] makes of the reply of the backend: the text,
    or the exception of a failed exchange or of a status other than 200. *)
Definition generation_outcome (reply : py_exn + http_reply) : py_exn + string :=
  match reply with
  | inl e => inl e
  | inr reply =>
      if negb (status reply =? 200) then
        inl (mk_exn Exception
               ("Ollama API error " +:+ PyStr.str_of_int (status reply) +:+ ": "
                +:+ body_text reply))
      else inr (PyStr.strip (default "" (body_response reply)))
  end.

(** The response of the orchestrator when generation fails with [e]. *)
Definition fallback_response (e : py_exn) : pydict :=
  [("narrative", VStr DMEngine.fallback_narrative);
   ("metadata", VDict [("error", VStr (exn_text e))])].


(** The two rows that [log_action] writes. *)
Definition logged_rows (session_id action narrative : string) : list action_row :=
  [mk_action_row session_id "player_action" action [] (Some []);
   mk_action_row session_id "dm_response" narrative [] None].

(** The entries that [process_player_action] appends to the session
    memory. *)
Definition action_entry (action : string) (at_time : Q) (context : option pydict)
  : memory_entry :=
  mk_entry "player_action" action at_time [("context", VDict (default [] context))].

Definition response_entry (narrative : string) (at_time : Q) (dm_response : pydict)
  : memory_entry :=
  mk_entry "dm_response" narrative at_time
           [("metadata", default (VDict []) (dict_get "metadata" dm_response))].

(** The metadata of the fragment written for an interaction. *)
Definition interaction_metadata (s : session) : metadata :=
  <["session_id" := s_id s]>
    (<["character_id" := s_character_id s]> (<["action_type" := "interaction"]> ∅)).

(** The text of the fragment written for an interaction. *)
Definition interaction_text (action narrative : string) : string :=
  "Player: " +:+ action +:+ " | DM: " +:+ narrative.

(** The persistence steps of [process_player_action]: the write to the
    semantic index, the write to the action log, the return. *)
Definition persist (E : env) (s : session) (action narrative : string) (dm_response : pydict)
  : M pydict :=
  do _ <- VectorStore.add_memory E (interaction_text action narrative)
            (interaction_metadata s);
  do _ <- DatabaseManager.log_action E (s_id s) action narrative None None;
  ret dm_response.

(** The three insertion methods with their partitions. *)
Definition insertions (E : env) : list ((string -> metadata -> M string) * partition) :=
  [(VectorStore.add_campaign_content E, Campaigns); (VectorStore.add_memory E, Memories);
   (VectorStore.add_character_info E, Characters)].

(** The world after rows were appended to the action log. *)
Definition with_actions (rows : list action_row) (w : world) : world :=
  mk_world (eng w)
           (mk_database (characters (db w)) (campaigns (db w)) (sessions (db w))
                        (actions (db w) ++ rows))
           (vs w) (ticks w) (errors w).

(** ** Sample collaborators and worlds *)

(** A clock that advances by one second at each reading. *)
Definition ticking_clock (n : nat) : datetime :=
  mk_datetime 2026 1 1 12 0 (Z.of_nat n) 0.

(** A clock that stands still. *)
Definition frozen_clock (n : nat) : datetime :=
  mk_datetime 2026 1 1 12 0 0 0.

(** What ChromaDB answers on an empty collection. *)
Definition no_results : query_result :=
  mk_query_result (Some [[]]) (Some [[]]) (Some [[]]) (Some [[]]).

(** Collaborators that all work, over empty collections. No result is
    ever rendered with them, so that [str_result] is left at the content. *)
Definition healthy (clock : nat -> datetime) : env :=
  {| wall_clock := clock;
     loop_clock := fun n => inject_Z (Z.of_nat n);
     ollama_post := fun _ _ => inr (mk_reply 200 "" (Some "You find a rusty key."));
     chroma_query := fun _ _ _ _ _ _ => inr (Some no_results);
     chroma_add_fault := fun _ _ _ => None;
     db_fault := fun _ _ => None;
     str_result := r_content;
     ai_model := "llama3" |}.

Definition unreachable : py_exn := mk_exn ConnectionError "connection refused".


(** The semantic index refuses every write. *)
Definition index_write_down : env :=
  let E := healthy ticking_clock in
  mk_env (wall_clock E) (loop_clock E) (ollama_post E) (chroma_query E)
         (fun _ _ _ => Some unreachable) (db_fault E) (str_result E) (ai_model E).

(** The semantic index is unreachable, for writes and for searches. *)
Definition index_down : env :=
  let E := healthy ticking_clock in
  mk_env (wall_clock E) (loop_clock E) (ollama_post E) (fun _ _ _ _ _ _ => inl unreachable)
         (fun _ _ _ => Some unreachable) (db_fault E) (str_result E) (ai_model E).

(** An index whose three partitions answer with results of mixed
    distances. *)
Definition three_partitions : env :=
  let E := healthy ticking_clock in
  mk_env (wall_clock E) (loop_clock E) (ollama_post E)
         (fun _ p _ _ _ _ =>
            inr (Some
              match p with
              | Campaigns =>
                  mk_query_result (Some [["The vault lies under the mill."; "Elandra is a sage."]])
                                  (Some [[∅; ∅]]) (Some [[(5 # 10)%Q; (9 # 10)%Q]])
                                  (Some [["c1"; "c2"]])
              | Memories =>
                  mk_query_result (Some [["Player: I open the door | DM: It creaks."]])
                                  (Some [[∅]]) (Some [[(2 # 10)%Q]]) (Some [["m1"]])
              | Characters =>
                  mk_query_result (Some [["Aria fears water."; "Aria is an elf."]])
                                  (Some [[∅; ∅]]) (Some [[(1 # 10)%Q; (7 # 10)%Q]])
                                  (Some [["h1"; "h2"]])
              end))
         (chroma_add_fault E) (db_fault E) (str_result E) (ai_model E).

Definition aria : character_row := mk_character "char_aria" "Aria" "Wizard" 1 "Elf".

Definition fresh_engine : engine := mk_engine true None None None [] [].

(** A started engine with one character in its database and nothing in
    its index. *)
Definition fresh_world : world :=
  mk_world fresh_engine
           (mk_database {["char_aria" := aria]} ∅ ∅ [])
           (mk_vector_store ∅ ∅ ∅) 0 [].

(** The metadata that [process_player_action] attaches to a memory. *)
Definition sample_metadata : metadata :=
  <["session_id" := "sess_20260101_120000"]>
    (<["character_id" := "char_aria"]> (<["action_type" := "interaction"]> ∅)).

(** The world after a session was created for Aria. *)
Definition active_world : world :=
  snd (DMEngine.create_session (healthy ticking_clock) "char_aria" None fresh_world).

(** The world after Aria searched the room. *)
Definition played_world : world :=
  snd (DMEngine.process_player_action (healthy ticking_clock) "I search the room" None
         active_world).

(** The session of [active_world]. *)
Definition aria_session : session :=
  mk_session "sess_20260101_120000" "char_aria" None (inject_Z 1).

(** The engine that has no session: the fields that [end_session] resets
    are empty. *)
Definition idle (self : engine) : engine :=
  mk_engine (ollama_client self) None None None [] [].

(** The world after the session [session_id] was closed in the relational
    store and the engine went back to idle. *)
Definition ended (session_id : string) (w : world) : world :=
  mk_world (idle (eng w))
           (mk_database (characters (db w)) (campaigns (db w))
              (alter (fun r => mk_session_row (sr_character_id r) (sr_campaign_id r) true)
                     session_id (sessions (db w)))
              (actions (db w)))
           (vs w) (ticks w) (errors w).

(** The world in which the engine has lost its active character, and
    nothing else has changed. *)
Definition without_character (w : world) : world :=
  mk_world (mk_engine (ollama_client (eng w)) (current_session (eng w)) None
                      (campaign_context (eng w)) (session_memory (eng w))
                      (campaign_memory (eng w)))
           (db w) (vs w) (ticks w) (errors w).

Definition no_active_session : py_exn := mk_exn RuntimeError "No active session".

From Stdlib Require Import DecimalPos DecimalZ.

(** * Further methods of the sources *)

(** ** [dm_engine.py]: session statistics *)

(** The dict that [get_session_stats] returns for an active session. *)
Record session_stats : Type := mk_stats {
  st_session_id : string;
  st_character : option string;
  st_actions_taken : Z;
  st_session_length : Q;
  st_campaign : option string
}.

Module SessionStats.

(** [len([m for m in self.session_memory if m['type'] == 'player_action'])] *)
Definition actions_taken (memory : list memory_entry) : Z :=
  Z.of_nat (length (List.filter (fun m => String.eqb (m_type m) "player_action") memory)).

Section Stats.
Context (E : env).

(** [DMEngine.get_session_stats]; [None] is the empty dict of an engine
    without a session. *)
Definition get_session_stats : M (option session_stats) :=
  do w <- get;
  match current_session (eng w) with
  | None => ret None
  | Some current =>
      do read_at <- loop_time E;
      ret (Some (mk_stats (s_id current)
                          (match active_character (eng w) with
                           | Some c => Some (ch_name c)
                           | None => None
                           end)
                          (actions_taken (session_memory (eng w)))
                          (read_at - s_start_time current)%Q
                          (match campaign_context (eng w) with
                           | Some c => Some (cp_name c)
                           | None => None
                           end)))
  end.
End Stats.

End SessionStats.

(** ** Vocabulary of the further properties *)

(** The ["type"] tag and the log message of the insertion method of a
    partition. *)
Definition type_tag_of (p : partition) : string :=
  match p with
  | Campaigns => "campaign_content"
  | Memories => "memory"
  | Characters => "character_info"
  end.

Definition add_failure_of (p : partition) : string :=
  match p with
  | Campaigns => "Failed to add campaign content: "
  | Memories => "Failed to add memory: "
  | Characters => "Failed to add character info: "
  end.

(** The lines of a prompt that come from retrieved results and from the
    session memory. *)
Definition is_context_line (part : string) : bool := PyStr.startswith "- " part.

(** The id that the relational store gives to a session created when the
    clock reads [dt]. *)
Definition session_id_at (dt : datetime) : string := "sess_" +:+ strftime_compact dt.

(** A campaign id that counts: present and not empty. *)
Definition campaign_given (campaign_id : option string) : option string :=
  match campaign_id with
  | Some c => if PyStr.truthy c then Some c else None
  | None => None
  end.

(** The phrases among the dice patterns. *)
Definition roll_phrases : list string := ["roll a d"; "make a"; "roll for"].

(** The metadata with which the command line stores an imported NPC. *)
Definition npc_metadata : metadata :=
  <["campaign_id" := "camp_20260101_115900"]>
    (<["type" := "npc"]> (<["name" := "Elandra"]> ∅)).

Definition npc_text : string := "NPC: Elandra - the Sage is a wise hermit".

(** An answer 200 with a body that has no ["response"]. *)
Definition silent_reply : http_reply := mk_reply 200 "{}" None.

(** A backend that reads its prompt: it answers a search with a text set
    in blanks and closed by a line feed, and anything else with a body
    that has no ["response"]. *)
Definition padded_reply : http_reply :=
  mk_reply 200 "" (Some ("  You find a rusty key. " +:+ nl)).

Definition attentive_backend : env :=
  let E := healthy ticking_clock in
  mk_env (wall_clock E) (loop_clock E)
         (fun _ prompt =>
            if PyStr.contains "current action: I search" prompt then inr padded_reply
            else inr silent_reply)
         (chroma_query E) (chroma_add_fault E) (db_fault E) (str_result E) (ai_model E).

(** The world after the engine took a character and, when the campaign is
    known, a campaign. *)
Definition briefed (c : character_row) (campaign : option campaign_row) (w : world) : world :=
  mk_world (mk_engine (ollama_client (eng w)) (current_session (eng w)) (Some c)
                      (match campaign with
                       | Some r => Some r
                       | None => campaign_context (eng w)
                       end)
                      (session_memory (eng w)) (campaign_memory (eng w)))
           (db w) (vs w) (ticks w) (errors w).

(** The campaign row that [create_session] finds, if it looks for one. *)
Definition campaign_found (campaign_id : option string) (w : world) : option campaign_row :=
  match campaign_given campaign_id with
  | Some camp => campaigns (db w) !! camp
  | None => None
  end.

(** The world after a session row was inserted. *)
Definition with_session (session_id : string) (row : session_row) (w : world) : world :=
  mk_world (eng w)
           (mk_database (characters (db w)) (campaigns (db w))
                        (<[session_id := row]> (sessions (db w))) (actions (db w)))
           (vs w) (ticks w) (errors w).

(** The world after the engine made a session current. *)
Definition in_session (s : session) (w : world) : world :=
  mk_world (mk_engine (ollama_client (eng w)) (Some s) (active_character (eng w))
                      (campaign_context (eng w)) (session_memory (eng w))
                      (campaign_memory (eng w)))
           (db w) (vs w) (ticks w) (errors w).

(** [w'] is [w] with more campaign memories and more records in the error
    log, and nothing else changed. *)
Definition only_recalls (w w' : world) : Prop :=
  ollama_client (eng w') = ollama_client (eng w)
  /\ current_session (eng w') = current_session (eng w)
  /\ active_character (eng w') = active_character (eng w)
  /\ campaign_context (eng w') = campaign_context (eng w)
  /\ session_memory (eng w') = session_memory (eng w)
  /\ (exists recalled, campaign_memory (eng w') = campaign_memory (eng w) ++ recalled)
  /\ db w' = db w /\ vs w' = vs w /\ ticks w' = ticks w.

(** The world after a session was created, played and ended while the
    clock stood still. *)
Definition rested_world : world :=
  let E := healthy frozen_clock in
  let w1 := snd (DMEngine.create_session E "char_aria" None fresh_world) in
  snd (DMEngine.end_session E w1).

(** A campaign, and [rested_world] with the campaign in its store. *)
Definition mill : campaign_row :=
  mk_campaign "camp_mill" "The Mill" "A vault lies under the mill." "Chapter 1".

Definition rested_with_campaign : world :=
  mk_world (eng rested_world)
           (mk_database (characters (db rested_world)) {["camp_mill" := mill]}
                        (sessions (db rested_world)) (actions (db rested_world)))
           (vs rested_world) (ticks rested_world) (errors rested_world).

Definition duplicate_session : py_exn :=
  mk_exn IntegrityError "UNIQUE constraint failed: sessions.id".

(** A relational store that refuses to end sessions. *)
Definition store_refuses_end : env :=
  let E := healthy ticking_clock in
  mk_env (wall_clock E) (loop_clock E) (ollama_post E) (chroma_query E) (chroma_add_fault E)
         (fun _ call => match call with EndSession _ => Some unreachable | _ => None end)
         (str_result E) (ai_model E).

(** The row of a session once it is ended. *)
Definition ended_row (r : session_row) : session_row :=
  mk_session_row (sr_character_id r) (sr_campaign_id r) true.

(** Seven entries of a session memory, actions and responses in turn. *)
Definition chatter : list memory_entry :=
  map (fun n : nat =>
         mk_entry (if Nat.even n then "player_action" else "dm_response")
                  ("line " +:+ PyStr.str_of_int (Z.of_nat n)) (inject_Z (Z.of_nat n)) [])
      (seq 0 7).

Definition long_session : engine :=
  mk_engine true (Some aria_session) (Some aria) None chatter [].

Definition short_session : engine :=
  mk_engine true (Some aria_session) (Some aria) None (PyStr.last_items 5 chatter) [].

(** [action_required] as [_parse_dm_response] computes it. *)
Definition action_required_of (response : string) : bool :=
  existsb (fun keyword => PyStr.contains keyword (PyStr.lower response))
          OllamaClient.action_keywords.

(** ** [vector_store.py]: filtered reads *)

Module IndexSearch.

Section Reads.
Context (E : env).

(** The [where] clause of [search_npcs] and [search_locations]: the type,
    and the campaign when one is given. *)
Definition where_clause (kind : string) (campaign_id : option string)
  : list (string * string) :=
  match campaign_given campaign_id with
  | Some c => [("type", kind); ("campaign_id", c)]
  | None => [("type", kind)]
  end.

(** The body shared by the four filtered reads: one query of a partition,
    formatted; any failure is logged and gives the empty list. *)
Definition read (p : partition) (name : string) (filter : list (string * string))
           (text : string) (n : Z) (failure : string) : M (list result) :=
  try_except
    (do results <- VectorStore.chroma_query_at E p filter text n;
     ret (VectorStore._format_results results name))
    (fun e =>
       do _ <- log_error VectorStore.logger (failure +:+ exn_text e);
       ret []).

(** [VectorStore.get_character_memories] *)
Definition get_character_memories (character_id : string) (limit : Z) : M (list result) :=
  read Memories "memory" [("character_id", character_id)] "character memories" limit
       "Failed to get character memories: ".

(** [VectorStore.search_npcs] *)
Definition search_npcs (query : string) (campaign_id : option string) : M (list result) :=
  read Campaigns "campaign" (where_clause "npc" campaign_id) query 10
       "Failed to search NPCs: ".

(** [VectorStore.search_locations] *)
Definition search_locations (query : string) (campaign_id : option string)
  : M (list result) :=
  read Campaigns "campaign" (where_clause "location" campaign_id) query 10
       "Failed to search locations: ".
End Reads.

End IndexSearch.

(** ** [vector_store.py]: deletion and update *)

Module IndexMaintenance.

Section Maintenance.
Context (E : env).

(** The failure, if any, of [collection.delete(ids=...)] at a given
    time. *)
Context (chroma_delete_fault : nat -> list string -> option py_exn).

(** [self.memory_collection.delete(ids=[memory_id])]: an id that is not in
    the collection is passed over. *)
Definition chroma_delete (memory_id : string) : M unit :=
  do w <- get;
  match chroma_delete_fault (ticks w) [memory_id] with
  | Some e => raise e
  | None =>
      set_vs (fun v =>
        VectorStore.set_collection Memories
          (delete memory_id (VectorStore.get_collection Memories v)) v)
  end.

(** [VectorStore.delete_memory] *)
Definition delete_memory (memory_id : string) : M unit :=
  try_except
    (chroma_delete memory_id)
    (fun e =>
       do _ <- log_error VectorStore.logger
                 ("Failed to delete memory " +:+ memory_id +:+ ": " +:+ exn_text e);
       raise e).

(** [VectorStore.update_memory] *)
Definition update_memory (memory_id content : string) (md : metadata) : M unit :=
  try_except
    (do _ <- chroma_delete memory_id;
     do _ <- VectorStore.add_memory E content md;
     ret tt)
    (fun e =>
       do _ <- log_error VectorStore.logger
                 ("Failed to update memory " +:+ memory_id +:+ ": " +:+ exn_text e);
       raise e).
End Maintenance.

End IndexMaintenance.

(** The world after an id was deleted from the memory partition. *)
Definition forgotten (memory_id : string) (w : world) : world :=
  mk_world (eng w) (db w)
           (VectorStore.set_collection Memories
              (delete memory_id (VectorStore.get_collection Memories (vs w))) (vs w))
           (ticks w) (errors w).

(** A deletion that always works, and one that never does. *)
Definition delete_works : nat -> list string -> option py_exn := fun _ _ => None.

Definition delete_fails : nat -> list string -> option py_exn := fun _ _ => Some unreachable.

(** The id of the fragment of [played_world]. *)
Definition played_fragment_id : string :=
  "83109f7e_20260101_120004_sess_1_120000_char_har_aria".

(** The four filtered reads of the index, each with the partition name
    that it gives to its results. *)
Definition filtered_reads (E : env) (campaign character_id : string)
           (campaign_id : option string) (query : string) (limit : Z)
  : list (M (list result) * string) :=
  [(VectorStore.get_campaign_memories E campaign limit, "memory");
   (IndexSearch.get_character_memories E character_id limit, "memory");
   (IndexSearch.search_npcs E query campaign_id, "campaign");
   (IndexSearch.search_locations E query campaign_id, "campaign")].

(** ** [dice.py] and [character_manager.py]: enumerations *)

(** An [Enum] is looked up by value: [Cls(v)] is the member whose value is
    [v], and a [ValueError] ([None] here) when there is none. *)
Definition by_value {A V} (eqb : V -> V -> bool) (value : A -> V) (members : list A) (v : V)
  : option A :=
  List.find (fun m => eqb (value m) v) members.

Module DiceType.
Inductive t : Type := D4 | D6 | D8 | D10 | D12 | D20 | D100.

Definition members : list t := [D4; D6; D8; D10; D12; D20; D100].

Definition value (d : t) : Z :=
  match d with
  | D4 => 4 | D6 => 6 | D8 => 8 | D10 => 10 | D12 => 12 | D20 => 20 | D100 => 100
  end.

Definition of_value : Z -> option t := by_value Z.eqb value members.

Definition eqb (a b : t) : bool := value a =? value b.
End DiceType.

Module AdvantageType.
Inductive t : Type := NORMAL | ADVANTAGE | DISADVANTAGE.

Definition members : list t := [NORMAL; ADVANTAGE; DISADVANTAGE].

Definition value (a : t) : string :=
  match a with
  | NORMAL => "normal" | ADVANTAGE => "advantage" | DISADVANTAGE => "disadvantage"
  end.

Definition of_value : string -> option t := by_value String.eqb value members.
End AdvantageType.

Module CharacterClass.
Inductive t : Type :=
  | BARBARIAN | BARD | CLERIC | DRUID | FIGHTER | MONK
  | PALADIN | RANGER | ROGUE | SORCERER | WARLOCK | WIZARD.

Definition members : list t :=
  [BARBARIAN; BARD; CLERIC; DRUID; FIGHTER; MONK;
   PALADIN; RANGER; ROGUE; SORCERER; WARLOCK; WIZARD].

Definition value (c : t) : string :=
  match c with
  | BARBARIAN => "Barbarian" | BARD => "Bard" | CLERIC => "Cleric" | DRUID => "Druid"
  | FIGHTER => "Fighter" | MONK => "Monk" | PALADIN => "Paladin" | RANGER => "Ranger"
  | ROGUE => "Rogue" | SORCERER => "Sorcerer" | WARLOCK => "Warlock" | WIZARD => "Wizard"
  end.

Definition of_value : string -> option t := by_value String.eqb value members.
End CharacterClass.

Module CharacterRace.
Inductive t : Type :=
  | HUMAN | ELF | DWARF | HALFLING | DRAGONBORN | GNOME | HALF_ELF | HALF_ORC | TIEFLING.

Definition members : list t :=
  [HUMAN; ELF; DWARF; HALFLING; DRAGONBORN; GNOME; HALF_ELF; HALF_ORC; TIEFLING].

Definition value (r : t) : string :=
  match r with
  | HUMAN => "Human" | ELF => "Elf" | DWARF => "Dwarf" | HALFLING => "Halfling"
  | DRAGONBORN => "Dragonborn" | GNOME => "Gnome" | HALF_ELF => "Half-Elf"
  | HALF_ORC => "Half-Orc" | TIEFLING => "Tiefling"
  end.

Definition of_value : string -> option t := by_value String.eqb value members.
End CharacterRace.

Module Background.
Inductive t : Type :=
  | ACOLYTE | CRIMINAL | FOLK_HERO | NOBLE | SAGE | SOLDIER
  | CHARLATAN | ENTERTAINER | GUILD_ARTISAN | HERMIT | OUTLANDER | SAILOR.

Definition members : list t :=
  [ACOLYTE; CRIMINAL; FOLK_HERO; NOBLE; SAGE; SOLDIER;
   CHARLATAN; ENTERTAINER; GUILD_ARTISAN; HERMIT; OUTLANDER; SAILOR].

Definition value (b : t) : string :=
  match b with
  | ACOLYTE => "Acolyte" | CRIMINAL => "Criminal" | FOLK_HERO => "Folk Hero"
  | NOBLE => "Noble" | SAGE => "Sage" | SOLDIER => "Soldier" | CHARLATAN => "Charlatan"
  | ENTERTAINER => "Entertainer" | GUILD_ARTISAN => "Guild Artisan" | HERMIT => "Hermit"
  | OUTLANDER => "Outlander" | SAILOR => "Sailor"
  end.

Definition of_value : string -> option t := by_value String.eqb value members.
End Background.

(** ** [character_manager.py]: the character *)

Module Character.

(** The dataclass [Character]. [skills] and [spells] are dicts used as
    maps. *)
Record t : Type := mk {
  id : string;
  name : string;
  race : CharacterRace.t;
  character_class : CharacterClass.t;
  background : Background.t;
  level : Z;
  ability_scores : AbilityScores.t;
  hit_points : Z;
  max_hit_points : Z;
  armor_class : Z;
  proficiency_bonus : Z;
  skills : gmap string bool;
  equipment : list string;
  spells : gmap string (list string);
  notes : string;
  experience_points : Z
}.

(** [Character.get_proficiency_bonus] *)
Definition get_proficiency_bonus (self : t) : Z := 2 + (level self - 1) / 4.

(** [Character.get_skill_bonus] *)
Definition get_skill_bonus (self : t) (skill ability : string) : py_exn + Z :=
  match AbilityScores.get_modifier (ability_scores self) ability with
  | inl e => inl e
  | inr modifier =>
      let proficient := default false (skills self !! skill) in
      let bonus := modifier in
      let bonus := if proficient then bonus + get_proficiency_bonus self else bonus in
      inr bonus
  end.

End Character.

Module CharacterManager.

(** [self.class_hit_dice] *)
Definition class_hit_dice (c : CharacterClass.t) : DiceType.t :=
  match c with
  | CharacterClass.BARBARIAN => DiceType.D12
  | CharacterClass.FIGHTER | CharacterClass.PALADIN | CharacterClass.RANGER => DiceType.D10
  | CharacterClass.BARD | CharacterClass.CLERIC | CharacterClass.DRUID
  | CharacterClass.MONK | CharacterClass.ROGUE | CharacterClass.WARLOCK => DiceType.D8
  | CharacterClass.SORCERER | CharacterClass.WIZARD => DiceType.D6
  end.

(** [CharacterManager._calculate_hit_points] *)
Definition _calculate_hit_points (character : Character.t) (level : Z) : py_exn + Z :=
  let hit_die := class_hit_dice (Character.character_class character) in
  match AbilityScores.get_modifier (Character.ability_scores character) "constitution" with
  | inl e => inl e
  | inr con_modifier =>
      if level =? 1 then inr (DiceType.value hit_die + con_modifier)
      else
        let base_hp := DiceType.value hit_die + con_modifier in
        let additional_hp := (level - 1) * (DiceType.value hit_die / 2 + 1 + con_modifier) in
        inr (base_hp + additional_hp)
  end.

End CharacterManager.

(** ** [dice.py]: rolls *)

(** The dataclass [DiceRoll] after [__post_init__]. *)
Record dice_roll : Type := mk_dice_roll {
  dr_dice_type : DiceType.t;
  dr_result : Z;
  dr_is_critical_success : bool;
  dr_is_critical_failure : bool;
  dr_modifier : Z;
  dr_total : Z
}.

(** The dataclass [MultiDiceRoll] after [__post_init__]. *)
Record multi_dice_roll : Type := mk_multi_roll {
  mr_dice_type : DiceType.t;
  mr_count : Z;
  mr_results : list Z;
  mr_modifier : Z;
  mr_total : Z;
  mr_individual_totals : list Z
}.

(** The dataclass [AdvantageRoll] after [__post_init__]. *)
Record advantage_roll : Type := mk_advantage_roll {
  av_advantage_type : AdvantageType.t;
  av_rolls : list Z;
  av_selected_roll : Z;
  av_modifier : Z;
  av_total : Z;
  av_is_critical_success : bool;
  av_is_critical_failure : bool
}.

Module DiceRoller.

(** [sum(l)] *)
Definition sum (l : list Z) : Z := fold_right Z.add 0 l.

(** [DiceRoll(dice_type, result, modifier=modifier)]: the total, and the
    critical marks on a d20 only. *)
Definition DiceRoll (dice_type : DiceType.t) (result modifier : Z) : dice_roll :=
  let d20 := DiceType.eqb dice_type DiceType.D20 in
  mk_dice_roll dice_type result
               (if d20 then result =? 20 else false)
               (if d20 then result =? 1 else false)
               modifier (result + modifier).

(** [MultiDiceRoll(dice_type, count, results, modifier)] *)
Definition MultiDiceRoll (dice_type : DiceType.t) (count : Z) (results : list Z)
           (modifier : Z) : multi_dice_roll :=
  mk_multi_roll dice_type count results modifier (sum results + modifier) results.

(** [AdvantageRoll(advantage_type, rolls, selected_roll, modifier)] *)
Definition AdvantageRoll (advantage_type : AdvantageType.t) (rolls : list Z)
           (selected_roll modifier : Z) : advantage_roll :=
  mk_advantage_roll advantage_type rolls selected_roll modifier (selected_roll + modifier)
                    (selected_roll =? 20) (selected_roll =? 1).

(** Insertion into a list in descending order. *)
Fixpoint insert_desc (x : Z) (l : list Z) : list Z :=
  match l with
  | [] => [x]
  | y :: rest => if y <=? x then x :: y :: rest else y :: insert_desc x rest
  end.

(** [rolls.sort(reverse=True)] *)
Definition sort_desc (l : list Z) : list Z := fold_right insert_desc [] l.

Section Rolls.
(** [self.rng.randint(a, b)] at the [n]-th draw of the generator. *)
Context (randint : nat -> Z -> Z -> Z).

(** [[self.rng.randint(1, sides) for _ in range(count)]], from the draw
    [n] on. *)
Definition draws (n : nat) (count : nat) (sides : Z) : list Z :=
  map (fun i => randint (n + i) 1 sides) (seq 0 count).

(** [DiceRoller.roll_die] at the draw [n] *)
Definition roll_die (n : nat) (dice_type : DiceType.t) (modifier : Z) : dice_roll :=
  let result := randint n 1 (DiceType.value dice_type) in
  DiceRoll dice_type result modifier.

(** [DiceRoller.roll_multiple] from the draw [n] on; [range(count)] is
    empty for a count that is not positive. *)
Definition roll_multiple (n : nat) (dice_type : DiceType.t) (count modifier : Z)
  : multi_dice_roll :=
  let results := draws n (Z.to_nat count) (DiceType.value dice_type) in
  MultiDiceRoll dice_type count results modifier.

(** [DiceRoller.roll_with_advantage] from the draw [n] on *)
Definition roll_with_advantage (n : nat) (advantage_type : AdvantageType.t) (modifier : Z)
  : advantage_roll :=
  match advantage_type with
  | AdvantageType.NORMAL =>
      let first := randint n 1 20 in
      AdvantageRoll advantage_type [first] first modifier
  | AdvantageType.ADVANTAGE =>
      let first := randint n 1 20 in
      let second := randint (n + 1) 1 20 in
      AdvantageRoll advantage_type [first; second] (Z.max first second) modifier
  | AdvantageType.DISADVANTAGE =>
      let first := randint n 1 20 in
      let second := randint (n + 1) 1 20 in
      AdvantageRoll advantage_type [first; second] (Z.min first second) modifier
  end.

Definition stat_names : list string :=
  ["Strength"; "Dexterity"; "Constitution"; "Intelligence"; "Wisdom"; "Charisma"].

(** One ability of [roll_stats]: four d6 from the draw [n] on, the three
    highest added. *)
Definition roll_stat (n : nat) : Z :=
  let rolls := draws n 4 6 in
  let rolls := sort_desc rolls in
  sum (firstn 3 rolls).

(** [DiceRoller.roll_stats] from the draw [n] on: the six abilities in the
    order of [stat_names], four draws each. *)
Definition roll_stats (n : nat) : list (string * Z) :=
  imap (fun i stat => (stat, roll_stat (n + 4 * i))) stat_names.
End Rolls.

End DiceRoller.

(** [min(l)] of a list that is not empty. *)
Definition lowest (l : list Z) : Z := fold_right Z.min (hd 0 l) l.

(** [c.isupper()] and [s.upper()] on ASCII. *)
Definition is_lower (c : ascii) : bool :=
  let n := nat_of_ascii c in (97 <=? n)%nat && (n <=? 122)%nat.

Definition upper_char (c : ascii) : ascii :=
  if is_lower c then ascii_of_nat (nat_of_ascii c - 32) else c.

Fixpoint upper (s : string) : string :=
  match s with
  | EmptyString => EmptyString
  | String c t => String (upper_char c) (upper t)
  end.

(** [AdvantageType(advantage_choice.upper())] of
    [CLIInterface._roll_with_advantage]. *)
Definition advantage_type_of_choice (advantage_choice : string) : option AdvantageType.t :=
  AdvantageType.of_value (upper advantage_choice).

(** A character as [Character(id=..., name=..., race=..., character_class=...,
    background=...)] builds it, with the ability scores then assigned. *)
Definition new_character (id name : string) (race : CharacterRace.t)
           (character_class : CharacterClass.t) (background : Background.t)
           (scores : AbilityScores.t) : Character.t :=
  Character.mk id name race character_class background 1 scores 0 0 10 2 ∅ [] ∅ "" 0.

(** The hit points gained at each level after the first. *)
Definition hit_points_per_level (character : Character.t) : Z :=
  DiceType.value (CharacterManager.class_hit_dice (Character.character_class character)) / 2
  + 1 + (AbilityScores.constitution (Character.ability_scores character) - 10) / 2.

(** A generator that always draws [v], and one that counts its draws. *)
Definition always (v : Z) : nat -> Z -> Z -> Z := fun _ _ _ => v.

Definition cycling : nat -> Z -> Z -> Z := fun n a b => a + Z.of_nat n mod (b - a + 1).

(** ** The table [characters]: [database.py] and [character_manager.py] *)

(** The dict of [Character.to_dict]: the same fifteen keys for every
    character, kept as a record of them. *)
Record character_dict : Type := mk_character_dict {
  cd_id : string;
  cd_name : string;
  cd_race : string;
  cd_class : string;
  cd_background : string;
  cd_level : Z;
  cd_stats : AbilityScores.t;
  cd_hit_points : Z;
  cd_max_hit_points : Z;
  cd_armor_class : Z;
  cd_skills : gmap string bool;
  cd_equipment : list string;
  cd_spells : gmap string (list string);
  cd_notes : string;
  cd_experience_points : Z
}.

(** [Character.to_dict] *)
Definition to_dict (self : Character.t) : character_dict :=
  mk_character_dict
    (Character.id self) (Character.name self)
    (CharacterRace.value (Character.race self))
    (CharacterClass.value (Character.character_class self))
    (Background.value (Character.background self))
    (Character.level self) (Character.ability_scores self)
    (Character.hit_points self) (Character.max_hit_points self)
    (Character.armor_class self)
    (Character.skills self) (Character.equipment self) (Character.spells self)
    (Character.notes self) (Character.experience_points self).

(** A row of [characters] with the columns that the schema declares and
    [create_character] fills. The four JSON columns hold the value that
    [json.loads] gives back for the text that [json.dumps] wrote;
    [created_at] and [updated_at], which no method reads into a character,
    are left out. [character_row] keeps the columns of it that the
    orchestrator reads. *)
Record character_record : Type := mk_character_record {
  rec_id : string;
  rec_name : string;
  rec_class : string;
  rec_level : Z;
  rec_race : string;
  rec_background : string;
  rec_stats : AbilityScores.t;
  rec_skills : gmap string bool;
  rec_equipment : list string;
  rec_spells : gmap string (list string);
  rec_notes : string
}.

Definition row_of (r : character_record) : character_row :=
  mk_character (rec_id r) (rec_name r) (rec_class r) (rec_level r) (rec_race r).

(** The integers that SQLite stores in an [INTEGER] column: 64 bits with a
    sign. The driver refuses to bind any other [int]. *)
Definition fits_sqlite_integer (z : Z) : bool := (- 2 ^ 63 <=? z) && (z <? 2 ^ 63).

Definition too_large : py_exn :=
  mk_exn OverflowError "Python int too large to convert to SQLite INTEGER".

Module CharacterStore.

(** The table, keyed by its primary key, and the number of clock readings
    made so far. *)
Record t : Type := mk { rows : gmap string character_record; clock_reads : nat }.

Section Store.
Context (E : env).

(** [DatabaseManager.create_character] on the dict of a character. The
    identifier is the one given unless it is empty, in which case it is
    made of the clock reading. The level is the one [int] among the
    parameters of the statement: when it does not fit an [INTEGER] the
    driver raises at the binding, before the statement runs. A second row
    under a primary key is refused. *)
Definition create_character (character_data : character_dict) (store : t)
  : (py_exn + string) * t :=
  let '(character_id, store) :=
    if String.eqb (cd_id character_data) ""
    then ("char_" +:+ strftime_compact (wall_clock E (clock_reads store)),
          mk (rows store) (S (clock_reads store)))
    else (cd_id character_data, store) in
  if negb (fits_sqlite_integer (cd_level character_data)) then (inl too_large, store)
  else
    match rows store !! character_id with
    | Some _ =>
        (inl (mk_exn IntegrityError "UNIQUE constraint failed: characters.id"), store)
    | None =>
        let row :=
          mk_character_record
            character_id (cd_name character_data) (cd_class character_data)
            (cd_level character_data) (cd_race character_data)
            (cd_background character_data) (cd_stats character_data)
            (cd_skills character_data) (cd_equipment character_data)
            (cd_spells character_data) (cd_notes character_data) in
        (inr character_id, mk (<[character_id := row]> (rows store)) (clock_reads store))
    end.

(** [DatabaseManager.get_character] *)
Definition get_character (character_id : string) (store : t) : option character_record :=
  rows store !! character_id.

(** [CharacterManager.load_character]: the row has no column for the hit
    points, the armour class or the experience, which take the defaults of
    [char_data.get], and the proficiency bonus is not passed and takes the
    default of the dataclass. A race, class or background that is no value
    of its enumeration is a [ValueError]. *)
Definition load_character (character_id : string) (store : t)
  : exn_class + option Character.t :=
  match get_character character_id store with
  | None => inr None
  | Some char_data =>
      match CharacterRace.of_value (rec_race char_data) with
      | None => inl ValueError
      | Some race =>
          match CharacterClass.of_value (rec_class char_data) with
          | None => inl ValueError
          | Some character_class =>
              match Background.of_value (rec_background char_data) with
              | None => inl ValueError
              | Some background =>
                  inr (Some (Character.mk
                               (rec_id char_data) (rec_name char_data)
                               race character_class background
                               (rec_level char_data) (rec_stats char_data)
                               0 0 10 2
                               (rec_skills char_data) (rec_equipment char_data)
                               (rec_spells char_data) (rec_notes char_data) 0))
              end
          end
      end
  end.

End Store.
End CharacterStore.

(** A travelling character with hit points, armour and experience. *)
Definition veteran : Character.t :=
  Character.mk "char_aria" "Aria" CharacterRace.ELF CharacterClass.ROGUE
               Background.CRIMINAL 5 sample_scores 31 38 14 3
               {["Stealth" := true]} ["Dagger"; "Thieves' tools"] ∅ "" 6500.

Definition empty_store : CharacterStore.t := CharacterStore.mk ∅ 0.

(** A character whose level is one more than an [INTEGER] holds. *)
Definition overgrown : Character.t :=
  Character.mk "char_titan" "Titan" CharacterRace.HUMAN CharacterClass.FIGHTER
               Background.SOLDIER (2 ^ 63) sample_scores 10 10 10 2 ∅ [] ∅ "" 0.

(** ** [dice.py]: dice notation *)

(** [s.replace(' ', '')] *)
Fixpoint remove_spaces (s : string) : string :=
  match s with
  | EmptyString => EmptyString
  | String c t => if Ascii.eqb c " " then remove_spaces t else String c (remove_spaces t)
  end.

(** [s.split(sep)] for a separator of one character: the pieces between
    the separators, of which there is always at least one. *)
Fixpoint split_char (sep : ascii) (s : string) : list string :=
  match s with
  | EmptyString => [EmptyString]
  | String c t =>
      if Ascii.eqb c sep then EmptyString :: split_char sep t
      else match split_char sep t with
           | piece :: pieces => String c piece :: pieces
           | [] => [String c EmptyString]
           end
  end.

(** The dict [dice_type_map] of [parse_dice_notation] *)
Definition dice_type_map : list (Z * DiceType.t) :=
  [(4, DiceType.D4); (6, DiceType.D6); (8, DiceType.D8); (10, DiceType.D10);
   (12, DiceType.D12); (20, DiceType.D20); (100, DiceType.D100)].

Definition dice_type_map_get (dice_value : Z) : option DiceType.t :=
  option_map snd (List.find (fun kv => fst kv =? dice_value) dice_type_map).

Module DiceNotation.
Section Notation.
(** The builtin [int(s)] on a string, which answers with the integer or
    with the [ValueError] that it raises. *)
Context (py_int : string -> py_exn + Z).

(** [DiceRoller.parse_dice_notation]. The pieces [parts[0]], [parts[1]],
    [dice_parts[0]] and [dice_parts[1]] exist whenever they are read,
    because the separator occurs in the string that was split. *)
Definition parse_dice_notation (notation : string) : py_exn + (Z * DiceType.t * Z) :=
  let notation := remove_spaces (PyStr.lower notation) in
  let split_modifier : py_exn + (string * Z) :=
    if PyStr.contains "+" notation then
      let parts := split_char "+" notation in
      match py_int (nth 1 parts "") with
      | inl e => inl e
      | inr modifier => inr (nth 0 parts "", modifier)
      end
    else if PyStr.contains "-" notation then
      let parts := split_char "-" notation in
      match py_int (nth 1 parts "") with
      | inl e => inl e
      | inr modifier => inr (nth 0 parts "", - modifier)
      end
    else inr (notation, 0) in
  match split_modifier with
  | inl e => inl e
  | inr (notation, modifier) =>
      if negb (PyStr.contains "d" notation) then
        inl (mk_exn ValueError ("Invalid dice notation: " +:+ notation))
      else
        let dice_parts := split_char "d" notation in
        let count :=
          if PyStr.truthy (nth 0 dice_parts "") then py_int (nth 0 dice_parts "")
          else inr 1 in
        match count with
        | inl e => inl e
        | inr count =>
            match py_int (nth 1 dice_parts "") with
            | inl e => inl e
            | inr dice_value =>
                match dice_type_map_get dice_value with
                | None =>
                    inl (mk_exn ValueError
                           ("Unsupported dice type: d" +:+ PyStr.str_of_int dice_value))
                | Some dice_type => inr (count, dice_type, modifier)
                end
            end
        end
  end.

(** [DiceRoller.roll_notation] from the draw [n] of the generator on *)
Definition roll_notation (randint : nat -> Z -> Z -> Z) (n : nat) (notation : string)
  : py_exn + multi_dice_roll :=
  match parse_dice_notation notation with
  | inl e => inl e
  | inr (count, dice_type, modifier) =>
      inr (DiceRoller.roll_multiple randint n dice_type count modifier)
  end.
End Notation.
End DiceNotation.

(** What [parse_dice_notation] returns once the three numbers are read:
    the triple, or the error for a number of sides that is no die. *)
Definition parsed (sides count modifier : Z) : py_exn + (Z * DiceType.t * Z) :=
  match dice_type_map_get sides with
  | None => inl (mk_exn ValueError ("Unsupported dice type: d" +:+ PyStr.str_of_int sides))
  | Some dice_type => inr (count, dice_type, modifier)
  end.

(** The notation that a count, a die and a modifier are written in. *)
Definition notation_of (count : Z) (dice_type : DiceType.t) (modifier : Z) : string :=
  PyStr.str_of_int count +:+ "d" +:+ PyStr.str_of_int (DiceType.value dice_type) +:+
  (if modifier =? 0 then ""
   else if 0 <? modifier then "+" +:+ PyStr.str_of_int modifier
   else "-" +:+ PyStr.str_of_int (- modifier)).

(** [int] on the decimal numerals, with an optional minus sign. *)
Definition decimal_int (s : string) : py_exn + Z :=
  match NilZero.int_of_string s with
  | Some d => inr (Z.of_int d)
  | None => inl (mk_exn ValueError ("invalid literal for int() with base 10: '" +:+ s +:+ "'"))
  end.

(** A string with none of the characters that the parser looks for or
    changes: no sign, no [d], no blank and no capital letter. *)
Definition plain_char (c : ascii) : bool :=
  negb (Ascii.eqb c "+") && negb (Ascii.eqb c "-") && negb (Ascii.eqb c "d")
  && negb (Ascii.eqb c " ") && negb (PyStr.is_upper c).

Fixpoint plain (s : string) : bool :=
  match s with
  | EmptyString => true
  | String c t => plain_char c && plain t
  end.

(** ** [ollama_client.py]: start-up *)

(** The answer to [GET /api/tags]: the status, and what [response.json()]
    and [data.get('models', [])] give: an exception of the decoding, no
    list when the key is missing, or the names of the listed models. *)
Record tags_reply : Type := mk_tags {
  tags_status : Z;
  tags_models : py_exn + option (list string)
}.

(** The answer to [POST /api/pull]: the status, and the exception, if any,
    that ends the loop over the lines of progress. *)
Record pull_reply : Type := mk_pull {
  pull_status : Z;
  pull_stream : option py_exn
}.

Module OllamaStartup.

(** The client: its HTTP session ([None] before [initialize] and after
    [close], else open or closed), the number of requests sent, and the
    errors logged. *)
Record client : Type := mk {
  session : option bool;
  requests : nat;
  errors : list (string * string)
}.

Definition log_error (msg : string) (c : client) : client :=
  mk (session c) (requests c) (errors c ++ [(OllamaClient.logger, msg)]).

Section Startup.
(** [self.base_url] and [self.model]. *)
Context (base_url model : string).
(** [isinstance(e, aiohttp.ClientError)] *)
Context (is_client_error : py_exn -> bool).
(** The two exchanges with the backend, at the [n]-th request. *)
Context (http_get_tags : nat -> py_exn + tags_reply).
Context (http_post_pull : nat -> string -> py_exn + pull_reply).

Definition get_tags (c : client) : (py_exn + tags_reply) * client :=
  (http_get_tags (requests c), mk (session c) (S (requests c)) (errors c)).

(** The handler [except aiohttp.ClientError] of [_check_connection]. *)
Definition as_connection_error (e : py_exn) : py_exn :=
  if is_client_error e
  then mk_exn ConnectionError
              ("Cannot connect to Ollama at " +:+ base_url +:+ ": " +:+ exn_text e)
  else e.

(** [OllamaClient._check_connection] *)
Definition _check_connection (c : client) : (py_exn + unit) * client :=
  let '(reply, c) := get_tags c in
  match reply with
  | inl e => (inl (as_connection_error e), c)
  | inr response =>
      if negb (tags_status response =? 200) then
        (inl (mk_exn ConnectionError
                     ("Ollama server returned status "
                      +:+ PyStr.str_of_int (tags_status response))), c)
      else
        match tags_models response with
        | inl e => (inl (as_connection_error e), c)
        | inr _ => (inr tt, c)
        end
  end.

(** [OllamaClient.list_models] *)
Definition list_models (c : client) : (py_exn + list string) * client :=
  let '(reply, c) := get_tags c in
  match reply with
  | inl e => (inl e, c)
  | inr response =>
      if negb (tags_status response =? 200) then
        (inl (mk_exn Exception
                     ("Failed to list models: " +:+ PyStr.str_of_int (tags_status response))),
         c)
      else
        match tags_models response with
        | inl e => (inl e, c)
        | inr models => (inr (default [] models), c)
        end
  end.

(** [OllamaClient.pull_model] *)
Definition pull_model (model_name : string) (c : client) : bool * client :=
  let reply := http_post_pull (requests c) model_name in
  let c := mk (session c) (S (requests c)) (errors c) in
  let failure : option py_exn :=
    match reply with
    | inl e => Some e
    | inr response =>
        if negb (pull_status response =? 200) then
          Some (mk_exn Exception
                       ("Failed to pull model: " +:+ PyStr.str_of_int (pull_status response)))
        else pull_stream response
    end in
  match failure with
  | Some e =>
      (false, log_error ("Failed to pull model " +:+ model_name +:+ ": " +:+ exn_text e) c)
  | None => (true, c)
  end.

(** [OllamaClient._ensure_model_available] *)
Definition _ensure_model_available (c : client) : (py_exn + unit) * client :=
  let '(available_models, c) := list_models c in
  match available_models with
  | inl e => (inl e, c)
  | inr available_models =>
      if negb (existsb (fun name => PyStr.startswith model name) available_models) then
        let '(_, c) := pull_model model c in (inr tt, c)
      else (inr tt, c)
  end.

(** [OllamaClient.initialize] *)
Definition initialize (c : client) : (py_exn + unit) * client :=
  let c := mk (Some true) (requests c) (errors c) in
  let '(outcome, c) :=
    match _check_connection c with
    | (inl e, c) => (inl e, c)
    | (inr _, c) => _ensure_model_available c
    end in
  match outcome with
  | inl e =>
      let c := log_error ("Failed to initialize Ollama client: " +:+ exn_text e) c in
      (inl e, mk (Some false) (requests c) (errors c))
  | inr _ => (inr tt, c)
  end.

(** [OllamaClient.close] *)
Definition close (c : client) : client :=
  match session c with
  | Some _ => mk None (requests c) (errors c)
  | None => c
  end.
End Startup.
End OllamaStartup.


Definition refuses_pull : nat -> string -> py_exn + pull_reply :=
  fun _ _ => inr (mk_pull 500 None).


Definition new_client : OllamaStartup.client := OllamaStartup.mk None 0 [].
(** * Properties *)

(** ** The digest against its published test vectors *)

Example md5_empty : MD5.hexdigest (MD5.encode "") = "d41d8cd98f00b204e9800998ecf8427e".
Proof. vm_compute. reflexivity. Qed.

Example md5_abc : MD5.hexdigest (MD5.encode "abc") = "900150983cd24fb0d6963f7d28e17f72".
Proof. vm_compute. reflexivity. Qed.

Example md5_message_digest :
  MD5.hexdigest (MD5.encode "message digest") = "f96b697d7cb7938d525a2f31aaf161d0".
Proof. vm_compute. reflexivity. Qed.

Example md5_two_blocks :
  MD5.hexdigest (MD5.encode (String.concat "" (repeat "a" 56%nat)))
  = "3b0c8ac703f828b04c6c197006d17218".
Proof. vm_compute. reflexivity. Qed.

(** ** Ability modifiers *)

Section Modifiers.
Import AbilityScores.

Lemma floor_div_is_spec (score : Z) : (score - 10) / 2 = spec_modifier score.
Proof.
  unfold spec_modifier, Qdiv, Qmult, Qinv, inject_Z, Qfloor. cbn.
  now rewrite Z.mul_1_r.
Qed.

Lemma getattr_total (self : t) (name : string) :
  In name ability_names -> exists score, getattr self name = inr score.
Proof.
  intros Hin. unfold ability_names in Hin. cbn in Hin.
  repeat (destruct Hin as [<- | Hin]; [eexists; reflexivity |]).
  contradiction.
Qed.
End Modifiers.

(** C9. For an ability whose score lies between 1 and 30, [get_modifier]
    returns the floor of (score - 10) / 2; the result is negative exactly
    for the scores below 10. *)
Theorem get_modifier_floor (self : AbilityScores.t) (ability : string) (score : Z) :
  AbilityScores.getattr self (PyStr.lower ability) = inr score ->
  1 <= score <= 30 ->
  AbilityScores.get_modifier self ability = inr (AbilityScores.spec_modifier score)
  /\ (score < 10 <-> AbilityScores.spec_modifier score < 0).
Proof.
  intros Hget Hrange. unfold AbilityScores.get_modifier. rewrite Hget.
  rewrite <- floor_div_is_spec. split; [reflexivity |].
  split; intros H.
  - apply Z.div_lt_upper_bound; lia.
  - destruct (Z.lt_ge_cases score 10) as [Hlt | Hge]; [exact Hlt |].
    assert (0 <= (score - 10) / 2) by (apply Z.div_pos; lia). lia.
Qed.

Lemma get_modifier_floor_witness :
  AbilityScores.get_modifier sample_scores "Dexterity" = inr (AbilityScores.spec_modifier 8)
  /\ (8 < 10 <-> AbilityScores.spec_modifier 8 < 0).
Proof.
  apply (get_modifier_floor sample_scores "Dexterity" 8); [reflexivity | lia].
Defined.

(** The four scores that the specification quotes, read through the four
    spellings of an ability name. *)
Example modifier_of_15 : AbilityScores.get_modifier sample_scores "strength" = inr 2.
Proof. reflexivity. Qed.

Example modifier_of_8 : AbilityScores.get_modifier sample_scores "Dexterity" = inr (-1).
Proof. reflexivity. Qed.

Example modifier_of_10 : AbilityScores.get_modifier sample_scores "CONSTITUTION" = inr 0.
Proof. reflexivity. Qed.

Example modifier_of_3 : AbilityScores.get_modifier sample_scores "intelligence" = inr (-4).
Proof. reflexivity. Qed.

(** ** The structured-response classifier *)

Lemma scan_dice_cases (patterns : list string) (response : string) (acc : list pydict) :
  OllamaClient.scan_dice patterns response acc = acc
  \/ (PyStr.contains "d20" (PyStr.lower response) = true
      /\ OllamaClient.scan_dice patterns response acc = acc ++ [d20_entry]).
Proof.
  induction patterns as [| pattern rest IH]; cbn -[PyStr.contains PyStr.lower].
  - now left.
  - destruct (PyStr.contains (PyStr.lower pattern) (PyStr.lower response)).
    + destruct (PyStr.contains "d20" (PyStr.lower response)) eqn:Hd20.
      * right. split; reflexivity.
      * now left.
    + exact IH.
Qed.

(** C10. The list that the classifier returns under [dice_needed] has at
    most one entry, and this entry is a d20; a response that does not
    mention a d20, in any letter case, gets an empty list whatever other
    die it names. *)
Theorem dice_needed_only_d20 (model response : string) :
  dict_get "dice_needed" (OllamaClient._parse_dm_response model response)
  = Some (VList (map VDict (dice_needed_of response)))
  /\ (length (dice_needed_of response) <= 1)%nat
  /\ Forall (fun d => dict_get "type" d = Some (VStr "d20")) (dice_needed_of response)
  /\ (PyStr.contains "d20" (PyStr.lower response) = false -> dice_needed_of response = []).
Proof.
  split; [reflexivity |]. unfold dice_needed_of.
  destruct (scan_dice_cases OllamaClient.dice_patterns response []) as [-> | [Hd20 ->]].
  - repeat split; [cbn; lia | constructor].
  - repeat split.
    + cbn. lia.
    + repeat constructor.
    + intros Hno. congruence.
Qed.

(** A response that names a d6 only: a dice pattern is found and no die is
    asked for. *)
Lemma dice_needed_only_d20_witness :
  existsb (fun p => PyStr.contains (PyStr.lower p) (PyStr.lower "Roll a d6 for damage"))
          OllamaClient.dice_patterns = true
  /\ dict_get "dice_needed" (OllamaClient._parse_dm_response "llama3" "Roll a d6 for damage")
     = Some (VList []).
Proof.
  split; [reflexivity |].
  destruct (dice_needed_only_d20 "llama3" "Roll a d6 for damage") as (Hget & _ & _ & Hnone).
  rewrite Hget, Hnone; reflexivity.
Defined.

Example dice_needed_d20 :
  dice_needed_of "Roll a D20 for Investigation" = [d20_entry].
Proof. reflexivity. Qed.

Example dice_needed_no_pattern : dice_needed_of "The door creaks open." = [].
Proof. reflexivity. Qed.

(** ** The prompt of the orchestrator *)

Section PromptText.

Lemma append_cons (ch : ascii) (a b : string) : String ch a +:+ b = String ch (a +:+ b).
Proof. reflexivity. Qed.

Lemma append_assoc (a b c : string) : (a +:+ b) +:+ c = a +:+ (b +:+ c).
Proof.
  induction a as [| ch a IH]; [reflexivity |].
  rewrite !append_cons. now f_equal.
Qed.

Lemma append_empty_r (a : string) : a +:+ "" = a.
Proof.
  induction a as [| ch a IH]; [reflexivity |].
  rewrite append_cons. now f_equal.
Qed.

Lemma concat_empty_cons (a : string) (l : list string) :
  String.concat "" (a :: l) = a +:+ String.concat "" l.
Proof.
  destruct l as [| b l]; [symmetry; apply append_empty_r | reflexivity].
Qed.

Lemma concat_empty_app (l1 l2 : list string) :
  String.concat "" (l1 ++ l2) = String.concat "" l1 +:+ String.concat "" l2.
Proof.
  induction l1 as [| a l1 IH]; [reflexivity |].
  rewrite <- app_comm_cons, !concat_empty_cons, IH. now rewrite append_assoc.
Qed.

Lemma join_head (sep first : string) (rest : list string) :
  PyStr.join sep (first :: rest) = first +:+ joined_tail sep rest.
Proof.
  unfold PyStr.join, joined_tail. revert first.
  induction rest as [| x rest IH]; intros first.
  - cbn. now rewrite append_empty_r.
  - change (String.concat sep (first :: x :: rest))
      with (first +:+ sep +:+ String.concat sep (x :: rest)).
    rewrite IH, map_cons, concat_empty_cons.
    now rewrite append_assoc.
Qed.

Lemma joined_tail_app (sep : string) (l1 l2 : list string) :
  joined_tail sep (l1 ++ l2) = joined_tail sep l1 +:+ joined_tail sep l2.
Proof. unfold joined_tail. rewrite map_app. apply concat_empty_app. Qed.

End PromptText.

Section PromptOrder.
Context (E : env).

(** The parts of a prompt: the system instructions, then what the
    session contributes, then the action and the closing request. *)
Lemma prompt_parts_frame (self : engine) (action : string) (context : list result) :
  DMEngine.prompt_parts E self action context
  = DMEngine.system_prompt
      :: dynamic_parts E self context ++ [action_line action; closing_line].
Proof.
  unfold DMEngine.prompt_parts, dynamic_parts.
  destruct (active_character self), (campaign_context self), context, (session_memory self);
    cbn [app]; rewrite <- ?app_assoc; reflexivity.
Qed.

End PromptOrder.

(** C7 (as amended). In every prompt the system instructions come first,
    before all that the session contributes (character, campaign,
    retrieved results, session memory, in this order), and the player's
    action is the last of these contributions: only the fixed request
    "Provide a detailed DM response:" follows it. *)
Theorem prompt_order (E : env) (self : engine) (action : string) (context : list result) :
  DMEngine.prompt_parts E self action context
  = DMEngine.system_prompt :: dynamic_parts E self context ++ [action_line action; closing_line]
  /\ DMEngine._build_dm_prompt E self action context
     = DMEngine.system_prompt +:+ joined_tail nl (dynamic_parts E self context)
       +:+ nl +:+ action_line action +:+ nl +:+ closing_line
  /\ starts_with DMEngine.system_prompt (DMEngine._build_dm_prompt E self action context)
  /\ ends_with (action_line action +:+ nl +:+ closing_line)
               (DMEngine._build_dm_prompt E self action context).
Proof.
  pose proof (prompt_parts_frame E self action context) as Hparts.
  assert (Htext : DMEngine._build_dm_prompt E self action context
                  = DMEngine.system_prompt +:+ joined_tail nl (dynamic_parts E self context)
                    +:+ nl +:+ action_line action +:+ nl +:+ closing_line).
  { unfold DMEngine._build_dm_prompt. rewrite Hparts, join_head, joined_tail_app.
    unfold joined_tail at 2. rewrite !map_cons, !concat_empty_cons.
    change (String.concat "" (map _ [])) with "".
    now rewrite append_empty_r, !append_assoc. }
  split; [exact Hparts |]. split; [exact Htext |]. split.
  - rewrite Htext. eexists. reflexivity.
  - rewrite Htext.
    exists (DMEngine.system_prompt +:+ joined_tail nl (dynamic_parts E self context) +:+ nl).
    now rewrite !append_assoc.
Qed.

Section Suffixes.

Lemma length_append (a b : string) :
  String.length (a +:+ b) = (String.length a + String.length b)%nat.
Proof.
  induction a as [| ch a IH]; [reflexivity |].
  rewrite append_cons. cbn [String.length]. now rewrite IH.
Qed.

(** A string that ends with a suffix has the characters of the suffix
    at its end. *)
Lemma ends_with_get (suffix s : string) (n : nat) :
  ends_with suffix s ->
  String.get (n + (String.length s - String.length suffix)) s = String.get n suffix.
Proof.
  intros [before ->]. rewrite length_append.
  replace (String.length before + String.length suffix - String.length suffix)%nat
    with (String.length before) by lia.
  symmetry. apply append_correct2.
Qed.

End Suffixes.

(** C7, as stated, fails in its last part: the last element of a prompt is
    the request for a response, not the player's action, and the text of
    the prompt does not end with the action. *)
Lemma action_is_not_the_last_element :
  let E := healthy ticking_clock in
  let action := "I search the room" in
  last (DMEngine.prompt_parts E fresh_engine action []) = Some closing_line
  /\ closing_line <> action_line action
  /\ ~ ends_with action (DMEngine._build_dm_prompt E fresh_engine action []).
Proof.
  cbv zeta. split; [reflexivity |]. split; [discriminate |].
  intros Hends. apply (ends_with_get _ _ 16) in Hends.
  vm_compute in Hends. discriminate.
Qed.

(** ** Sorting by distance *)

Section Sorting.
Import VectorStore.

Lemma insert_by_distance_perm (x : Q * result) (l : list (Q * result)) :
  Permutation (insert_by_distance x l) (x :: l).
Proof.
  induction l as [| y rest IH]; cbn; [reflexivity |].
  destruct (Qle_bool (fst x) (fst y)); [reflexivity |].
  rewrite IH. apply perm_swap.
Qed.

Lemma stable_sort_perm (l : list (Q * result)) : Permutation (stable_sort l) l.
Proof.
  induction l as [| x rest IH]; cbn; [reflexivity |].
  rewrite insert_by_distance_perm. now constructor.
Qed.

Lemma insert_by_distance_sorted (x : Q * result) (l : list (Q * result)) :
  StronglySorted key_le l -> StronglySorted key_le (insert_by_distance x l).
Proof.
  induction 1 as [| y rest Hsorted IH Hall]; cbn.
  - repeat constructor.
  - destruct (Qle_bool (fst x) (fst y)) eqn:Hcmp.
    + apply Qle_bool_iff in Hcmp.
      constructor; [now constructor |].
      constructor; [exact Hcmp |].
      eapply Forall_impl; [exact Hall |].
      intros z Hz. unfold key_le in *. eapply Qle_trans; eassumption.
    + assert (Hlt : (fst y < fst x)%Q).
      { apply Qnot_le_lt. intros Hle. apply Qle_bool_iff in Hle. congruence. }
      constructor; [exact IH |].
      eapply Permutation_Forall; [symmetry; apply insert_by_distance_perm |].
      constructor; [now apply Qlt_le_weak | exact Hall].
Qed.

Lemma stable_sort_sorted (l : list (Q * result)) : StronglySorted key_le (stable_sort l).
Proof.
  induction l as [| x rest IH]; cbn; [constructor |].
  now apply insert_by_distance_sorted.
Qed.

Lemma keyed_inv (results : list result) (kl : list (Q * result)) :
  keyed results = Some kl ->
  map snd kl = results /\ Forall (fun p => r_distance (snd p) = Some (fst p)) kl.
Proof.
  revert kl. induction results as [| x rest IH]; intros kl Hk; cbn in Hk.
  - inversion Hk. split; [reflexivity | constructor].
  - destruct (r_distance x) as [d |] eqn:Hd; [| discriminate].
    destruct (keyed rest) as [l |]; [| discriminate].
    inversion Hk; subst kl. destruct (IH l eq_refl) as [Hmap Hall].
    split; [cbn; now rewrite Hmap | constructor; [exact Hd | exact Hall]].
Qed.

Lemma keyed_total (results : list result) :
  Forall (fun x => is_Some (r_distance x)) results -> exists kl, keyed results = Some kl.
Proof.
  induction 1 as [| x rest [d Hd] _ [kl IH]]; cbn.
  - now eexists.
  - rewrite Hd, IH. now eexists.
Qed.

Lemma ascending_of_keys (kl : list (Q * result)) :
  StronglySorted key_le kl ->
  Forall (fun p => r_distance (snd p) = Some (fst p)) kl ->
  ascending (map snd kl).
Proof.
  unfold ascending. induction 1 as [| p rest Hsorted IH Hall]; intros Hkeys; cbn.
  - constructor.
  - inversion Hkeys as [| ? ? Hp Hrest]; subst.
    constructor; [now apply IH |].
    apply Forall_map. apply Forall_forall. intros q Hq.
    rewrite Forall_forall in Hall, Hrest.
    unfold distance_le. rewrite Hp, (Hrest q Hq). now apply Hall.
Qed.

Lemma sort_by_distance_sorted (results sorted : list result) :
  sort_by_distance results = inr sorted ->
  ascending sorted /\ Permutation sorted results.
Proof.
  unfold sort_by_distance. intros Hsort.
  destruct results as [| x [| y rest]].
  - inversion Hsort. split; [constructor | reflexivity].
  - inversion Hsort. split; [repeat constructor | reflexivity].
  - destruct (keyed (x :: y :: rest)) as [kl |] eqn:Hk; [| discriminate].
    inversion Hsort; subst sorted. destruct (keyed_inv _ _ Hk) as [Hmap Hall].
    split.
    + apply ascending_of_keys; [apply stable_sort_sorted |].
      eapply Permutation_Forall; [symmetry; apply stable_sort_perm | exact Hall].
    + rewrite <- Hmap. apply Permutation_map, stable_sort_perm.
Qed.

Lemma sort_by_distance_total (results : list result) :
  Forall (fun x => is_Some (r_distance x)) results ->
  exists sorted, sort_by_distance results = inr sorted.
Proof.
  intros Hall. unfold sort_by_distance.
  destruct results as [| x [| y rest]]; [now eexists | now eexists |].
  destruct (keyed_total _ Hall) as [kl ->]. now eexists.
Qed.

Lemma ascending_firstn (n : nat) (l : list result) : ascending l -> ascending (firstn n l).
Proof.
  unfold ascending. intros Hl. revert n.
  induction Hl as [| x rest Hsorted IH Hall]; intros [| n]; cbn; try constructor.
  - apply IH.
  - eapply Forall_forall. intros y Hy. rewrite Forall_forall in Hall. apply Hall.
    eapply subseteq_take, Hy.
Qed.

Lemma ascending_slice_to (k : Z) (l : list result) :
  ascending l -> ascending (PyStr.slice_to k l).
Proof. unfold PyStr.slice_to. destruct (0 <=? k); apply ascending_firstn. Qed.

Lemma length_slice_to (k : Z) (l : list result) :
  0 <= k -> Z.of_nat (length (PyStr.slice_to k l)) <= k.
Proof.
  intros Hk. unfold PyStr.slice_to. destruct (0 <=? k) eqn:Hcmp; [| lia].
  rewrite length_firstn. lia.
Qed.

End Sorting.


(** ** The semantic memory index *)

Section IndexQueries.
Context (E : env).
Import VectorStore.

(** A query over all partitions, in one equation. *)
Lemma get_relevant_context_all (query : string) (limit : Z) (w : world) :
  get_relevant_context E query limit "all" w =
  match pool_all E query limit w with
  | inl e => (Return [], logged logger ("Failed to get relevant context: " +:+ exn_text e) w)
  | inr pool =>
      match sort_by_distance pool with
      | inl e => (Return [], logged logger ("Failed to get relevant context: " +:+ exn_text e) w)
      | inr sorted => (Return (PyStr.slice_to limit sorted), w)
      end
  end.
Proof.
  unfold get_relevant_context, pool_all, try_except, search, chroma_query_at.
  change (String.eqb "all" "all") with true. cbn [orb].
  unfold bind, get, lift, raise, ret, log_error, modify, logged. cbn [get_collection].
  destruct (chroma_query E (ticks w) Campaigns _ _ _ _) as [e | c]; [reflexivity |].
  destruct (chroma_query E (ticks w) Memories _ _ _ _) as [e | m]; [reflexivity |].
  destruct (chroma_query E (ticks w) Characters _ _ _ _) as [e | h]; [reflexivity |].
  cbn [app]. rewrite <- app_assoc.
  destruct (sort_by_distance _) as [e | sorted]; reflexivity.
Qed.
End IndexQueries.

Section IndexWrites.
Context (E : env).
Import VectorStore.

Lemma generate_id_eq (content : string) (md : metadata) (w : world) :
  _generate_id E content md w
  = (Return (fragment_id (wall_clock E (ticks w)) content md), later 1 w).
Proof.
  unfold _generate_id, fragment_id, now, tick, bind, ret, later. cbn [fst snd].
  destruct (md_truthy md "session_id"), (md_truthy md "character_id"),
           (md_truthy md "campaign_id"); reflexivity.
Qed.

(** An insertion, in one equation: two clock readings, then the write. *)
Lemma add_to_eq (p : partition) (type_tag failure content : string) (md : metadata)
      (w : world) :
  add_to E p type_tag failure content md w =
  match chroma_add_fault E (2 + ticks w) p content with
  | Some e => (Raise e, logged logger (failure +:+ exn_text e) (later 2 w))
  | None =>
      let id := fragment_id (wall_clock E (ticks w)) content md in
      (Return id,
       stored p id content (stamped type_tag (wall_clock E (1 + ticks w)) md) (later 2 w))
  end.
Proof.
  unfold add_to, try_except, bind at 1. rewrite generate_id_eq.
  unfold now, tick, chroma_add, bind, get, ret, raise, set_vs, modify, log_error,
    logged, later, stored, stamped. cbn [ticks vs eng db errors Nat.add].
  destruct (chroma_add_fault E (S (S (ticks w))) p content) as [e |]; [reflexivity |].
  cbn [ticks vs eng db errors].
  destruct (get_collection p (vs w) !! _); reflexivity.
Qed.
End IndexWrites.

Section IndexFacts.
Context (E : env).
Import VectorStore.

Lemma get_set_collection (p : partition) (c : collection) (v : vector_store) :
  get_collection p (set_collection p c v) = c.
Proof. now destruct p. Qed.

Lemma fragment_id_same_second (dt1 dt2 : datetime) (content : string) (md : metadata) :
  strftime_compact dt1 = strftime_compact dt2 ->
  fragment_id dt1 content md = fragment_id dt2 content md.
Proof. intros Hsec. unfold fragment_id. now rewrite Hsec. Qed.

Lemma stored_lookup (p : partition) (id content : string) (md : metadata) (w : world) :
  is_Some (get_collection p (vs (stored p id content md w)) !! id).
Proof.
  unfold stored. cbn [vs].
  destruct (get_collection p (vs w) !! id) as [f |] eqn:Hid.
  - rewrite Hid. now eexists.
  - rewrite get_set_collection, lookup_insert_eq. now eexists.
Qed.

Lemma stored_again (p : partition) (id content : string) (md : metadata) (w : world) :
  is_Some (get_collection p (vs w) !! id) -> vs (stored p id content md w) = vs w.
Proof. intros [f Hid]. unfold stored. cbn [vs]. now rewrite Hid. Qed.

Lemma stored_size (p : partition) (id content : string) (md : metadata) (w : world) :
  get_collection p (vs w) !! id = None ->
  size (get_collection p (vs (stored p id content md w)))
  = S (size (get_collection p (vs w))).
Proof.
  intros Hid. unfold stored. cbn [vs]. rewrite Hid, get_set_collection.
  now apply map_size_insert_None.
Qed.

Lemma insertions_add_to (add : string -> metadata -> M string) (p : partition) :
  In (add, p) (insertions E) -> exists type_tag failure, add = add_to E p type_tag failure.
Proof.
  intros [H | [H | [H | []]]]; inversion H; subst; do 2 eexists; reflexivity.
Qed.
End IndexFacts.

(** C1 (as amended). The fragment id is derived from the content, the
    second that the clock shows and the session, character and campaign
    ids of the metadata. Two insertions of the same content and metadata
    that read the same second yield the same id, and the second insertion
    adds nothing to the store: the partition holds one entry under that
    id. *)
Theorem add_twice_same_second
        (E : env) (add : string -> metadata -> M string) (p : partition)
        (content : string) (md : metadata) (w : world) :
  In (add, p) (insertions E) ->
  chroma_add_fault E (2 + ticks w) p content = None ->
  chroma_add_fault E (4 + ticks w) p content = None ->
  strftime_compact (wall_clock E (ticks w)) = strftime_compact (wall_clock E (2 + ticks w)) ->
  exists id w1 w2,
    add content md w = (Return id, w1)
    /\ add content md w1 = (Return id, w2)
    /\ id = fragment_id (wall_clock E (ticks w)) content md
    /\ is_Some (VectorStore.get_collection p (vs w1) !! id)
    /\ vs w2 = vs w1
    /\ (VectorStore.get_collection p (vs w) !! id = None ->
        size (VectorStore.get_collection p (vs w2))
        = S (size (VectorStore.get_collection p (vs w)))).
Proof.
  intros Hadd Hfirst Hsecond Hclock.
  destruct (insertions_add_to E add p Hadd) as (type_tag & failure & ->).
  set (id := fragment_id (wall_clock E (ticks w)) content md).
  set (w1 := stored p id content (stamped type_tag (wall_clock E (1 + ticks w)) md) (later 2 w)).
  assert (H1 : VectorStore.add_to E p type_tag failure content md w = (Return id, w1)).
  { rewrite add_to_eq, Hfirst. reflexivity. }
  assert (Hin : is_Some (VectorStore.get_collection p (vs w1) !! id))
    by apply stored_lookup.
  exists id, w1, (stored p id content (stamped type_tag (wall_clock E (1 + ticks w1)) md)
                         (later 2 w1)).
  split; [exact H1 |]. split.
  - rewrite add_to_eq.
    change (ticks w1) with (2 + ticks w)%nat.
    change (2 + (2 + ticks w))%nat with (4 + ticks w)%nat. rewrite Hsecond.
    cbv zeta. rewrite <- (fragment_id_same_second _ _ content md Hclock). reflexivity.
  - split; [reflexivity |]. split; [exact Hin |]. split.
    + apply (stored_again p id content _ (later 2 w1)). exact Hin.
    + intros Hfresh.
      rewrite (stored_again p id content _ (later 2 w1) Hin).
      apply (stored_size p id content _ (later 2 w)). exact Hfresh.
Qed.

Lemma add_twice_same_second_witness :
  exists id w1 w2,
    VectorStore.add_memory (healthy frozen_clock) "I search the room" sample_metadata fresh_world
    = (Return id, w1)
    /\ VectorStore.add_memory (healthy frozen_clock) "I search the room" sample_metadata w1
       = (Return id, w2)
    /\ id = fragment_id (frozen_clock 0) "I search the room" sample_metadata
    /\ is_Some (VectorStore.get_collection Memories (vs w1) !! id)
    /\ vs w2 = vs w1
    /\ (VectorStore.get_collection Memories (vs fresh_world) !! id = None ->
        size (VectorStore.get_collection Memories (vs w2))
        = S (size (VectorStore.get_collection Memories (vs fresh_world)))).
Proof.
  apply (add_twice_same_second (healthy frozen_clock) _ Memories
           "I search the room" sample_metadata fresh_world).
  - right. left. reflexivity.
  - reflexivity.
  - reflexivity.
  - reflexivity.
Defined.

(** C1, as stated, fails: with a clock that moves on between the two
    insertions, the same content and metadata get two ids and the memory
    partition holds two entries. *)
Lemma add_twice_later_duplicates :
  let E := healthy ticking_clock in
  let content := "I search the room" in
  let first := VectorStore.add_memory E content sample_metadata fresh_world in
  let second := VectorStore.add_memory E content sample_metadata (snd first) in
  fst first = Return "41412d7b_20260101_120000_sess_1_120000_char_har_aria"
  /\ fst second = Return "41412d7b_20260101_120002_sess_1_120000_char_har_aria"
  /\ fst first <> fst second
  /\ size (memory_collection (vs (snd second))) = 2%nat.
Proof.
  vm_compute. repeat split; try reflexivity. discriminate.
Qed.

Section QueryFacts.
Context (E : env).
Import VectorStore.

Lemma pool_all_answers (query : string) (limit : Z) (w : world)
      (c m h : option query_result) :
  chroma_query E (ticks w) Campaigns (campaign_collection (vs w)) [] query limit = inr c ->
  chroma_query E (ticks w) Memories (memory_collection (vs w)) [] query limit = inr m ->
  chroma_query E (ticks w) Characters (character_collection (vs w)) [] query limit = inr h ->
  pool_all E query limit w
  = inr (_format_results c "campaign" ++ _format_results m "memory"
         ++ _format_results h "character").
Proof.
  intros Hc Hm Hh. unfold pool_all. cbn [get_collection]. now rewrite Hc, Hm, Hh.
Qed.


End QueryFacts.

(** C2. A query over all partitions returns, for every query text and
    every limit, a list in ascending order of distance; for a limit that
    is a count the list has at most [limit] elements and, when the three
    searches answer and each result carries its distance, it is the
    beginning of the pooled results of the campaign, memory and character
    partitions, sorted together. *)
Theorem relevant_context_all_sorted (E : env) (query : string) (limit : Z) (w : world) :
  exists l w',
    VectorStore.get_relevant_context E query limit "all" w = (Return l, w')
    /\ ascending l
    /\ (0 <= limit ->
        Z.of_nat (length l) <= limit
        /\ forall c m h,
             chroma_query E (ticks w) Campaigns (campaign_collection (vs w)) [] query limit
             = inr c ->
             chroma_query E (ticks w) Memories (memory_collection (vs w)) [] query limit
             = inr m ->
             chroma_query E (ticks w) Characters (character_collection (vs w)) [] query limit
             = inr h ->
             let pool := VectorStore._format_results c "campaign"
                         ++ VectorStore._format_results m "memory"
                         ++ VectorStore._format_results h "character" in
             Forall (fun x => is_Some (r_distance x)) pool ->
             exists sorted,
               Permutation sorted pool /\ ascending sorted
               /\ l = firstn (Z.to_nat limit) sorted).
Proof.
  rewrite get_relevant_context_all.
  destruct (pool_all E query limit w) as [e | pool] eqn:Hpool.
  - do 2 eexists. split; [reflexivity |]. split; [constructor |].
    intros Hlimit. split; [cbn; lia |].
    intros c m h Hc Hm Hh. rewrite (pool_all_answers E _ _ _ c m h Hc Hm Hh) in Hpool.
    discriminate.
  - destruct (VectorStore.sort_by_distance pool) as [e | sorted] eqn:Hsort.
    + do 2 eexists. split; [reflexivity |]. split; [constructor |].
      intros Hlimit. split; [cbn; lia |].
      intros c m h Hc Hm Hh pool' Hall.
      rewrite (pool_all_answers E _ _ _ c m h Hc Hm Hh) in Hpool.
      inversion Hpool; subst pool.
      destruct (sort_by_distance_total _ Hall) as [sorted Hsorted].
      fold pool' in Hsort. congruence.
    + destruct (sort_by_distance_sorted _ _ Hsort) as [Hasc Hperm].
      do 2 eexists. split; [reflexivity |].
      split; [now apply ascending_slice_to |].
      intros Hlimit. split; [now apply length_slice_to |].
      intros c m h Hc Hm Hh pool' Hall.
      rewrite (pool_all_answers E _ _ _ c m h Hc Hm Hh) in Hpool.
      inversion Hpool; subst pool.
      exists sorted. split; [exact Hperm |]. split; [exact Hasc |].
      unfold PyStr.slice_to. destruct (0 <=? limit) eqn:Hcmp; [reflexivity | lia].
Qed.

(** Three partitions that answer with distances 0.5 and 0.9, 0.2, 0.1 and
    0.7: the three nearest results come from three partitions. *)
Lemma relevant_context_all_sorted_witness :
  exists l w',
    VectorStore.get_relevant_context three_partitions "Where is the vault?" 3 "all" fresh_world
    = (Return l, w')
    /\ map r_id l = [Some "h1"; Some "m1"; Some "c1"]
    /\ map r_collection l = ["character"; "memory"; "campaign"]
    /\ ascending l
    /\ Z.of_nat (length l) <= 3.
Proof.
  destruct (relevant_context_all_sorted three_partitions "Where is the vault?" 3 fresh_world)
    as (l & w' & Hrun & Hasc & Hcount).
  destruct Hcount as [Hlen _]; [lia |].
  exists l, w'. split; [exact Hrun |].
  assert (Hl : Return l = fst (VectorStore.get_relevant_context three_partitions
                                 "Where is the vault?" 3 "all" fresh_world))
    by now rewrite Hrun.
  vm_compute in Hl. inversion Hl; subst l.
  split; [reflexivity |]. split; [reflexivity |]. split; [exact Hasc | exact Hlen].
Defined.




(** ** The narrative generation gateway *)

Section GatewayFacts.
Context (E : env).

Lemma generate_response_eq (prompt : string) (w : world) :
  OllamaClient.generate_response E prompt w =
  match generation_outcome (ollama_post E (ticks w) prompt) with
  | inl e => (Raise e, logged OllamaClient.logger
                         ("Failed to generate response: " +:+ exn_text e) w)
  | inr text => (Return text, w)
  end.
Proof.
  unfold OllamaClient.generate_response, generation_outcome, try_except, bind, get, lift,
    raise, ret, log_error, modify, logged.
  destruct (ollama_post E (ticks w) prompt) as [e | reply]; [reflexivity |].
  destruct (negb (status reply =? 200)); reflexivity.
Qed.

End GatewayFacts.

(** ** The session orchestrator *)

Section OrchestratorFacts.
Context (E : env).
Import DMEngine.

Lemma only_logs_refl (w : world) : only_logs w w.
Proof. repeat split. exists []. now rewrite app_nil_r. Qed.

Lemma only_logs_logged (name msg : string) (w w' : world) :
  only_logs w w' -> only_logs w (logged name msg w').
Proof.
  intros (He & Hd & Hv & Ht & more & Hm). repeat split; cbn; try assumption.
  exists (more ++ [(name, msg)]). now rewrite Hm, app_assoc.
Qed.

Lemma get_relevant_context_only_logs (query : string) (limit : Z) (w : world) :
  exists l w', VectorStore.get_relevant_context E query limit "all" w = (Return l, w')
               /\ only_logs w w'.
Proof.
  rewrite get_relevant_context_all.
  destruct (pool_all E query limit w) as [e | pool].
  - do 2 eexists. split; [reflexivity |]. apply only_logs_logged, only_logs_refl.
  - destruct (VectorStore.sort_by_distance pool) as [e | sorted].
    + do 2 eexists. split; [reflexivity |]. apply only_logs_logged, only_logs_refl.
    + do 2 eexists. split; [reflexivity |]. apply only_logs_refl.
Qed.

(** The response of the orchestrator to one action, in one equation. *)
Lemma _generate_dm_response_eq (action : string) (context : list result) (w : world) :
  _generate_dm_response E action context w =
  if negb (ollama_client (eng w)) then
    (Return [("narrative", VStr "The DM seems to be deep in thought...");
             ("metadata", VDict [])], w)
  else
    match generation_outcome
            (ollama_post E (ticks w) (_build_dm_prompt E (eng w) action context)) with
    | inl e =>
        (Return (fallback_response e),
         logged logger ("Failed to generate DM response: " +:+ exn_text e)
           (logged OllamaClient.logger ("Failed to generate response: " +:+ exn_text e) w))
    | inr text =>
        (Return [("narrative", VStr text);
                 ("metadata", VDict [("model_used", VStr (ai_model E));
                                     ("context_used", VInt (Z.of_nat (length context)))])],
         w)
    end.
Proof.
  unfold _generate_dm_response, bind at 1, get.
  destruct (negb (ollama_client (eng w))); [reflexivity |].
  unfold try_except, bind at 1. rewrite generate_response_eq.
  destruct (generation_outcome _) as [e | text]; reflexivity.
Qed.

(** Generation never raises into the orchestrator, and its response
    always carries a narrative. *)
Lemma _generate_dm_response_returns (action : string) (context : list result) (w : world) :
  exists d narrative w',
    _generate_dm_response E action context w = (Return d, w')
    /\ dict_get "narrative" d = Some (VStr narrative)
    /\ only_logs w w'.
Proof.
  rewrite _generate_dm_response_eq.
  destruct (negb (ollama_client (eng w))).
  - do 3 eexists. split; [reflexivity |]. split; [reflexivity | apply only_logs_refl].
  - destruct (generation_outcome _) as [e | text].
    + do 3 eexists. split; [reflexivity |]. split; [reflexivity |].
      do 2 apply only_logs_logged. apply only_logs_refl.
    + do 3 eexists. split; [reflexivity |]. split; [reflexivity | apply only_logs_refl].
Qed.
End OrchestratorFacts.

Section Stepping.
Context (E : env).

Lemma bind_returns {A B} (m : M A) (k : A -> M B) (w w' : world) (a : A) :
  m w = (Return a, w') -> bind m k w = k a w'.
Proof. intros H. unfold bind. now rewrite H. Qed.

Lemma bind_raises {A B} (m : M A) (k : A -> M B) (w w' : world) (e : py_exn) :
  m w = (Raise e, w') -> bind m k w = (Raise e, w').
Proof. intros H. unfold bind. now rewrite H. Qed.

Lemma get_eq (w : world) : get w = (Return w, w).
Proof. reflexivity. Qed.

Lemma loop_time_eq (w : world) : loop_time E w = (Return (loop_clock E (ticks w)), later 1 w).
Proof. reflexivity. Qed.

Lemma remember_eq (entry : memory_entry) (w : world) :
  DMEngine.remember entry w = (Return tt, remembered entry w).
Proof. reflexivity. Qed.

Lemma narrative_of_eq (d : pydict) (narrative : string) (w : world) :
  dict_get "narrative" d = Some (VStr narrative) ->
  DMEngine.narrative_of d w = (Return narrative, w).
Proof. intros H. unfold DMEngine.narrative_of. now rewrite H. Qed.
End Stepping.

Section ActionFacts.
Context (E : env).
Import DMEngine.

(** An action in an active session, up to the persistence steps:
    retrieval and generation return, and change nothing but the error
    log. *)
Lemma process_player_action_run (action : string) (context : option pydict)
      (w : world) (s : session) :
  current_session (eng w) = Some s ->
  let w1 := remembered (action_entry action (loop_clock E (ticks w)) context) (later 1 w) in
  exists l w2 d narrative w3,
    VectorStore.get_relevant_context E action 5 "all" w1 = (Return l, w2)
    /\ only_logs w1 w2
    /\ _generate_dm_response E action l w2 = (Return d, w3)
    /\ only_logs w2 w3
    /\ dict_get "narrative" d = Some (VStr narrative)
    /\ process_player_action E action context w
       = persist E s action narrative d
           (remembered (response_entry narrative (loop_clock E (ticks w3)) d) (later 1 w3)).
Proof.
  intros Hs w1.
  destruct (get_relevant_context_only_logs E action 5 w1) as (l & w2 & Hctx & Hlog2).
  destruct (_generate_dm_response_returns E action l w2)
    as (d & narrative & w3 & Hgen & Hnar & Hlog3).
  exists l, w2, d, narrative, w3. repeat (split; [assumption |]).
  unfold process_player_action.
  rewrite (bind_returns _ _ _ _ _ (get_eq w)), Hs.
  rewrite (bind_returns _ _ _ _ _ (loop_time_eq E w)).
  rewrite (bind_returns _ _ _ _ _ (remember_eq _ _)).
  rewrite (bind_returns _ _ _ _ _ Hctx).
  rewrite (bind_returns _ _ _ _ _ Hgen).
  rewrite (bind_returns _ _ _ _ _ (narrative_of_eq d narrative w3 Hnar)).
  rewrite (bind_returns _ _ _ _ _ (loop_time_eq E w3)).
  rewrite (bind_returns _ _ _ _ _ (remember_eq _ _)).
  reflexivity.
Qed.
End ActionFacts.

Section PersistenceFacts.
Context (E : env).
Import DMEngine.

Lemma log_action_eq (session_id action narrative : string) (w : world) :
  DatabaseManager.log_action E session_id action narrative None None w =
  match db_fault E (ticks w) (LogAction session_id) with
  | Some e => (Raise e, w)
  | None => (Return tt, with_actions (logged_rows session_id action narrative) w)
  end.
Proof.
  unfold DatabaseManager.log_action, DatabaseManager.connect, bind, get, raise, ret,
    set_db, modify, with_actions.
  destruct (db_fault E (ticks w) (LogAction session_id)); reflexivity.
Qed.

(** When the semantic write fails, nothing of the persistence steps is
    done and the exception leaves [process_player_action]. *)
Lemma persist_write_fails (s : session) (action narrative : string) (d : pydict)
      (w : world) (e : py_exn) :
  chroma_add_fault E (2 + ticks w) Memories (interaction_text action narrative) = Some e ->
  persist E s action narrative d w
  = (Raise e, logged VectorStore.logger ("Failed to add memory: " +:+ exn_text e) (later 2 w)).
Proof.
  intros Hfault. unfold persist, VectorStore.add_memory.
  apply bind_raises. now rewrite add_to_eq, Hfault.
Qed.

End PersistenceFacts.

(** C4 (as amended). When the write of the "Player: ... | DM: ..." fragment
    to the semantic index fails, [add_memory] logs the error and raises it
    again, and [process_player_action] lets the exception reach its
    caller: no narrative is returned and nothing is written to the action
    log of the relational store. The two entries of the turn are already
    in the session memory. *)
Theorem semantic_write_failure_propagates
        (E : env) (action : string) (context : option pydict) (w : world) (s : session)
        (e : py_exn) :
  current_session (eng w) = Some s ->
  (forall content, chroma_add_fault E (4 + ticks w) Memories content = Some e) ->
  exists w',
    DMEngine.process_player_action E action context w = (Raise e, w')
    /\ db w' = db w
    /\ vs w' = vs w
    /\ (exists earlier,
          errors w' = earlier ++ [(VectorStore.logger, "Failed to add memory: " +:+ exn_text e)])
    /\ (exists narrative asked answered d,
          session_memory (eng w')
          = session_memory (eng w)
            ++ [action_entry action asked context; response_entry narrative answered d]).
Proof.
  intros Hs Hfault.
  destruct (process_player_action_run E action context w s Hs)
    as (l & w2 & d & narrative & w3 & _ & Hlog2 & _ & Hlog3 & _ & Hrun).
  destruct Hlog2 as (He2 & Hd2 & Hv2 & Ht2 & more2 & Hm2).
  destruct Hlog3 as (He3 & Hd3 & Hv3 & Ht3 & more3 & Hm3).
  cbn [eng db vs ticks errors remembered later] in He2, Hd2, Hv2, Ht2, Hm2.
  rewrite Hrun, (persist_write_fails E s action narrative d _ e).
  - eexists. split; [reflexivity |]. cbn [eng db vs ticks errors logged remembered later].
    split; [congruence |]. split; [congruence |]. split; [eexists; reflexivity |].
    exists narrative, (loop_clock E (ticks w)), (loop_clock E (ticks w3)), d.
    cbn [session_memory]. rewrite He3, He2. cbn [session_memory].
    now rewrite <- app_assoc.
  - cbn [ticks remembered later]. rewrite Ht3, Ht2. apply Hfault.
Qed.

(** C4, as stated, fails: with an index that refuses the write, the action
    of an active session ends in the exception of the index, and the
    action log of the relational store stays empty. *)
Lemma semantic_write_failure_not_swallowed :
  let run := DMEngine.process_player_action index_write_down "I search the room" None
               active_world in
  fst run = Raise unreachable
  /\ actions (db active_world) = []
  /\ actions (db (snd run)) = []
  /\ errors (snd run) = [("vector_store", "Failed to add memory: connection refused")].
Proof. vm_compute. repeat split. Qed.

Lemma semantic_write_failure_propagates_witness :
  exists w',
    DMEngine.process_player_action index_write_down "I search the room" None active_world
    = (Raise unreachable, w')
    /\ db w' = db active_world
    /\ vs w' = vs active_world
    /\ (exists earlier,
          errors w'
          = earlier ++ [(VectorStore.logger, "Failed to add memory: " +:+ exn_text unreachable)])
    /\ (exists narrative asked answered d,
          session_memory (eng w')
          = session_memory (eng active_world)
            ++ [action_entry "I search the room" asked None;
                response_entry narrative answered d]).
Proof.
  apply (semantic_write_failure_propagates index_write_down "I search the room" None
           active_world aria_session unreachable).
  - vm_compute. reflexivity.
  - intros content. reflexivity.
Defined.




Section SessionFacts.
Context (E : env).
Import DMEngine.

Lemma process_without_session (action : string) (context : option pydict) (w : world) :
  current_session (eng w) = None ->
  process_player_action E action context w = (Raise no_active_session, w).
Proof.
  intros Hs. unfold process_player_action.
  now rewrite (bind_returns _ _ _ _ _ (get_eq w)), Hs.
Qed.

Lemma end_without_session (w : world) :
  current_session (eng w) = None -> end_session E w = (Return tt, w).
Proof.
  intros Hs. unfold end_session.
  now rewrite (bind_returns _ _ _ _ _ (get_eq w)), Hs.
Qed.

Lemma end_session_eq (w : world) (s : session) :
  current_session (eng w) = Some s ->
  end_session E w =
  match db_fault E (ticks w) (EndSession (s_id s)) with
  | Some e => (Raise e, w)
  | None => (Return tt, ended (s_id s) w)
  end.
Proof.
  intros Hs. unfold end_session.
  rewrite (bind_returns _ _ _ _ _ (get_eq w)), Hs.
  unfold DatabaseManager.end_session, DatabaseManager.connect, bind, get, raise, ret,
    set_db, set_eng, modify, ended, idle.
  destruct (db_fault E (ticks w) (EndSession (s_id s))); reflexivity.
Qed.

Lemma get_character_eq (character_id : string) (w : world) :
  DatabaseManager.get_character E character_id w =
  match db_fault E (ticks w) (GetCharacter character_id) with
  | Some e => (Raise e, w)
  | None => (Return (characters (db w) !! character_id), w)
  end.
Proof.
  unfold DatabaseManager.get_character, DatabaseManager.connect, bind, get, raise, ret.
  destruct (db_fault E (ticks w) (GetCharacter character_id)); reflexivity.
Qed.
End SessionFacts.

(** C5. Without an active session [process_player_action] fails with the
    state error "No active session" and [end_session] does nothing. When
    the relational store accepts the end of an active session,
    [end_session] empties the session memory and resets the session, the
    character and the campaign, so that the next [process_player_action]
    fails with the same state error. *)
Theorem session_state_machine
        (E : env) (action : string) (context : option pydict)
        (resting active : world) (s : session) :
  current_session (eng resting) = None ->
  current_session (eng active) = Some s ->
  db_fault E (ticks active) (EndSession (s_id s)) = None ->
  DMEngine.process_player_action E action context resting = (Raise no_active_session, resting)
  /\ DMEngine.end_session E resting = (Return tt, resting)
  /\ exists after,
       DMEngine.end_session E active = (Return tt, after)
       /\ session_memory (eng after) = []
       /\ current_session (eng after) = None
       /\ active_character (eng after) = None
       /\ campaign_context (eng after) = None
       /\ DMEngine.process_player_action E action context after
          = (Raise no_active_session, after).
Proof.
  intros Hresting Hactive Hdb.
  split; [now apply process_without_session |].
  split; [now apply end_without_session |].
  exists (ended (s_id s) active).
  split; [now rewrite (end_session_eq E active s Hactive), Hdb |].
  repeat (split; [reflexivity |]).
  now apply process_without_session.
Qed.

Lemma session_state_machine_witness :
  DMEngine.process_player_action (healthy ticking_clock) "I search the room" None fresh_world
  = (Raise no_active_session, fresh_world)
  /\ DMEngine.end_session (healthy ticking_clock) fresh_world = (Return tt, fresh_world)
  /\ exists after,
       DMEngine.end_session (healthy ticking_clock) played_world = (Return tt, after)
       /\ session_memory (eng after) = []
       /\ current_session (eng after) = None
       /\ active_character (eng after) = None
       /\ campaign_context (eng after) = None
       /\ DMEngine.process_player_action (healthy ticking_clock) "I search the room" None after
          = (Raise no_active_session, after).
Proof.
  apply (session_state_machine (healthy ticking_clock) "I search the room" None
           fresh_world played_world aria_session).
  - reflexivity.
  - vm_compute. reflexivity.
  - reflexivity.
Defined.

Example played_world_remembers : length (session_memory (eng played_world)) = 2%nat.
Proof. vm_compute. reflexivity. Qed.

(** C8 (the code at the failing input). [create_session] for a character
    that the relational store does not know raises the not-found error
    and creates no session record; it leaves the current session, the
    campaign context and the session memory as they were, but it has
    already overwritten the active character with [None]. *)
Theorem create_session_unknown_character
        (E : env) (character_id : string) (campaign_id : option string) (w : world) :
  db_fault E (ticks w) (GetCharacter character_id) = None ->
  characters (db w) !! character_id = None ->
  DMEngine.create_session E character_id campaign_id w
  = (Raise (mk_exn ValueError ("Character " +:+ character_id +:+ " not found")),
     without_character w).
Proof.
  intros Hdb Hmissing. unfold DMEngine.create_session.
  erewrite bind_returns; [| rewrite get_character_eq, Hdb, Hmissing; reflexivity].
  reflexivity.
Qed.

(** In a session played by Aria, the failed call leaves the session in
    place without its character. *)
Lemma create_session_unknown_character_witness :
  DMEngine.create_session (healthy ticking_clock) "char_ghost" None played_world
  = (Raise (mk_exn ValueError "Character char_ghost not found"),
     without_character played_world)
  /\ active_character (eng played_world) = Some aria
  /\ active_character (eng (without_character played_world)) = None
  /\ current_session (eng (without_character played_world)) = Some aria_session.
Proof.
  split.
  - apply (create_session_unknown_character (healthy ticking_clock) "char_ghost" None
             played_world); vm_compute; reflexivity.
  - vm_compute. repeat split.
Defined.

(** * Further properties *)

(** ** Insertion and lookup in the semantic index *)

Section InsertLookup.
Context (E : env).

Lemma insertions_tagged (add : string -> metadata -> M string) (p : partition) :
  In (add, p) (insertions E) ->
  add = VectorStore.add_to E p (type_tag_of p) (add_failure_of p).
Proof.
  intros [H | [H | [H | []]]]; inversion H; subst; reflexivity.
Qed.

Lemma get_set_collection_other (p q : partition) (c : collection) (v : vector_store) :
  q <> p -> VectorStore.get_collection q (VectorStore.set_collection p c v)
            = VectorStore.get_collection q v.
Proof. destruct p, q; intros H; try reflexivity; congruence. Qed.
End InsertLookup.

(** X1. An insertion that works returns the derived id. When the id is
    free, the partition then holds the content under this id with the
    caller's metadata, in which ["type"] is replaced by the tag of the
    partition and ["timestamp"] by the time of the insertion, whatever the
    caller put there; every other id and every other partition is
    untouched. When the id is taken, the insertion reports the same
    success and the store keeps the old record. *)
Theorem add_then_lookup
        (E : env) (add : string -> metadata -> M string) (p : partition)
        (content : string) (md : metadata) (w : world) :
  In (add, p) (insertions E) ->
  chroma_add_fault E (2 + ticks w) p content = None ->
  let id := fragment_id (wall_clock E (ticks w)) content md in
  exists w',
    add content md w = (Return id, w')
    /\ eng w' = eng w /\ db w' = db w /\ errors w' = errors w
    /\ (forall q, q <> p ->
          VectorStore.get_collection q (vs w') = VectorStore.get_collection q (vs w))
    /\ (forall other, other <> id ->
          VectorStore.get_collection p (vs w') !! other
          = VectorStore.get_collection p (vs w) !! other)
    /\ (is_Some (VectorStore.get_collection p (vs w) !! id) -> vs w' = vs w)
    /\ (VectorStore.get_collection p (vs w) !! id = None ->
        exists stored_md,
          VectorStore.get_collection p (vs w') !! id = Some (mk_fragment content stored_md)
          /\ stored_md !! "type" = Some (type_tag_of p)
          /\ stored_md !! "timestamp" = Some (isoformat (wall_clock E (1 + ticks w)))
          /\ forall k, k <> "type" -> k <> "timestamp" -> stored_md !! k = md !! k).
Proof.
  intros Hadd Hfault id. rewrite (insertions_tagged E add p Hadd).
  rewrite add_to_eq, Hfault. cbv zeta. fold id.
  eexists. split; [reflexivity |].
  repeat (split; [reflexivity |]).
  unfold stored. cbn [vs later].
  destruct (VectorStore.get_collection p (vs w) !! id) as [old |] eqn:Hid.
  - split; [reflexivity |]. split; [reflexivity |]. split; [reflexivity |].
    intros Hnone. discriminate.
  - split; [intros q Hq; now apply get_set_collection_other |].
    split; [intros other Hother; rewrite get_set_collection; now apply lookup_insert_ne |].
    split; [intros [x Hx]; discriminate |].
    intros _. eexists. split; [rewrite get_set_collection; apply lookup_insert_eq |].
    unfold stamped. split; [apply lookup_insert_eq |].
    split; [rewrite lookup_insert_ne by discriminate; apply lookup_insert_eq |].
    intros k Htype Htime. now rewrite !lookup_insert_ne by congruence.
Qed.

(** An NPC imported with ["type": "npc"] is stored as campaign content. *)
Lemma add_then_lookup_witness :
  exists w' stored_md,
    VectorStore.add_campaign_content (healthy ticking_clock) npc_text npc_metadata fresh_world
    = (Return "de524a17_20260101_120000_camp_1_115900", w')
    /\ campaign_collection (vs w') !! "de524a17_20260101_120000_camp_1_115900"
       = Some (mk_fragment npc_text stored_md)
    /\ npc_metadata !! "type" = Some "npc"
    /\ stored_md !! "type" = Some "campaign_content"
    /\ stored_md !! "name" = Some "Elandra".
Proof.
  destruct (add_then_lookup (healthy ticking_clock)
              (VectorStore.add_campaign_content (healthy ticking_clock)) Campaigns
              npc_text npc_metadata fresh_world)
    as (w' & Hrun & _ & _ & _ & _ & _ & _ & Hfresh);
    [left; reflexivity | reflexivity |].
  destruct Hfresh as (stored_md & Hget & Htype & _ & Hkeep); [vm_compute; reflexivity |].
  assert (Hid : fragment_id (wall_clock (healthy ticking_clock) (ticks fresh_world))
                  npc_text npc_metadata
                = "de524a17_20260101_120000_camp_1_115900") by (vm_compute; reflexivity).
  rewrite Hid in Hrun, Hget.
  exists w', stored_md. split; [exact Hrun |]. split; [exact Hget |].
  split; [vm_compute; reflexivity |]. split; [exact Htype |].
  rewrite Hkeep by discriminate. vm_compute. reflexivity.
Defined.

(** ** A turn of the session *)

Section TurnFacts.
Context (E : env).

(** The persistence steps in one equation: the semantic write, then the
    action log. *)
Lemma persist_eq (s : session) (action narrative : string) (d : pydict) (w : world) :
  persist E s action narrative d w =
  match chroma_add_fault E (2 + ticks w) Memories (interaction_text action narrative) with
  | Some e =>
      (Raise e, logged VectorStore.logger ("Failed to add memory: " +:+ exn_text e) (later 2 w))
  | None =>
      let id := fragment_id (wall_clock E (ticks w)) (interaction_text action narrative)
                  (interaction_metadata s) in
      let w1 := stored Memories id (interaction_text action narrative)
                  (stamped "memory" (wall_clock E (1 + ticks w)) (interaction_metadata s))
                  (later 2 w) in
      match db_fault E (2 + ticks w) (LogAction (s_id s)) with
      | Some e => (Raise e, w1)
      | None => (Return d, with_actions (logged_rows (s_id s) action narrative) w1)
      end
  end.
Proof.
  unfold persist, VectorStore.add_memory.
  destruct (chroma_add_fault E (2 + ticks w) Memories (interaction_text action narrative))
    as [e |] eqn:Hadd.
  - apply bind_raises. now rewrite add_to_eq, Hadd.
  - erewrite bind_returns; [| rewrite add_to_eq, Hadd; reflexivity].
    cbv beta. unfold bind at 1. rewrite log_action_eq. cbn [ticks stored later].
    destruct (db_fault E (2 + ticks w) (LogAction (s_id s))); reflexivity.
Qed.

(** The persistence steps never touch the engine. *)
Lemma persist_keeps_engine (s : session) (action narrative : string) (d : pydict)
      (w w' : world) (r : outcome pydict) :
  persist E s action narrative d w = (r, w') -> eng w' = eng w.
Proof.
  rewrite persist_eq.
  destruct (chroma_add_fault _ _ _ _); [intros H; now inversion H |].
  cbv zeta. destruct (db_fault _ _ _); intros H; now inversion H.
Qed.
End TurnFacts.

(** X2. A turn that goes well. In an active session, when the backend
    answers the prompt that the engine builds for the action with status
    200 and an ASCII text, and the stores accept the writes of the turn,
    [process_player_action] returns the stripped text of the backend as
    narrative (the empty text when the reply has no ["response"] field)
    and the number of retrieved results as [context_used], appends the
    action and the response to the session memory, writes the two rows of
    the turn at the end of the action log, and stores the fragment
    "Player: ... | DM: ..." in the memory partition under the id derived
    at that moment; the other two partitions and the session stay as they
    were. *)
Theorem process_player_action_turn
        (E : env) (action : string) (context : option pydict) (w : world) (s : session)
        (reply : http_reply) :
  current_session (eng w) = Some s ->
  ollama_client (eng w) = true ->
  let asked := remembered (action_entry action (loop_clock E (ticks w)) context) (later 1 w) in
  (forall l w2,
     VectorStore.get_relevant_context E action 5 "all" asked = (Return l, w2) ->
     ollama_post E (1 + ticks w) (DMEngine._build_dm_prompt E (eng asked) action l)
     = inr reply) ->
  status reply = 200 ->
  PyStr.isascii (default "" (body_response reply)) = true ->
  let narrative := PyStr.strip (default "" (body_response reply)) in
  let text := interaction_text action narrative in
  let id := fragment_id (wall_clock E (2 + ticks w)) text (interaction_metadata s) in
  chroma_add_fault E (4 + ticks w) Memories text = None ->
  db_fault E (4 + ticks w) (LogAction (s_id s)) = None ->
  exists w' l w2,
    VectorStore.get_relevant_context E action 5 "all" asked = (Return l, w2)
    /\ DMEngine.process_player_action E action context w
       = (Return [("narrative", VStr narrative);
                  ("metadata", VDict [("model_used", VStr (ai_model E));
                                      ("context_used", VInt (Z.of_nat (length l)))])], w')
    /\ current_session (eng w') = Some s
    /\ (exists d,
          session_memory (eng w')
          = session_memory (eng w)
            ++ [action_entry action (loop_clock E (ticks w)) context;
                response_entry narrative (loop_clock E (1 + ticks w)) d])
    /\ actions (db w') = actions (db w) ++ logged_rows (s_id s) action narrative
    /\ is_Some (memory_collection (vs w') !! id)
    /\ (memory_collection (vs w) !! id = None ->
        (exists md, memory_collection (vs w') !! id = Some (mk_fragment text md))
        /\ size (memory_collection (vs w')) = S (size (memory_collection (vs w))))
    /\ campaign_collection (vs w') = campaign_collection (vs w)
    /\ character_collection (vs w') = character_collection (vs w).
Proof.
  intros Hs Hclient asked Hreply Hstatus _ narrative text id Hadd Hlog.
  destruct (process_player_action_run E action context w s Hs)
    as (l & w2 & d & narrative' & w3 & Hctx & Hlog2 & Hgen & Hlog3 & Hnar & Hrun).
  fold asked in Hctx, Hlog2.
  pose proof (Hreply l w2 Hctx) as Hanswer.
  destruct Hlog2 as (He2 & Hd2 & Hv2 & Ht2 & more2 & Hm2).
  destruct Hlog3 as (He3 & Hd3 & Hv3 & Ht3 & more3 & Hm3).
  rewrite _generate_dm_response_eq, He2 in Hgen.
  assert (Hclient' : ollama_client (eng asked) = true) by exact Hclient.
  assert (Hticks : ticks asked = (1 + ticks w)%nat) by reflexivity.
  rewrite Hclient', Ht2, Hticks, Hanswer in Hgen. cbn [negb] in Hgen.
  unfold generation_outcome in Hgen.
  rewrite Hstatus in Hgen. cbn [Z.eqb Pos.eqb negb] in Hgen. fold narrative in Hgen.
  inversion Hgen; subst d w3. clear Hgen.
  cbn in Hnar. inversion Hnar; subst narrative'. clear Hnar.
  rewrite persist_eq in Hrun. cbn [ticks remembered later Nat.add] in Hrun.
  rewrite Ht2, Hticks in Hrun. cbn [Nat.add] in Hrun.
  fold text in Hrun. cbn [Nat.add] in Hadd, Hlog.
  rewrite Hadd in Hrun. cbv zeta in Hrun. rewrite Hlog in Hrun.
  cbn [Nat.add] in id. fold id in Hrun.
  eexists. exists l, w2. split; [exact Hctx |]. split; [exact Hrun |].
  cbn [eng db vs with_actions stored remembered later current_session session_memory actions].
  rewrite He2. unfold asked.
  cbn [eng remembered later current_session session_memory].
  split; [exact Hs |].
  split; [eexists; rewrite <- app_assoc; reflexivity |].
  rewrite Hd2. unfold asked. cbn [db remembered later]. split; [reflexivity |].
  rewrite Hv2. unfold asked. cbn [vs remembered later VectorStore.get_collection].
  destruct (memory_collection (vs w) !! id) as [old |] eqn:Hid.
  - rewrite Hid. split; [now eexists |]. split; [discriminate |]. split; reflexivity.
  - cbn [VectorStore.set_collection memory_collection campaign_collection
         character_collection].
    rewrite lookup_insert_eq. split; [now eexists |].
    split; [| split; reflexivity].
    intros _. split; [now eexists |]. now apply map_size_insert_None.
Qed.

(** A backend that answers the search with a padded text: the narrative is
    the text without the blanks and the line feed around it. *)
Lemma process_player_action_turn_witness :
  exists w',
    DMEngine.process_player_action attentive_backend "I search the room" None active_world
    = (Return [("narrative", VStr "You find a rusty key.");
               ("metadata", VDict [("model_used", VStr "llama3"); ("context_used", VInt 0)])],
       w')
    /\ actions (db w')
       = logged_rows "sess_20260101_120000" "I search the room" "You find a rusty key."
    /\ size (memory_collection (vs w')) = 1%nat.
Proof.
  destruct (process_player_action_turn attentive_backend "I search the room" None active_world
              aria_session padded_reply)
    as (w' & l & w2 & Hctx & Hrun & _ & _ & Hactions & _ & Hfresh & _).
  - vm_compute. reflexivity.
  - vm_compute. reflexivity.
  - intros l w2 Hctx.
    assert (Hl : Return l
                 = fst (VectorStore.get_relevant_context attentive_backend "I search the room"
                          5 "all"
                          (remembered
                             (action_entry "I search the room"
                                (loop_clock attentive_backend (ticks active_world)) None)
                             (later 1 active_world))))
      by now rewrite Hctx.
    vm_compute in Hl. inversion Hl; subst l. vm_compute. reflexivity.
  - reflexivity.
  - reflexivity.
  - reflexivity.
  - reflexivity.
  - assert (Hl : Return l
                 = fst (VectorStore.get_relevant_context attentive_backend "I search the room"
                          5 "all"
                          (remembered
                             (action_entry "I search the room"
                                (loop_clock attentive_backend (ticks active_world)) None)
                             (later 1 active_world))))
      by now rewrite Hctx.
    vm_compute in Hl. inversion Hl; subst l.
    destruct Hfresh as [_ Hsize]; [vm_compute; reflexivity |].
    exists w'. split; [exact Hrun |]. split; [exact Hactions | exact Hsize].
Defined.

(** ** The start of a session *)

Section StartFacts.
Context (E : env).

Lemma get_campaign_eq (campaign_id : string) (w : world) :
  DatabaseManager.get_campaign E campaign_id w =
  match db_fault E (ticks w) (GetCampaign campaign_id) with
  | Some e => (Raise e, w)
  | None => (Return (campaigns (db w) !! campaign_id), w)
  end.
Proof.
  unfold DatabaseManager.get_campaign, DatabaseManager.connect, bind, get, raise, ret.
  destruct (db_fault E (ticks w) (GetCampaign campaign_id)); reflexivity.
Qed.

(** The insertion of a session row, in one equation: one clock reading,
    then the insertion, refused when the id is taken. *)
Lemma db_create_session_eq (character_id : string) (campaign_id : option string) (w : world) :
  DatabaseManager.create_session E character_id campaign_id w =
  let session_id := session_id_at (wall_clock E (ticks w)) in
  match db_fault E (1 + ticks w) (CreateSession session_id) with
  | Some e => (Raise e, later 1 w)
  | None =>
      match sessions (db w) !! session_id with
      | Some _ =>
          (Raise (mk_exn IntegrityError "UNIQUE constraint failed: sessions.id"), later 1 w)
      | None =>
          (Return session_id,
           with_session session_id (mk_session_row character_id campaign_id false) (later 1 w))
      end
  end.
Proof.
  unfold DatabaseManager.create_session, DatabaseManager.connect, now, tick, bind, get,
    raise, ret, set_db, modify, session_id_at, with_session, later.
  cbn [ticks db eng vs errors Nat.add].
  destruct (db_fault E (S (ticks w)) _); [reflexivity |].
  cbn [ticks db eng vs errors].
  destruct (sessions (db w) !! _); reflexivity.
Qed.

Lemma get_recent_sessions_eq (character_id : string) (limit : Z) (w : world) :
  exists rows,
    DatabaseManager.get_recent_sessions E character_id limit w =
    match db_fault E (ticks w) (GetRecentSessions character_id) with
    | Some e => (Raise e, w)
    | None => (Return rows, w)
    end.
Proof.
  exists (firstn (Z.to_nat limit)
            (filter (fun r => sr_character_id (snd r) = character_id)
                    (map_to_list (sessions (db w))))).
  unfold DatabaseManager.get_recent_sessions, DatabaseManager.connect, bind, get, raise, ret.
  destruct (db_fault E (ticks w) (GetRecentSessions character_id)); reflexivity.
Qed.

Lemma get_campaign_memories_returns (campaign_id : string) (limit : Z) (w : world) :
  exists l w',
    VectorStore.get_campaign_memories E campaign_id limit w = (Return l, w')
    /\ only_logs w w'.
Proof.
  unfold VectorStore.get_campaign_memories, VectorStore.chroma_query_at, try_except, bind,
    get, lift, raise, ret, log_error, modify.
  destruct (chroma_query E (ticks w) Memories _ _ _ _) as [e | found].
  - do 2 eexists. split; [reflexivity |].
    apply (only_logs_logged _ _ w w), only_logs_refl.
  - do 2 eexists. split; [reflexivity | apply only_logs_refl].
Qed.

Lemma only_recalls_refl (w : world) : only_recalls w w.
Proof.
  repeat split. exists []. now rewrite app_nil_r.
Qed.

(** Loading the context of the current session recalls campaign memories
    and changes nothing else, apart from the error log. *)
Lemma _load_session_context_returns (w : world) (s : session) :
  current_session (eng w) = Some s ->
  db_fault E (ticks w) (GetRecentSessions (s_character_id s)) = None ->
  exists w',
    DMEngine._load_session_context E w = (Return tt, w')
    /\ only_recalls w w'
    /\ (campaign_given (s_campaign_id s) = None ->
        campaign_memory (eng w') = campaign_memory (eng w)).
Proof.
  intros Hs Hdb. unfold DMEngine._load_session_context.
  rewrite (bind_returns _ _ _ _ _ (get_eq w)), Hs.
  destruct (get_recent_sessions_eq (s_character_id s) 5 w) as [rows Hrows].
  rewrite Hdb in Hrows. rewrite (bind_returns _ _ _ _ _ Hrows).
  unfold campaign_given.
  destruct (s_campaign_id s) as [camp |];
    [| eexists; split; [reflexivity |]; split; [apply only_recalls_refl | reflexivity]].
  destruct (PyStr.truthy camp);
    [| eexists; split; [reflexivity |]; split; [apply only_recalls_refl | reflexivity]].
  destruct (get_campaign_memories_returns camp 10 w)
    as (l & w1 & Hmem & He & Hd & Hv & Ht & more & Hm).
  rewrite (bind_returns _ _ _ _ _ Hmem).
  eexists. split; [reflexivity |]. split; [| discriminate].
  unfold only_recalls. cbn [eng db vs ticks ollama_client current_session active_character
                            campaign_context session_memory campaign_memory].
  rewrite He. repeat split; try assumption. now exists l.
Qed.
End StartFacts.

Section StartRun.
Context (E : env).

(** The part of [create_session] that looks for the campaign. *)
Lemma brief_eq (campaign_id : option string) (w : world) (c : character_row) :
  (forall camp, db_fault E (ticks w) (GetCampaign camp) = None) ->
  (match campaign_id with
   | Some cid =>
       if PyStr.truthy cid then
         do campaign_data <- DatabaseManager.get_campaign E cid;
         match campaign_data with
         | Some c0 =>
             set_eng (fun e =>
               mk_engine (ollama_client e) (current_session e) (active_character e)
                         (Some c0) (session_memory e) (campaign_memory e))
         | None => ret tt
         end
       else ret tt
   | None => ret tt
   end)
    (mk_world (mk_engine (ollama_client (eng w)) (current_session (eng w)) (Some c)
                         (campaign_context (eng w)) (session_memory (eng w))
                         (campaign_memory (eng w)))
              (db w) (vs w) (ticks w) (errors w))
  = (Return tt, briefed c (campaign_found campaign_id w) w).
Proof.
  intros Hcamp. unfold campaign_found, campaign_given, briefed.
  destruct campaign_id as [cid |]; [| reflexivity].
  destruct (PyStr.truthy cid); [| reflexivity].
  erewrite bind_returns; [| rewrite get_campaign_eq; cbn [ticks db]; rewrite Hcamp;
                            reflexivity].
  destruct (campaigns (db w) !! cid); reflexivity.
Qed.

(** A session for a known character, up to the loading of its context. *)
Lemma create_session_run (character_id : string) (campaign_id : option string)
      (w : world) (c : character_row) :
  characters (db w) !! character_id = Some c ->
  db_fault E (ticks w) (GetCharacter character_id) = None ->
  (forall camp, db_fault E (ticks w) (GetCampaign camp) = None) ->
  let session_id := session_id_at (wall_clock E (ticks w)) in
  db_fault E (1 + ticks w) (CreateSession session_id) = None ->
  sessions (db w) !! session_id = None ->
  db_fault E (2 + ticks w) (GetRecentSessions character_id) = None ->
  let s := mk_session session_id character_id campaign_id (loop_clock E (1 + ticks w)) in
  exists w',
    DMEngine.create_session E character_id campaign_id w = (Return session_id, w')
    /\ only_recalls
         (in_session s
            (later 1 (with_session session_id (mk_session_row character_id campaign_id false)
                        (later 1 (briefed c (campaign_found campaign_id w) w)))))
         w'
    /\ (campaign_given campaign_id = None ->
        campaign_memory (eng w') = campaign_memory (eng w)).
Proof.
  intros Hc Hget Hcamp session_id Hcreate Hfree Hrecent s.
  unfold DMEngine.create_session.
  erewrite bind_returns; [| rewrite get_character_eq, Hget, Hc; reflexivity].
  erewrite bind_returns; [| reflexivity].
  pose proof (brief_eq campaign_id w c Hcamp) as Hbrief.
  rewrite (bind_returns _ _ _ _ _ Hbrief).
  erewrite bind_returns;
    [| rewrite db_create_session_eq; cbn [ticks db briefed]; cbv zeta;
       fold session_id; rewrite Hcreate, Hfree; reflexivity].
  rewrite (bind_returns _ _ _ _ _ (loop_time_eq E _)).
  erewrite bind_returns; [| reflexivity].
  cbn [ticks later with_session briefed].
  destruct (_load_session_context_returns E
              (in_session s
                 (later 1 (with_session session_id
                             (mk_session_row character_id campaign_id false)
                             (later 1 (briefed c (campaign_found campaign_id w) w))))) s)
    as (w' & Hload & Hrecalls & Hnone); [reflexivity | exact Hrecent |].
  exists w'. split.
  - erewrite bind_returns; [reflexivity | exact Hload].
  - split; [exact Hrecalls |]. intros Hgiven. rewrite (Hnone Hgiven). reflexivity.
Qed.
End StartRun.

(** X3. The start of a session for a known character, when the relational
    store works and the session id of this second is free. The call
    returns the id "sess_<second>", inserts an open row for it and makes
    the session current with the character as active character. An
    unknown campaign id is not an error: the session is tagged with it and
    the campaign context stays as it was. Nothing is reset: the session
    memory is kept, and a session that was current before is replaced
    without being ended, its row in the store left untouched. *)
Theorem create_session_starts
        (E : env) (character_id : string) (campaign_id : option string)
        (w : world) (c : character_row) :
  characters (db w) !! character_id = Some c ->
  db_fault E (ticks w) (GetCharacter character_id) = None ->
  (forall camp, db_fault E (ticks w) (GetCampaign camp) = None) ->
  let session_id := session_id_at (wall_clock E (ticks w)) in
  db_fault E (1 + ticks w) (CreateSession session_id) = None ->
  sessions (db w) !! session_id = None ->
  db_fault E (2 + ticks w) (GetRecentSessions character_id) = None ->
  exists w',
    DMEngine.create_session E character_id campaign_id w = (Return session_id, w')
    /\ current_session (eng w')
       = Some (mk_session session_id character_id campaign_id (loop_clock E (1 + ticks w)))
    /\ active_character (eng w') = Some c
    /\ campaign_context (eng w')
       = match campaign_found campaign_id w with
         | Some r => Some r
         | None => campaign_context (eng w)
         end
    /\ session_memory (eng w') = session_memory (eng w)
    /\ (campaign_given campaign_id = None ->
        campaign_memory (eng w') = campaign_memory (eng w))
    /\ sessions (db w')
       = <[session_id := mk_session_row character_id campaign_id false]> (sessions (db w))
    /\ (forall other, other <> session_id ->
          sessions (db w') !! other = sessions (db w) !! other)
    /\ actions (db w') = actions (db w)
    /\ vs w' = vs w.
Proof.
  intros Hc Hget Hcamp session_id Hcreate Hfree Hrecent.
  destruct (create_session_run E character_id campaign_id w c Hc Hget Hcamp Hcreate Hfree
              Hrecent)
    as (w' & Hrun & (_ & Hs & Ha & Hcc & Hsm & _ & Hdb & Hvs & _) & Hnone).
  exists w'. split; [exact Hrun |].
  cbn [eng db vs in_session later with_session briefed current_session active_character
       campaign_context session_memory] in Hs, Ha, Hcc, Hsm, Hdb, Hvs.
  split; [exact Hs |]. split; [exact Ha |]. split; [exact Hcc |]. split; [exact Hsm |].
  split; [exact Hnone |]. rewrite Hdb. cbn [sessions actions].
  split; [reflexivity |].
  split; [intros other Hother; now apply lookup_insert_ne |].
  split; [reflexivity | exact Hvs].
Qed.

(** A second session started during a played one, for a campaign that does
    not exist. *)
Lemma create_session_starts_witness :
  exists w',
    DMEngine.create_session (healthy ticking_clock) "char_aria" (Some "camp_lost") played_world
    = (Return "sess_20260101_120006", w')
    /\ session_memory (eng w') = session_memory (eng played_world)
    /\ length (session_memory (eng played_world)) = 2%nat
    /\ campaign_context (eng w') = None
    /\ sessions (db w') !! "sess_20260101_120000"
       = Some (mk_session_row "char_aria" None false).
Proof.
  destruct (create_session_starts (healthy ticking_clock) "char_aria" (Some "camp_lost")
              played_world aria)
    as (w' & Hrun & _ & _ & Hcc & Hsm & _ & _ & Hother & _);
    [vm_compute; reflexivity | reflexivity | reflexivity | reflexivity
    | vm_compute; reflexivity | reflexivity |].
  exists w'. split; [exact Hrun |]. split; [exact Hsm |].
  split; [vm_compute; reflexivity |]. split; [rewrite Hcc; vm_compute; reflexivity |].
  rewrite Hother by discriminate. vm_compute. reflexivity.
Defined.

(** X4. The id of a session has the resolution of a second. When the
    store already holds the session of this second, [create_session]
    fails with the integrity error of the store: no row is written and the
    current session stays what it was, while the engine has already taken
    the character and, if found, the campaign: the campaign context is the
    row of the campaign when an id is given and found, and is left as it
    was when no id is given or the id is unknown. *)
Theorem create_session_same_second
        (E : env) (character_id : string) (campaign_id : option string)
        (w : world) (c : character_row) (row : session_row) :
  characters (db w) !! character_id = Some c ->
  db_fault E (ticks w) (GetCharacter character_id) = None ->
  (forall camp, db_fault E (ticks w) (GetCampaign camp) = None) ->
  let session_id := session_id_at (wall_clock E (ticks w)) in
  db_fault E (1 + ticks w) (CreateSession session_id) = None ->
  sessions (db w) !! session_id = Some row ->
  exists w',
    DMEngine.create_session E character_id campaign_id w = (Raise duplicate_session, w')
    /\ db w' = db w
    /\ vs w' = vs w
    /\ errors w' = errors w
    /\ current_session (eng w') = current_session (eng w)
    /\ session_memory (eng w') = session_memory (eng w)
    /\ campaign_memory (eng w') = campaign_memory (eng w)
    /\ active_character (eng w') = Some c
    /\ (forall camp found,
          campaign_id = Some camp -> camp <> "" ->
          campaigns (db w) !! camp = Some found ->
          campaign_context (eng w') = Some found)
    /\ (forall camp,
          campaign_id = Some camp -> camp <> "" ->
          campaigns (db w) !! camp = None ->
          campaign_context (eng w') = campaign_context (eng w))
    /\ (campaign_id = None \/ campaign_id = Some "" ->
        campaign_context (eng w') = campaign_context (eng w)).
Proof.
  intros Hc Hget Hcamp session_id Hcreate Htaken.
  exists (later 1 (briefed c (campaign_found campaign_id w) w)).
  split; [| repeat (split; [reflexivity |])].
  - unfold DMEngine.create_session.
    erewrite bind_returns; [| rewrite get_character_eq, Hget, Hc; reflexivity].
    erewrite bind_returns; [| reflexivity].
    rewrite (bind_returns _ _ _ _ _ (brief_eq E campaign_id w c Hcamp)).
    erewrite bind_raises; [reflexivity |].
    rewrite db_create_session_eq. cbn [ticks db briefed]. cbv zeta.
    fold session_id. rewrite Hcreate, Htaken. reflexivity.
  - cbn [eng later briefed campaign_context]. unfold campaign_found, campaign_given.
    split; [| split].
    + intros camp found -> Hne Hfound.
      destruct camp; [contradiction |]. cbn [PyStr.truthy]. rewrite Hfound. reflexivity.
    + intros camp -> Hne Habsent.
      destruct camp; [contradiction |]. cbn [PyStr.truthy]. rewrite Habsent. reflexivity.
    + intros [-> | ->]; reflexivity.
Qed.

(** A session ended and started again, for the campaign of the mill, while
    the clock shows the same second: the start fails and the engine has
    taken the campaign. *)
Lemma create_session_same_second_witness :
  exists w',
    DMEngine.create_session (healthy frozen_clock) "char_aria" (Some "camp_mill")
                            rested_with_campaign
    = (Raise duplicate_session, w')
    /\ db w' = db rested_with_campaign
    /\ current_session (eng w') = None
    /\ active_character (eng w') = Some aria
    /\ campaign_context (eng rested_with_campaign) = None
    /\ campaign_context (eng w') = Some mill.
Proof.
  destruct (create_session_same_second (healthy frozen_clock) "char_aria" (Some "camp_mill")
              rested_with_campaign aria (mk_session_row "char_aria" None true))
    as (w' & Hrun & Hdb & _ & _ & Hcurrent & _ & _ & Hactive & Hfound & _);
    [vm_compute; reflexivity | reflexivity | reflexivity | reflexivity
    | vm_compute; reflexivity |].
  exists w'. split; [exact Hrun |]. split; [exact Hdb |].
  split; [rewrite Hcurrent; vm_compute; reflexivity |]. split; [exact Hactive |].
  split; [vm_compute; reflexivity |].
  apply (Hfound "camp_mill" mill); [reflexivity | discriminate | vm_compute; reflexivity].
Defined.

(** ** The end of a session *)

(** X5. What the end of an active session does to the stores. When the
    relational store refuses the update, [end_session] raises and leaves
    everything as it was: the session stays current with its memory. When
    the store accepts, the row of the session is marked as ended if there
    is one (a missing row is no error), and no other row, no action and
    nothing of the semantic index is touched. *)
Theorem end_session_store (E : env) (w : world) (s : session) :
  current_session (eng w) = Some s ->
  (forall e, db_fault E (ticks w) (EndSession (s_id s)) = Some e ->
             DMEngine.end_session E w = (Raise e, w))
  /\ (db_fault E (ticks w) (EndSession (s_id s)) = None ->
      exists w',
        DMEngine.end_session E w = (Return tt, w')
        /\ sessions (db w') !! s_id s = ended_row <$> sessions (db w) !! s_id s
        /\ (forall other, other <> s_id s ->
              sessions (db w') !! other = sessions (db w) !! other)
        /\ actions (db w') = actions (db w)
        /\ characters (db w') = characters (db w)
        /\ vs w' = vs w
        /\ errors w' = errors w).
Proof.
  intros Hs. rewrite (end_session_eq E w s Hs). split.
  - intros e He. now rewrite He.
  - intros Hok. rewrite Hok. eexists. split; [reflexivity |].
    cbn [db vs errors ended sessions actions characters].
    split; [apply lookup_alter_eq |].
    split; [intros other Hother; now apply lookup_alter_ne |].
    repeat split.
Qed.

Lemma end_session_store_witness :
  DMEngine.end_session store_refuses_end played_world = (Raise unreachable, played_world)
  /\ current_session (eng played_world) = Some aria_session
  /\ exists w',
       DMEngine.end_session (healthy ticking_clock) played_world = (Return tt, w')
       /\ sessions (db w') !! "sess_20260101_120000"
          = Some (mk_session_row "char_aria" None true)
       /\ actions (db w') = actions (db played_world)
       /\ vs w' = vs played_world.
Proof.
  assert (Hs : current_session (eng played_world) = Some aria_session)
    by (vm_compute; reflexivity).
  destruct (end_session_store store_refuses_end played_world aria_session Hs) as [Hfail _].
  destruct (end_session_store (healthy ticking_clock) played_world aria_session Hs)
    as [_ Hok].
  destruct Hok as (w' & Hrun & Hrow & _ & Hactions & _ & Hvs & _); [reflexivity |].
  split; [apply Hfail; reflexivity |]. split; [exact Hs |].
  exists w'. split; [exact Hrun |]. split; [| split; assumption].
  change "sess_20260101_120000" with (s_id aria_session).
  rewrite Hrow. vm_compute. reflexivity.
Defined.

(** ** Session statistics *)

Section StatsFacts.
Context (E : env).

Lemma get_session_stats_eq (w : world) (s : session) :
  current_session (eng w) = Some s ->
  exists stats,
    SessionStats.get_session_stats E w = (Return (Some stats), later 1 w)
    /\ st_session_id stats = s_id s
    /\ st_actions_taken stats = SessionStats.actions_taken (session_memory (eng w)).
Proof.
  intros Hs. unfold SessionStats.get_session_stats.
  rewrite (bind_returns _ _ _ _ _ (get_eq w)), Hs.
  rewrite (bind_returns _ _ _ _ _ (loop_time_eq E w)).
  eexists. split; [reflexivity |]. split; reflexivity.
Qed.

Lemma actions_taken_turn (memory : list memory_entry) (a r : memory_entry) :
  m_type a = "player_action" -> m_type r = "dm_response" ->
  SessionStats.actions_taken (memory ++ [a; r]) = SessionStats.actions_taken memory + 1.
Proof.
  intros Ha Hr. unfold SessionStats.actions_taken.
  rewrite List.filter_app, length_app. cbn [List.filter]. rewrite Ha, Hr.
  cbn. lia.
Qed.
End StatsFacts.

(** X6. The statistics count attempts. Without a session
    [get_session_stats] returns the empty dict. In an active session every
    call of [process_player_action] raises [actions_taken] by exactly one,
    whether the call returns or ends in an exception of the persistence
    steps. *)
Theorem actions_taken_counts_attempts
        (E : env) (action : string) (context : option pydict) (w w' : world) (s : session)
        (r : outcome pydict) :
  current_session (eng w) = Some s ->
  DMEngine.process_player_action E action context w = (r, w') ->
  (forall idle_world, current_session (eng idle_world) = None ->
                      SessionStats.get_session_stats E idle_world = (Return None, idle_world))
  /\ exists before after,
       SessionStats.get_session_stats E w = (Return (Some before), later 1 w)
       /\ SessionStats.get_session_stats E w' = (Return (Some after), later 1 w')
       /\ st_session_id after = st_session_id before
       /\ st_actions_taken after = st_actions_taken before + 1.
Proof.
  intros Hs Hrun. split.
  - intros idle_world Hidle. unfold SessionStats.get_session_stats.
    now rewrite (bind_returns _ _ _ _ _ (get_eq idle_world)), Hidle.
  - destruct (process_player_action_run E action context w s Hs)
      as (l & w2 & d & narrative & w3 & _ & Hlog2 & _ & Hlog3 & _ & Hrun').
    destruct Hlog2 as (He2 & _). destruct Hlog3 as (He3 & _).
    cbn [eng remembered later] in He2.
    rewrite Hrun in Hrun'. symmetry in Hrun'.
    apply persist_keeps_engine in Hrun'. cbn [eng remembered later] in Hrun'.
    rewrite He3, He2 in Hrun'. cbn [ollama_client current_session active_character
                                    campaign_context session_memory campaign_memory] in Hrun'.
    assert (Hs' : current_session (eng w') = Some s) by now rewrite Hrun'.
    destruct (get_session_stats_eq E w s Hs) as (before & Hb & Hbid & Hbn).
    destruct (get_session_stats_eq E w' s Hs') as (after & Ha & Haid & Han).
    exists before, after. split; [exact Hb |]. split; [exact Ha |].
    split; [congruence |].
    rewrite Han, Hbn, Hrun'. cbn [session_memory]. rewrite <- app_assoc.
    now apply actions_taken_turn.
Qed.

(** A turn that fails at the semantic write is counted. *)
Lemma actions_taken_counts_attempts_witness :
  let run := DMEngine.process_player_action index_write_down "I search the room" None
               active_world in
  fst run = Raise unreachable
  /\ exists before after,
       SessionStats.get_session_stats index_write_down active_world
       = (Return (Some before), later 1 active_world)
       /\ SessionStats.get_session_stats index_write_down (snd run)
          = (Return (Some after), later 1 (snd run))
       /\ st_session_id after = st_session_id before
       /\ st_actions_taken after = st_actions_taken before + 1.
Proof.
  cbv zeta. split; [vm_compute; reflexivity |].
  apply (actions_taken_counts_attempts index_write_down "I search the room" None
           active_world _ aria_session
           (fst (DMEngine.process_player_action index_write_down "I search the room" None
                   active_world))).
  - vm_compute. reflexivity.
  - apply surjective_pairing.
Defined.

(** ** The window of the prompt *)

Section WindowFacts.

Lemma length_last_items {A} (n : nat) (l : list A) :
  length (PyStr.last_items n l) = Nat.min n (length l).
Proof. unfold PyStr.last_items. rewrite length_skipn. lia. Qed.

Lemma last_items_nil {A} (n : nat) (l : list A) :
  (0 < n)%nat -> PyStr.last_items n l = [] -> l = [].
Proof.
  intros Hn Hl. apply (f_equal (@length A)) in Hl. rewrite length_last_items in Hl.
  destruct l as [| x l]; [reflexivity | cbn in Hl; lia].
Qed.

(** A choice made on the emptiness of a list is a choice on the emptiness
    of its last items. *)
Lemma on_last_items {A B} (n : nat) (l : list A) (x y : B) :
  (0 < n)%nat ->
  match l with [] => x | _ => y end = match PyStr.last_items n l with [] => x | _ => y end.
Proof.
  intros Hn. destruct l as [| a l]; [reflexivity |].
  destruct (PyStr.last_items n (a :: l)) eqn:Hlast; [| reflexivity].
  apply last_items_nil in Hlast; [discriminate | exact Hn].
Qed.

Lemma length_memory_lines (l : list memory_entry) :
  (length (concat (map DMEngine.memory_line l)) <= length l)%nat.
Proof.
  induction l as [| m l IH]; [reflexivity |].
  cbn [map concat]. rewrite length_app. cbn [length].
  assert ((length (DMEngine.memory_line m) <= 1)%nat).
  { unfold DMEngine.memory_line.
    destruct (String.eqb _ _); [cbn; lia |]. destruct (String.eqb _ _); cbn; lia. }
  lia.
Qed.
End WindowFacts.

(** X7. The prompt looks at a window of the session. Its text depends on
    the session memory only through the last five entries and on the
    retrieved results only through the last three: two engines with the
    same character and campaign whose memories agree on this window build
    the same prompt. The prompt never has more than fifteen parts. *)
Theorem prompt_window
        (E : env) (self1 self2 : engine) (action : string) (context1 context2 : list result) :
  active_character self1 = active_character self2 ->
  campaign_context self1 = campaign_context self2 ->
  PyStr.last_items 5 (session_memory self1) = PyStr.last_items 5 (session_memory self2) ->
  PyStr.last_items 3 context1 = PyStr.last_items 3 context2 ->
  DMEngine._build_dm_prompt E self1 action context1
  = DMEngine._build_dm_prompt E self2 action context2
  /\ (length (DMEngine.prompt_parts E self1 action context1) <= 15)%nat.
Proof.
  intros Hchar Hcamp Hmem Hctx. split.
  - unfold DMEngine._build_dm_prompt. rewrite !prompt_parts_frame. unfold dynamic_parts.
    rewrite Hchar, Hcamp.
    rewrite (on_last_items 3 context1), (on_last_items 3 context2) by lia.
    rewrite (on_last_items 5 (session_memory self1)),
            (on_last_items 5 (session_memory self2)) by lia.
    now rewrite Hmem, Hctx.
  - rewrite prompt_parts_frame. unfold dynamic_parts. cbn [length].
    rewrite !length_app. cbn [length].
    assert (Hc : (length (match context1 with
                          | [] => []
                          | _ => "Recent events and relevant context:"
                                 :: map (fun ctx => "- " +:+ str_result E ctx)
                                        (PyStr.last_items 3 context1)
                          end) <= 4)%nat).
    { destruct context1; [cbn; lia |]. cbn [length]. rewrite length_map, length_last_items.
      lia. }
    assert (Hm : (length (match session_memory self1 with
                          | [] => []
                          | _ => (nl +:+ "Recent actions in this session:")
                                 :: concat (map DMEngine.memory_line
                                              (PyStr.last_items 5 (session_memory self1)))
                          end) <= 6)%nat).
    { destruct (session_memory self1) as [| m ms]; [cbn; lia |]. cbn [length].
      pose proof (length_memory_lines (PyStr.last_items 5 (m :: ms))) as Hl.
      rewrite length_last_items in Hl. lia. }
    destruct (active_character self1), (campaign_context self1); cbn [length]; lia.
Qed.

Lemma prompt_window_witness :
  DMEngine._build_dm_prompt (healthy ticking_clock) long_session "I open the door" []
  = DMEngine._build_dm_prompt (healthy ticking_clock) short_session "I open the door" []
  /\ (length (DMEngine.prompt_parts (healthy ticking_clock) long_session "I open the door" [])
      <= 15)%nat
  /\ length (session_memory long_session) = 7%nat
  /\ length (session_memory short_session) = 5%nat.
Proof.
  destruct (prompt_window (healthy ticking_clock) long_session short_session
              "I open the door" [] []) as [Hsame Hbound]; try reflexivity.
  split; [exact Hsame |]. split; [exact Hbound |]. split; reflexivity.
Defined.

(** ** The two heuristics of the classifier *)

Section ClassifierFacts.

Lemma startswith_app (a b s : string) :
  PyStr.startswith (a +:+ b) s = true -> PyStr.startswith a s = true.
Proof.
  revert s. induction a as [| ch a IH]; intros s H; [reflexivity |].
  rewrite append_cons in H. destruct s as [| c s]; [discriminate |].
  cbn [PyStr.startswith] in *. destruct (Ascii.eqb ch c); [now apply IH | discriminate].
Qed.

Lemma contains_app (a b s : string) :
  PyStr.contains (a +:+ b) s = true -> PyStr.contains a s = true.
Proof.
  induction s as [| c s IH]; cbn [PyStr.contains]; intros H.
  - apply orb_true_iff in H. destruct H as [H | H]; [| discriminate].
    apply startswith_app in H. now rewrite H.
  - apply orb_true_iff in H. apply orb_true_iff. destruct H as [H | H].
    + left. now apply startswith_app in H.
    + right. now apply IH.
Qed.

Lemma scan_dice_found (patterns : list string) (response : string) :
  OllamaClient.scan_dice patterns response [] <> [] ->
  PyStr.contains "d20" (PyStr.lower response) = true.
Proof.
  intros Hne. destruct (scan_dice_cases patterns response []) as [H | [H _]];
    [congruence | exact H].
Qed.
End ClassifierFacts.

(** X8. The two heuristics of [_parse_dm_response] against each other, on
    an ASCII response. Each of the phrases "roll a d", "make a" and
    "roll for", when it occurs in the response in any letter case, sets
    [action_required]; a die is asked for only if the response mentions a
    d20, and then [has_dice_request] is set; the recorded length is the
    length of the response before stripping. *)
Theorem classifier_flags (model response : string) :
  PyStr.isascii response = true ->
  dict_get "action_required" (OllamaClient._parse_dm_response model response)
  = Some (VBool (action_required_of response))
  /\ (forall phrase, In phrase roll_phrases ->
        PyStr.contains phrase (PyStr.lower response) = true ->
        action_required_of response = true)
  /\ (dice_needed_of response <> [] -> PyStr.contains "d20" (PyStr.lower response) = true)
  /\ dict_get "metadata" (OllamaClient._parse_dm_response model response)
     = Some (VDict [("model", VStr model);
                    ("length", VInt (Z.of_nat (String.length response)));
                    ("has_dice_request",
                     VBool (match dice_needed_of response with [] => false | _ => true end))]).
Proof.
  intros _.
  split; [reflexivity |]. split; [| split].
  - intros phrase Hin Hfound. unfold action_required_of, OllamaClient.action_keywords.
    cbn [existsb]. destruct Hin as [<- | [<- | [<- | []]]].
    + rewrite (contains_app "roll" " a d" _ Hfound). reflexivity.
    + rewrite Hfound. now rewrite !orb_true_r.
    + rewrite (contains_app "roll" " for" _ Hfound). reflexivity.
  - apply scan_dice_found.
  - unfold OllamaClient._parse_dm_response. cbn [dict_get String.eqb Ascii.eqb Bool.eqb].
    fold (dice_needed_of response).
    destruct (dice_needed_of response); reflexivity.
Qed.

(** A saving throw asked for in capitals requires an action and asks for
    no die; a d20 that is only mentioned asks for a die and requires no
    action. *)
Lemma classifier_flags_witness :
  action_required_of "Make a Dexterity saving throw!" = true
  /\ dice_needed_of "Make a Dexterity saving throw!" = []
  /\ action_required_of "A d20 lies on the table." = false
  /\ dice_needed_of "A d20 lies on the table." = [d20_entry]
  /\ dict_get "metadata" (OllamaClient._parse_dm_response "llama3" "  A d20 lies on the table.")
     = Some (VDict [("model", VStr "llama3"); ("length", VInt 26);
                    ("has_dice_request", VBool true)]).
Proof.
  split; [| split; [| split; [| split]]].
  - destruct (classifier_flags "llama3" "Make a Dexterity saving throw!" eq_refl)
      as (_ & Hphrase & _).
    apply (Hphrase "make a"); [right; left; reflexivity | reflexivity].
  - reflexivity.
  - reflexivity.
  - reflexivity.
  - destruct (classifier_flags "llama3" "  A d20 lies on the table." eq_refl)
      as (_ & _ & _ & Hmeta).
    rewrite Hmeta. reflexivity.
Defined.

(** ** Deletion and update in the semantic index *)

Section MaintenanceFacts.
Context (E : env) (del : nat -> list string -> option py_exn).

Lemma chroma_delete_eq (memory_id : string) (w : world) :
  IndexMaintenance.chroma_delete del memory_id w =
  match del (ticks w) [memory_id] with
  | Some e => (Raise e, w)
  | None => (Return tt, forgotten memory_id w)
  end.
Proof.
  unfold IndexMaintenance.chroma_delete, bind, get, raise, set_vs, modify, forgotten.
  destruct (del (ticks w) [memory_id]); reflexivity.
Qed.

Lemma delete_memory_eq (memory_id : string) (w : world) :
  IndexMaintenance.delete_memory del memory_id w =
  match del (ticks w) [memory_id] with
  | Some e =>
      (Raise e,
       logged VectorStore.logger
         ("Failed to delete memory " +:+ memory_id +:+ ": " +:+ exn_text e) w)
  | None => (Return tt, forgotten memory_id w)
  end.
Proof.
  unfold IndexMaintenance.delete_memory, try_except. rewrite chroma_delete_eq.
  destruct (del (ticks w) [memory_id]); reflexivity.
Qed.

(** An update, in one equation: the deletion, then the insertion of
    [add_memory] with its two clock readings. *)
Lemma update_memory_eq (memory_id content : string) (md : metadata) (w : world) :
  IndexMaintenance.update_memory E del memory_id content md w =
  let said e := "Failed to update memory " +:+ memory_id +:+ ": " +:+ exn_text e in
  match del (ticks w) [memory_id] with
  | Some e => (Raise e, logged VectorStore.logger (said e) w)
  | None =>
      match chroma_add_fault E (2 + ticks w) Memories content with
      | Some e =>
          (Raise e,
           logged VectorStore.logger (said e)
             (logged VectorStore.logger ("Failed to add memory: " +:+ exn_text e)
                (later 2 (forgotten memory_id w))))
      | None =>
          (Return tt,
           stored Memories (fragment_id (wall_clock E (ticks w)) content md) content
             (stamped "memory" (wall_clock E (1 + ticks w)) md)
             (later 2 (forgotten memory_id w)))
      end
  end.
Proof.
  unfold IndexMaintenance.update_memory, try_except, bind at 1.
  rewrite chroma_delete_eq.
  destruct (del (ticks w) [memory_id]) as [e |]; [reflexivity |].
  unfold bind at 1, VectorStore.add_memory. rewrite add_to_eq.
  cbn [ticks forgotten].
  destruct (chroma_add_fault E (2 + ticks w) Memories content) as [e |]; reflexivity.
Qed.

Lemma set_same_collection (p : partition) (v : vector_store) :
  VectorStore.set_collection p (VectorStore.get_collection p v) v = v.
Proof. destruct p, v; reflexivity. Qed.
End MaintenanceFacts.

(** X9. [update_memory] is a deletion followed by an insertion, and not
    more. When the deletion fails nothing has changed; when the deletion
    works and the insertion fails, the exception is raised with the old
    fragment already gone; when both work, the new content is stored under
    a newly derived id, not under the id that was updated, which is gone
    unless the two ids are equal. *)
Theorem update_memory_steps
        (E : env) (del : nat -> list string -> option py_exn)
        (memory_id content : string) (md : metadata) (w : world) :
  let run := IndexMaintenance.update_memory E del memory_id content md w in
  let new_id := fragment_id (wall_clock E (ticks w)) content md in
  (forall e, del (ticks w) [memory_id] = Some e ->
             fst run = Raise e /\ vs (snd run) = vs w)
  /\ (forall e, del (ticks w) [memory_id] = None ->
                chroma_add_fault E (2 + ticks w) Memories content = Some e ->
                fst run = Raise e
                /\ memory_collection (vs (snd run)) = delete memory_id (memory_collection (vs w))
                /\ exists said,
                     errors (snd run)
                     = errors w ++ [(VectorStore.logger, "Failed to add memory: " +:+ exn_text e);
                                    (VectorStore.logger, said)])
  /\ (del (ticks w) [memory_id] = None ->
      chroma_add_fault E (2 + ticks w) Memories content = None ->
      fst run = Return tt
      /\ (new_id <> memory_id -> memory_collection (vs (snd run)) !! memory_id = None)
      /\ (memory_collection (vs w) !! new_id = None \/ new_id = memory_id ->
          exists stored_md,
            memory_collection (vs (snd run)) !! new_id = Some (mk_fragment content stored_md))
      /\ campaign_collection (vs (snd run)) = campaign_collection (vs w)
      /\ character_collection (vs (snd run)) = character_collection (vs w)).
Proof.
  intros run new_id. subst run. rewrite update_memory_eq. cbv zeta.
  split; [| split].
  - intros e He. rewrite He. split; reflexivity.
  - intros e Hdel Hadd. rewrite Hdel, Hadd. cbn [fst snd].
    split; [reflexivity |]. split; [reflexivity |].
    eexists. cbn [errors logged later forgotten]. rewrite <- app_assoc. reflexivity.
  - intros Hdel Hadd. rewrite Hdel, Hadd. cbn [fst snd]. fold new_id.
    split; [reflexivity |].
    unfold stored. cbn [vs later forgotten VectorStore.get_collection
                        VectorStore.set_collection memory_collection].
    destruct (delete memory_id (memory_collection (vs w)) !! new_id) as [old |] eqn:Hnew;
      cbn [memory_collection campaign_collection character_collection
           VectorStore.set_collection].
    + split; [intros _; apply lookup_delete_eq |].
      split; [| split; reflexivity].
      intros [Hfree | Hsame].
      * rewrite lookup_delete_ne in Hnew; [congruence |].
        intros ->. rewrite lookup_delete_eq in Hnew. discriminate.
      * rewrite Hsame, lookup_delete_eq in Hnew. discriminate.
    + split.
      * intros Hne. rewrite lookup_insert_ne by exact Hne. apply lookup_delete_eq.
      * split; [| split; reflexivity].
        intros _. eexists. apply lookup_insert_eq.
Qed.

(** An update during an outage of the index loses the fragment. *)
Lemma update_memory_steps_witness :
  let run := IndexMaintenance.update_memory index_write_down delete_works played_fragment_id
               "Player: I search the room | DM: You find a golden key." sample_metadata
               played_world in
  fst run = Raise unreachable
  /\ is_Some (memory_collection (vs played_world) !! played_fragment_id)
  /\ memory_collection (vs (snd run)) !! played_fragment_id = None.
Proof.
  cbv zeta.
  destruct (update_memory_steps index_write_down delete_works played_fragment_id
              "Player: I search the room | DM: You find a golden key." sample_metadata
              played_world) as (_ & Hlost & _).
  destruct (Hlost unreachable) as (Hraise & Hgone & _); [reflexivity | reflexivity |].
  split; [exact Hraise |]. split; [vm_compute; eexists; reflexivity |].
  rewrite Hgone. apply lookup_delete_eq.
Defined.

(** X10. [delete_memory] removes the id from the memory partition and
    touches nothing else; an id that is not there is no error and leaves
    the store as it was, so that deleting twice is deleting once. The
    deletion undoes an insertion: [add_memory] under a free id followed by
    [delete_memory] of the returned id gives back the memory partition. A
    failure is logged as "Failed to delete memory <id>: <error>" and
    raised again, with nothing else changed. *)
Theorem delete_memory_effect
        (E : env) (del : nat -> list string -> option py_exn)
        (memory_id content : string) (md : metadata) (w : world) :
  (forall e, del (ticks w) [memory_id] = Some e ->
             exists w', IndexMaintenance.delete_memory del memory_id w = (Raise e, w')
                        /\ eng w' = eng w /\ db w' = db w /\ vs w' = vs w
                        /\ ticks w' = ticks w
                        /\ errors w'
                           = errors w
                               ++ [(VectorStore.logger,
                                    "Failed to delete memory " +:+ memory_id +:+ ": "
                                    +:+ exn_text e)])
  /\ (del (ticks w) [memory_id] = None ->
      exists w',
        IndexMaintenance.delete_memory del memory_id w = (Return tt, w')
        /\ memory_collection (vs w') = delete memory_id (memory_collection (vs w))
        /\ campaign_collection (vs w') = campaign_collection (vs w)
        /\ character_collection (vs w') = character_collection (vs w)
        /\ (memory_collection (vs w) !! memory_id = None -> vs w' = vs w)
        /\ (del (ticks w') [memory_id] = None ->
            exists w'', IndexMaintenance.delete_memory del memory_id w' = (Return tt, w'')
                        /\ vs w'' = vs w'))
  /\ (chroma_add_fault E (2 + ticks w) Memories content = None ->
      del (2 + ticks w)%nat [fragment_id (wall_clock E (ticks w)) content md] = None ->
      memory_collection (vs w) !! fragment_id (wall_clock E (ticks w)) content md = None ->
      exists id w1 w2,
        VectorStore.add_memory E content md w = (Return id, w1)
        /\ IndexMaintenance.delete_memory del id w1 = (Return tt, w2)
        /\ memory_collection (vs w2) = memory_collection (vs w)).
Proof.
  split; [| split].
  - intros e He. rewrite delete_memory_eq, He. eexists. repeat split.
  - intros Hdel. rewrite delete_memory_eq, Hdel. eexists. split; [reflexivity |].
    cbn [vs forgotten VectorStore.get_collection VectorStore.set_collection
         memory_collection campaign_collection character_collection ticks].
    split; [reflexivity |]. split; [reflexivity |]. split; [reflexivity |]. split.
    + intros Habsent. rewrite delete_id by exact Habsent. now destruct (vs w).
    + intros Hdel'. rewrite delete_memory_eq. cbn [ticks forgotten]. rewrite Hdel'.
      eexists. split; [reflexivity |].
      cbn [vs forgotten VectorStore.get_collection VectorStore.set_collection
           memory_collection].
      now rewrite delete_delete_eq.
  - intros Hadd Hdel Hfree. unfold VectorStore.add_memory.
    do 3 eexists. split; [rewrite add_to_eq, Hadd; reflexivity |].
    cbv zeta. rewrite delete_memory_eq. cbn [ticks stored later]. rewrite Hdel.
    split; [reflexivity |].
    unfold stored. cbn [vs forgotten later VectorStore.get_collection
                        VectorStore.set_collection memory_collection].
    rewrite Hfree. cbn [VectorStore.set_collection memory_collection].
    now rewrite delete_insert_eq, delete_id.
Qed.

Lemma delete_memory_effect_witness :
  (exists id w1 w2,
     VectorStore.add_memory (healthy ticking_clock) "I search the room" sample_metadata
       fresh_world = (Return id, w1)
     /\ size (memory_collection (vs w1)) = 1%nat
     /\ IndexMaintenance.delete_memory delete_works id w1 = (Return tt, w2)
     /\ memory_collection (vs w2) = memory_collection (vs fresh_world))
  /\ (exists w',
        IndexMaintenance.delete_memory delete_fails played_fragment_id played_world
        = (Raise unreachable, w')
        /\ vs w' = vs played_world
        /\ errors w'
           = errors played_world
               ++ [("vector_store",
                    "Failed to delete memory " +:+ played_fragment_id
                    +:+ ": connection refused")]).
Proof.
  split.
  - destruct (delete_memory_effect (healthy ticking_clock) delete_works "unused"
                "I search the room" sample_metadata fresh_world) as (_ & _ & Hround).
    destruct Hround as (id & w1 & w2 & Hadd & Hdel & Hback);
      [reflexivity | reflexivity | vm_compute; reflexivity |].
    exists id, w1, w2. split; [exact Hadd |]. split; [| split; assumption].
    assert (Hw1 : w1 = snd (VectorStore.add_memory (healthy ticking_clock) "I search the room"
                              sample_metadata fresh_world)) by now rewrite Hadd.
    rewrite Hw1. vm_compute. reflexivity.
  - destruct (delete_memory_effect (healthy ticking_clock) delete_fails played_fragment_id
                "unused" sample_metadata played_world) as (Hfail & _).
    destruct (Hfail unreachable eq_refl) as (w' & Hrun & _ & _ & Hvs & _ & Herr).
    exists w'. split; [exact Hrun |]. split; [exact Hvs | exact Herr].
Defined.

(** ** Filtered reads of the semantic index *)

Section ReadFacts.
Context (E : env).

Lemma Forall_imap_all {A B} (P : B -> Prop) (f : nat -> A -> B) (l : list A) :
  (forall i x, P (f i x)) -> Forall P (imap f l).
Proof.
  revert f. induction l as [| x l IH]; intros f Hf; cbn; constructor.
  - apply Hf.
  - apply IH. intros i y. apply Hf.
Qed.

Lemma _format_results_tagged (results : option query_result) (name : string) :
  Forall (fun r => r_collection r = name) (VectorStore._format_results results name).
Proof.
  unfold VectorStore._format_results.
  destruct results as [r |]; [| constructor].
  destruct (q_documents r) as [[| docs rest] |]; try constructor.
  now apply Forall_imap_all.
Qed.

Lemma read_returns (p : partition) (name : string) (filter : list (string * string))
      (text : string) (n : Z) (failure : string) (w : world) :
  exists l w',
    IndexSearch.read E p name filter text n failure w = (Return l, w')
    /\ only_logs w w'
    /\ Forall (fun r => r_collection r = name) l
    /\ (forall e, chroma_query E (ticks w) p (VectorStore.get_collection p (vs w))
                    filter text n = inl e ->
                  l = [] /\ errors w' = errors w ++ [(VectorStore.logger, failure +:+ exn_text e)]).
Proof.
  unfold IndexSearch.read, VectorStore.chroma_query_at, try_except, bind, get, lift, raise,
    ret, log_error, modify.
  destruct (chroma_query E (ticks w) p _ filter text n) as [e | found].
  - do 2 eexists. split; [reflexivity |].
    split; [apply (only_logs_logged _ _ w w), only_logs_refl |].
    split; [constructor |]. intros e' He'. inversion He'; subst. split; reflexivity.
  - do 2 eexists. split; [reflexivity |]. split; [apply only_logs_refl |].
    split; [apply _format_results_tagged | intros e He; discriminate].
Qed.
End ReadFacts.

(** X11. The filtered reads of the index ([get_campaign_memories],
    [get_character_memories], [search_npcs], [search_locations]) never
    raise and change nothing but the error log; their results carry the
    name of the partition that was searched. A search without a campaign
    and a search with an empty campaign id are the same search. *)
Theorem filtered_reads_return
        (E : env) (campaign character_id : string) (campaign_id : option string)
        (query : string) (limit : Z) (read : M (list result)) (name : string) (w : world) :
  In (read, name) (filtered_reads E campaign character_id campaign_id query limit) ->
  (exists l w',
     read w = (Return l, w')
     /\ only_logs w w'
     /\ Forall (fun r => r_collection r = name) l)
  /\ IndexSearch.search_npcs E query None = IndexSearch.search_npcs E query (Some "")
  /\ IndexSearch.search_locations E query None
     = IndexSearch.search_locations E query (Some "").
Proof.
  intros Hin. split; [| split; reflexivity].
  destruct Hin as [H | [H | [H | [H | []]]]]; inversion H; subst read name.
  - change (VectorStore.get_campaign_memories E campaign limit)
      with (IndexSearch.read E Memories "memory" [("campaign_id", campaign)]
              "campaign memories" limit "Failed to get campaign memories: ").
    destruct (read_returns E Memories "memory" [("campaign_id", campaign)]
                "campaign memories" limit "Failed to get campaign memories: " w)
      as (l & w' & Hrun & Hlogs & Htag & _).
    now exists l, w'.
  - destruct (read_returns E Memories "memory" [("character_id", character_id)]
                "character memories" limit "Failed to get character memories: " w)
      as (l & w' & Hrun & Hlogs & Htag & _).
    now exists l, w'.
  - destruct (read_returns E Campaigns "campaign"
                (IndexSearch.where_clause "npc" campaign_id) query 10
                "Failed to search NPCs: " w)
      as (l & w' & Hrun & Hlogs & Htag & _).
    now exists l, w'.
  - destruct (read_returns E Campaigns "campaign"
                (IndexSearch.where_clause "location" campaign_id) query 10
                "Failed to search locations: " w)
      as (l & w' & Hrun & Hlogs & Htag & _).
    now exists l, w'.
Qed.

Lemma filtered_reads_return_witness :
  exists l w',
    IndexSearch.search_npcs index_down "Who is Elandra?" (Some "camp_1") fresh_world
    = (Return l, w')
    /\ only_logs fresh_world w'
    /\ Forall (fun r => r_collection r = "campaign") l.
Proof.
  apply (filtered_reads_return index_down "camp_1" "char_aria" (Some "camp_1")
           "Who is Elandra?" 10
           (IndexSearch.search_npcs index_down "Who is Elandra?" (Some "camp_1")) "campaign"
           fresh_world).
  right. right. left. reflexivity.
Defined.

(** ** Characters and dice *)

Lemma get_modifier_constitution (scores : AbilityScores.t) :
  AbilityScores.get_modifier scores "constitution"
  = inr ((AbilityScores.constitution scores - 10) / 2).
Proof. reflexivity. Qed.

(** X12. The skill bonus of a character of level 1 to 20 for an ability
    whose score is between 1 and 30: the ability modifier, to which the
    proficiency bonus is added only when the skill is marked proficient (a
    skill missing from the map counts as not proficient). The proficiency
    bonus is 2 for levels 1 to 4 and grows by one every four levels up to
    6, so the skill bonus lies between -5 and 16. *)
Theorem skill_bonus (c : Character.t) (skill ability : string) (score : Z) :
  AbilityScores.getattr (Character.ability_scores c) (PyStr.lower ability) = inr score ->
  1 <= score <= 30 ->
  1 <= Character.level c <= 20 ->
  let proficiency := Character.get_proficiency_bonus c in
  exists bonus,
    Character.get_skill_bonus c skill ability = inr bonus /\
    (Character.skills c !! skill = Some true -> bonus = (score - 10) / 2 + proficiency) /\
    (Character.skills c !! skill <> Some true -> bonus = (score - 10) / 2) /\
    (forall n, proficiency = 2 + n <-> 4 * n + 1 <= Character.level c <= 4 * n + 4) /\
    2 <= proficiency <= 6 /\
    -5 <= bonus <= 16.
Proof.
  intros Hget Hscore Hlevel proficiency. subst proficiency.
  assert (Hp : 2 <= Character.get_proficiency_bonus c <= 6).
  { unfold Character.get_proficiency_bonus.
    assert (0 <= (Character.level c - 1) / 4 < 5); [| lia].
    split; [apply Z.div_pos; lia | apply Z.div_lt_upper_bound; lia]. }
  assert (Hm : -5 <= (score - 10) / 2 <= 10).
  { split; [apply Z.div_le_lower_bound; lia | apply Z.div_le_upper_bound; lia]. }
  unfold Character.get_skill_bonus, AbilityScores.get_modifier. rewrite Hget.
  destruct (Character.skills c !! skill) as [[|]|] eqn:Hs; cbn [default from_option id]; cbv zeta;
    eexists; (split; [reflexivity |]);
    (split; [intros H; try discriminate; reflexivity |]);
    (split; [intros H; try (exfalso; apply H; reflexivity); reflexivity |]);
    (split; [| split; [exact Hp | lia]]);
    intros n; unfold Character.get_proficiency_bonus;
    (split; [intros H; assert (Hn : (Character.level c - 1) / 4 = n) by lia;
             pose proof (Z.div_mod (Character.level c - 1) 4 ltac:(lia));
             pose proof (Z.mod_pos_bound (Character.level c - 1) 4 ltac:(lia)); lia
            | intros H; assert ((Character.level c - 1) / 4 = n); [| lia];
              symmetry; apply (Z.div_unique _ 4 n (Character.level c - 1 - 4 * n)); lia]).
Qed.

Lemma skill_bonus_witness :
  exists bonus,
    Character.get_skill_bonus
      (Character.mk "char_aria" "Aria" CharacterRace.ELF CharacterClass.ROGUE
                    Background.CRIMINAL 5 sample_scores 9 9 12 2
                    {["Stealth" := true]} [] ∅ "" 0)
      "Stealth" "Dexterity" = inr bonus /\ -5 <= bonus <= 16.
Proof.
  destruct (skill_bonus
              (Character.mk "char_aria" "Aria" CharacterRace.ELF CharacterClass.ROGUE
                            Background.CRIMINAL 5 sample_scores 9 9 12 2
                            {["Stealth" := true]} [] ∅ "" 0)
              "Stealth" "Dexterity" (AbilityScores.dexterity sample_scores))
    as (bonus & Hb & _ & _ & _ & _ & Hr).
  - reflexivity.
  - vm_compute. split; discriminate.
  - cbn. lia.
  - exists bonus. split; [exact Hb | exact Hr].
Defined.

(** X13. Hit points never fail to be computed, and from level 1 on they
    are the full hit die plus the constitution modifier, and one gain of
    half the die plus one plus the constitution modifier for every further
    level. With a constitution of 4 or more every level is worth at least
    one point. Nothing keeps the gain positive below that: a class with a
    d6 and a constitution of 1 loses a point per level and is at zero or
    less from level 2 on. *)
Theorem hit_points_by_level (character : Character.t) (level : Z) :
  1 <= level ->
  let die := DiceType.value
               (CharacterManager.class_hit_dice (Character.character_class character)) in
  let con := AbilityScores.constitution (Character.ability_scores character) in
  exists hp,
    CharacterManager._calculate_hit_points character level = inr hp /\
    hp = die + (con - 10) / 2 + (level - 1) * hit_points_per_level character /\
    CharacterManager._calculate_hit_points character (level + 1)
    = inr (hp + hit_points_per_level character) /\
    (4 <= con -> level <= hp) /\
    (con = 1 -> die = 6 -> hp = 2 - level).
Proof.
  intros Hlevel die con.
  unfold CharacterManager._calculate_hit_points.
  rewrite get_modifier_constitution. fold die con.
  assert (Hgain : hit_points_per_level character = die / 2 + 1 + (con - 10) / 2)
    by reflexivity.
  assert (Hdie : 6 <= die /\ 3 <= die / 2).
  { unfold die. destruct (Character.character_class character);
      vm_compute; split; discriminate. }
  replace (level + 1 =? 1) with false by (symmetry; apply Z.eqb_neq; lia).
  exists (die + (con - 10) / 2 + (level - 1) * hit_points_per_level character).
  split; [| split; [reflexivity | split; [| split]]].
  - destruct (Z.eqb_spec level 1) as [-> | _]; [f_equal; lia | rewrite Hgain; reflexivity].
  - rewrite Hgain. f_equal. lia.
  - intros Hcon. rewrite Hgain.
    assert (-3 <= (con - 10) / 2) by (apply Z.div_le_lower_bound; lia).
    nia.
  - intros Hcon Hd6. rewrite Hgain, Hcon, Hd6.
    change ((1 - 10) / 2) with (-5). change (6 / 2) with 3. lia.
Qed.

Lemma hit_points_by_level_witness :
  CharacterManager._calculate_hit_points
    (new_character "char_mira" "Mira" CharacterRace.GNOME CharacterClass.SORCERER
                   Background.SAGE (AbilityScores.mk 8 14 1 12 10 15)) 3
  = inr (-1).
Proof.
  destruct (hit_points_by_level
              (new_character "char_mira" "Mira" CharacterRace.GNOME CharacterClass.SORCERER
                             Background.SAGE (AbilityScores.mk 8 14 1 12 10 15)) 3)
    as (hp & Hhp & _ & _ & _ & Hfrail).
  - lia.
  - rewrite Hhp. f_equal. apply Hfrail; reflexivity.
Defined.

Lemma drop_lowest (a b c d : Z) :
  DiceRoller.sum (firstn 3 (DiceRoller.sort_desc [a; b; c; d]))
  = DiceRoller.sum [a; b; c; d] - lowest [a; b; c; d].
Proof.
  unfold DiceRoller.sort_desc, lowest. cbn [fold_right hd DiceRoller.insert_desc].
  repeat match goal with
         | |- context [?x <=? ?y] => destruct (Z.leb_spec x y)
         | _ => progress cbn [DiceRoller.insert_desc firstn DiceRoller.sum fold_right]
         end; lia.
Qed.

Lemma draws_length (randint : nat -> Z -> Z -> Z) (n count : nat) (sides : Z) :
  length (DiceRoller.draws randint n count sides) = count.
Proof. unfold DiceRoller.draws. rewrite length_map, length_seq. reflexivity. Qed.

Lemma draws_range (randint : nat -> Z -> Z -> Z) (n count : nat) (sides : Z) :
  (forall k, 1 <= randint k 1 sides <= sides) ->
  Forall (fun r => 1 <= r <= sides) (DiceRoller.draws randint n count sides).
Proof.
  intros Hrng. unfold DiceRoller.draws. apply Forall_map, Forall_forall.
  intros i _. apply Hrng.
Qed.

Lemma sum_range (l : list Z) (sides : Z) :
  Forall (fun r => 1 <= r <= sides) l ->
  Z.of_nat (length l) <= DiceRoller.sum l <= Z.of_nat (length l) * sides.
Proof.
  induction 1 as [| x l Hx _ IH]; [cbn; lia |].
  cbn [length DiceRoller.sum fold_right]. fold (DiceRoller.sum l). nia.
Qed.

(** X14. Every ability of [roll_stats] is the sum of its four d6 less the
    lowest of them, the six abilities come in the fixed order from
    Strength to Charisma with four draws each, and when the generator
    keeps to the sides of the die every score lies between 3 and 18. *)
Theorem roll_stats_drop_lowest (randint : nat -> Z -> Z -> Z) (n : nat) :
  (forall k, 1 <= randint k 1 6 <= 6) ->
  let stats := DiceRoller.roll_stats randint n in
  map fst stats = DiceRoller.stat_names /\
  (forall (i : nat) stat score,
     stats !! i = Some (stat, score) ->
     let rolls := DiceRoller.draws randint (n + 4 * i) 4 6 in
     score = DiceRoller.sum rolls - lowest rolls /\ 3 <= score <= 18).
Proof.
  intros Hrng stats. split; [reflexivity |].
  intros i stat score Hi rolls.
  assert (Hscore : score = DiceRoller.roll_stat randint (n + 4 * i)).
  { unfold stats, DiceRoller.roll_stats in Hi.
    rewrite list_lookup_imap in Hi.
    destruct (DiceRoller.stat_names !! i) as [s |]; [| discriminate].
    change (Some (s, DiceRoller.roll_stat randint (n + 4 * i)) = Some (stat, score)) in Hi.
    congruence. }
  assert (Hdrop : score = DiceRoller.sum rolls - lowest rolls).
  { rewrite Hscore. unfold DiceRoller.roll_stat, rolls, DiceRoller.draws.
    cbn [seq map]. apply drop_lowest. }
  split; [exact Hdrop |].
  rewrite Hdrop. unfold rolls, DiceRoller.draws. cbn [seq map].
  pose proof (Hrng (n + 4 * i + 0)%nat). pose proof (Hrng (n + 4 * i + 1)%nat).
  pose proof (Hrng (n + 4 * i + 2)%nat). pose proof (Hrng (n + 4 * i + 3)%nat).
  unfold lowest. cbn [fold_right hd DiceRoller.sum]. lia.
Qed.

Lemma roll_stats_drop_lowest_witness :
  DiceRoller.roll_stats cycling 0
  = [("Strength", 9); ("Dexterity", 13); ("Constitution", 15);
     ("Intelligence", 9); ("Wisdom", 13); ("Charisma", 15)]
  /\ (forall stat score,
        DiceRoller.roll_stats cycling 0 !! 1%nat = Some (stat, score) -> 3 <= score <= 18).
Proof.
  split; [vm_compute; reflexivity |].
  intros stat score H.
  destruct (roll_stats_drop_lowest cycling 0) as [_ Hall].
  - intros k. unfold cycling.
    pose proof (Z.mod_pos_bound (Z.of_nat k) (6 - 1 + 1) ltac:(lia)). lia.
  - exact (proj2 (Hall 1%nat stat score H)).
Defined.

(** X15. A d20 rolled with advantage keeps the higher of its two draws and
    one rolled with disadvantage the lower; a normal roll makes one draw.
    The total is the kept draw plus the modifier. When the generator keeps
    to the die, a roll with advantage is a critical success as soon as one
    draw is 20 and a critical failure only when both are 1, and the other
    way round with disadvantage. *)
Theorem advantage_keeps_best (randint : nat -> Z -> Z -> Z) (n : nat)
        (advantage_type : AdvantageType.t) (modifier : Z) :
  (forall k, 1 <= randint k 1 20 <= 20) ->
  let roll := DiceRoller.roll_with_advantage randint n advantage_type modifier in
  let kept := av_selected_roll roll in
  av_advantage_type roll = advantage_type /\
  In kept (av_rolls roll) /\
  av_total roll = kept + modifier /\
  (advantage_type = AdvantageType.NORMAL -> av_rolls roll = [randint n 1 20]) /\
  (advantage_type <> AdvantageType.NORMAL ->
   av_rolls roll = [randint n 1 20; randint (n + 1)%nat 1 20]) /\
  (advantage_type = AdvantageType.ADVANTAGE ->
   Forall (fun r => r <= kept) (av_rolls roll) /\
   (av_is_critical_success roll = true <-> Exists (fun r => r = 20) (av_rolls roll)) /\
   (av_is_critical_failure roll = true <-> Forall (fun r => r = 1) (av_rolls roll))) /\
  (advantage_type = AdvantageType.DISADVANTAGE ->
   Forall (fun r => kept <= r) (av_rolls roll) /\
   (av_is_critical_success roll = true <-> Forall (fun r => r = 20) (av_rolls roll)) /\
   (av_is_critical_failure roll = true <-> Exists (fun r => r = 1) (av_rolls roll))).
Proof.
  intros Hrng roll kept.
  pose proof (Hrng n) as H1. pose proof (Hrng (n + 1)%nat) as H2.
  subst kept roll.
  destruct advantage_type;
    cbn [DiceRoller.roll_with_advantage DiceRoller.AdvantageRoll av_advantage_type
         av_rolls av_selected_roll av_total av_is_critical_success av_is_critical_failure];
    (split; [reflexivity |]);
    (split; [cbn [In]; lia |]);
    (split; [reflexivity |]);
    (split; [intros H; try discriminate; reflexivity |]);
    (split; [intros H; try (exfalso; apply H; reflexivity); reflexivity |]);
    (split; intros H; try discriminate).
  - repeat split.
    + repeat constructor; lia.
    + intros Hc. apply Z.eqb_eq in Hc.
      destruct (Z.max_spec (randint n 1 20) (randint (n + 1)%nat 1 20)) as [[_ Hm] | [_ Hm]].
      * apply Exists_cons_tl, Exists_cons_hd. lia.
      * apply Exists_cons_hd. lia.
    + intros Hc. apply Z.eqb_eq.
      apply Exists_cons in Hc as [Hc | Hc]; [lia |].
      apply Exists_cons in Hc as [Hc | Hc]; [lia | inversion Hc].
    + intros Hc. apply Z.eqb_eq in Hc. repeat constructor; lia.
    + intros Hc. apply Z.eqb_eq.
      inversion Hc as [| ? ? Ha Hc']; subst. inversion Hc' as [| ? ? Hb _]; subst. lia.
  - repeat split.
    + repeat constructor; lia.
    + intros Hc. apply Z.eqb_eq in Hc. repeat constructor; lia.
    + intros Hc. apply Z.eqb_eq.
      inversion Hc as [| ? ? Ha Hc']; subst. inversion Hc' as [| ? ? Hb _]; subst. lia.
    + intros Hc. apply Z.eqb_eq in Hc.
      destruct (Z.min_spec (randint n 1 20) (randint (n + 1)%nat 1 20)) as [[_ Hm] | [_ Hm]].
      * apply Exists_cons_hd. lia.
      * apply Exists_cons_tl, Exists_cons_hd. lia.
    + intros Hc. apply Z.eqb_eq.
      apply Exists_cons in Hc as [Hc | Hc]; [lia |].
      apply Exists_cons in Hc as [Hc | Hc]; [lia | inversion Hc].
Qed.

Lemma advantage_keeps_best_witness :
  let roll := DiceRoller.roll_with_advantage cycling 18 AdvantageType.ADVANTAGE 3 in
  av_rolls roll = [19; 20] /\ av_total roll = 23 /\ av_is_critical_success roll = true.
Proof.
  destruct (advantage_keeps_best cycling 18 AdvantageType.ADVANTAGE 3)
    as (_ & _ & Htotal & _ & Hrolls & Hadv & _).
  - intros k. unfold cycling.
    pose proof (Z.mod_pos_bound (Z.of_nat k) (20 - 1 + 1) ltac:(lia)). lia.
  - cbv zeta. split; [apply Hrolls; discriminate |].
    split; [rewrite Htotal; reflexivity |].
    apply (proj1 (proj2 (Hadv eq_refl))). rewrite Hrolls by discriminate.
    apply Exists_cons_tl, Exists_cons_hd. reflexivity.
Defined.

(** X16. Rolling [count] dice draws exactly [count] values when the count
    is not negative, and none at all when it is zero or negative, so that
    the total is then the bare modifier. When the generator keeps to the
    sides of the die the total lies between [count + modifier] and
    [count * sides + modifier]. A single die is marked critical only if it
    is a d20: a 20 or a 1 on any other die is no critical roll. *)
Theorem roll_multiple_total (randint : nat -> Z -> Z -> Z) (n : nat)
        (dice_type : DiceType.t) (count modifier : Z) :
  (forall k, 1 <= randint k 1 (DiceType.value dice_type) <= DiceType.value dice_type) ->
  let sides := DiceType.value dice_type in
  let roll := DiceRoller.roll_multiple randint n dice_type count modifier in
  let die := DiceRoller.roll_die randint n dice_type modifier in
  mr_total roll = DiceRoller.sum (mr_results roll) + modifier /\
  mr_individual_totals roll = mr_results roll /\
  Forall (fun r => 1 <= r <= sides) (mr_results roll) /\
  (0 <= count ->
   Z.of_nat (length (mr_results roll)) = count /\
   count + modifier <= mr_total roll <= count * sides + modifier) /\
  (count <= 0 -> mr_results roll = [] /\ mr_total roll = modifier) /\
  1 <= dr_result die <= sides /\
  dr_total die = dr_result die + modifier /\
  (dr_is_critical_success die = true <-> dice_type = DiceType.D20 /\ dr_result die = 20) /\
  (dr_is_critical_failure die = true <-> dice_type = DiceType.D20 /\ dr_result die = 1).
Proof.
  intros Hrng sides roll die.
  assert (Hres : Forall (fun r => 1 <= r <= sides) (mr_results roll))
    by (apply draws_range, Hrng).
  assert (Hlen : length (mr_results roll) = Z.to_nat count) by apply draws_length.
  split; [reflexivity |]. split; [reflexivity |]. split; [exact Hres |].
  split; [| split; [| split; [apply Hrng | split; [reflexivity |]]]].
  - intros Hcount. split; [rewrite Hlen; lia |].
    pose proof (sum_range _ _ Hres) as Hs. rewrite Hlen in Hs.
    change (mr_total roll) with (DiceRoller.sum (mr_results roll) + modifier).
    rewrite Z2Nat.id in Hs by exact Hcount. fold sides in Hs. lia.
  - intros Hcount.
    assert (Hnil : mr_results roll = []).
    { apply length_zero_iff_nil. rewrite Hlen. lia. }
    split; [exact Hnil |].
    change (mr_total roll) with (DiceRoller.sum (mr_results roll) + modifier).
    rewrite Hnil. reflexivity.
  - subst die. unfold DiceRoller.roll_die, DiceRoller.DiceRoll, DiceType.eqb.
    cbn [dr_is_critical_success dr_is_critical_failure dr_result].
    destruct dice_type; cbn [DiceType.value Z.eqb Pos.eqb];
      split; split; try discriminate;
      try (intros [Hd _]; discriminate Hd);
      try (intros Hc; split; [reflexivity | apply Z.eqb_eq, Hc]);
      try (intros [_ Hc]; apply Z.eqb_eq, Hc).
Qed.

Lemma roll_multiple_total_witness :
  let roll := DiceRoller.roll_multiple cycling 0 DiceType.D6 2 3 in
  mr_results roll = [1; 2] /\ 5 <= mr_total roll <= 15.
Proof.
  destruct (roll_multiple_total cycling 0 DiceType.D6 2 3)
    as (_ & _ & _ & Hcount & _).
  - intros k. unfold cycling. cbn [DiceType.value].
    pose proof (Z.mod_pos_bound (Z.of_nat k) (6 - 1 + 1) ltac:(lia)). lia.
  - cbv zeta. split; [vm_compute; reflexivity |].
    exact (proj2 (Hcount ltac:(lia))).
Defined.

Lemma upper_char_not_lower (c : ascii) : is_lower (upper_char c) = false.
Proof.
  destruct c as [[] [] [] [] [] [] [] []]; vm_compute; reflexivity.
Qed.

Lemma upper_head (s : string) :
  match upper s with
  | EmptyString => s = EmptyString
  | String c _ => is_lower c = false
  end.
Proof. destruct s as [| c s]; cbn; [reflexivity | apply upper_char_not_lower]. Qed.

(** X17. Every enumeration of characters and dice is found again from its
    value: looking a member's value up gives the member back, and a value
    that is found is the value of the member returned. The lookup is by the
    exact value, so the upper-cased choice that the dice menu passes for a
    roll with advantage never names an advantage type, whatever was
    chosen. *)
Theorem enum_lookup :
  (forall c, CharacterClass.of_value (CharacterClass.value c) = Some c) /\
  (forall r, CharacterRace.of_value (CharacterRace.value r) = Some r) /\
  (forall b, Background.of_value (Background.value b) = Some b) /\
  (forall d, DiceType.of_value (DiceType.value d) = Some d) /\
  (forall a, AdvantageType.of_value (AdvantageType.value a) = Some a) /\
  (forall v a, AdvantageType.of_value v = Some a -> AdvantageType.value a = v) /\
  (forall v d, DiceType.of_value v = Some d -> DiceType.value d = v) /\
  (forall choice, advantage_type_of_choice choice = None).
Proof.
  repeat split.
  - intros []; reflexivity.
  - intros []; reflexivity.
  - intros []; reflexivity.
  - intros []; reflexivity.
  - intros []; reflexivity.
  - intros v a H. unfold AdvantageType.of_value, by_value in H.
    apply find_some in H as [_ H]. apply String.eqb_eq, H.
  - intros v d H. unfold DiceType.of_value, by_value in H.
    apply find_some in H as [_ H]. apply Z.eqb_eq, H.
  - intros choice. unfold advantage_type_of_choice.
    destruct (AdvantageType.of_value (upper choice)) as [a |] eqn:Ha; [| reflexivity].
    exfalso. unfold AdvantageType.of_value, by_value in Ha.
    apply find_some in Ha as [_ Ha]. apply String.eqb_eq in Ha.
    pose proof (upper_head choice) as Hu. rewrite <- Ha in Hu.
    destruct a; discriminate Hu.
Qed.

(** ** Characters in the relational store *)

Lemma race_of_value (r : CharacterRace.t) : CharacterRace.of_value (CharacterRace.value r) = Some r.
Proof. destruct r; reflexivity. Qed.

Lemma class_of_value (c : CharacterClass.t) :
  CharacterClass.of_value (CharacterClass.value c) = Some c.
Proof. destruct c; reflexivity. Qed.

Lemma background_of_value (b : Background.t) : Background.of_value (Background.value b) = Some b.
Proof. destruct b; reflexivity. Qed.

Lemma create_character_eq (E : env) (d : character_dict) (store : CharacterStore.t) :
  cd_id d <> "" ->
  fits_sqlite_integer (cd_level d) = true ->
  CharacterStore.rows store !! cd_id d = None ->
  CharacterStore.create_character E d store
  = (inr (cd_id d),
     CharacterStore.mk
       (<[cd_id d :=
            mk_character_record (cd_id d) (cd_name d) (cd_class d) (cd_level d) (cd_race d)
                                (cd_background d) (cd_stats d) (cd_skills d)
                                (cd_equipment d) (cd_spells d) (cd_notes d)]>
          (CharacterStore.rows store))
       (CharacterStore.clock_reads store)).
Proof.
  intros Hid Hfits Hfree. unfold CharacterStore.create_character.
  destruct (String.eqb_spec (cd_id d) "") as [He | _]; [contradiction |].
  rewrite Hfits, Hfree. reflexivity.
Qed.

(** X18. A character whose level fits the 64 bits of an [INTEGER] column,
    created and loaded again, comes back with its identifier, name, race,
    class, background, level, ability scores, skills, equipment, spells
    and notes, and without its hit points, armour class, proficiency bonus
    and experience: the table has no column for them and the loaded
    character carries 0, 0, 10, 2 and 0. The other characters of the table
    load as before. A level outside the 64 bits is refused with an
    [OverflowError] and no row is written. *)
Theorem character_reload (E : env) (c : Character.t) (store : CharacterStore.t) :
  Character.id c <> "" ->
  CharacterStore.rows store !! Character.id c = None ->
  (- 2 ^ 63 <= Character.level c < 2 ^ 63 ->
   exists store' c',
     CharacterStore.create_character E (to_dict c) store = (inr (Character.id c), store') /\
     CharacterStore.load_character (Character.id c) store' = inr (Some c') /\
     (Character.id c' = Character.id c /\ Character.name c' = Character.name c /\
      Character.race c' = Character.race c /\
      Character.character_class c' = Character.character_class c /\
      Character.background c' = Character.background c /\
      Character.level c' = Character.level c /\
      Character.ability_scores c' = Character.ability_scores c /\
      Character.skills c' = Character.skills c /\
      Character.equipment c' = Character.equipment c /\
      Character.spells c' = Character.spells c /\
      Character.notes c' = Character.notes c) /\
     (Character.hit_points c' = 0 /\ Character.max_hit_points c' = 0 /\
      Character.armor_class c' = 10 /\ Character.proficiency_bonus c' = 2 /\
      Character.experience_points c' = 0) /\
     (forall other, other <> Character.id c ->
        CharacterStore.load_character other store' = CharacterStore.load_character other store))
  /\ (Character.level c < - 2 ^ 63 \/ 2 ^ 63 <= Character.level c ->
      CharacterStore.create_character E (to_dict c) store = (inl too_large, store) /\
      CharacterStore.load_character (Character.id c) store = inr None).
Proof.
  intros Hid Hfree. split.
  - intros Hlevel.
    assert (Hfits : fits_sqlite_integer (cd_level (to_dict c)) = true).
    { unfold fits_sqlite_integer. cbn [to_dict cd_level].
      apply andb_true_iff. split; [apply Z.leb_le | apply Z.ltb_lt]; lia. }
    eexists. eexists.
    split; [apply (create_character_eq E (to_dict c) store Hid Hfits Hfree) |].
    split.
    + unfold CharacterStore.load_character, CharacterStore.get_character.
      cbn [CharacterStore.rows to_dict cd_id]. rewrite lookup_insert_eq.
      cbn [rec_race rec_class rec_background cd_race cd_class cd_background to_dict].
      rewrite race_of_value, class_of_value, background_of_value. reflexivity.
    + split; [repeat split |]. split; [repeat split |].
      intros other Hother.
      unfold CharacterStore.load_character, CharacterStore.get_character.
      cbn [CharacterStore.rows to_dict cd_id].
      rewrite lookup_insert_ne by (intros Heq; apply Hother; symmetry; exact Heq).
      reflexivity.
  - intros Hlevel.
    assert (Hfits : fits_sqlite_integer (cd_level (to_dict c)) = false).
    { unfold fits_sqlite_integer. cbn [to_dict cd_level].
      apply andb_false_iff. destruct Hlevel as [Hlow | Hhigh];
        [left; apply Z.leb_gt | right; apply Z.ltb_ge]; lia. }
    split.
    + unfold CharacterStore.create_character.
      change (cd_id (to_dict c)) with (Character.id c).
      destruct (String.eqb_spec (Character.id c) "") as [He | _]; [contradiction |].
      rewrite Hfits. reflexivity.
    + unfold CharacterStore.load_character, CharacterStore.get_character.
      rewrite Hfree. reflexivity.
Qed.

Lemma character_reload_witness :
  (exists store' c',
     CharacterStore.create_character (healthy ticking_clock) (to_dict veteran) empty_store
     = (inr "char_aria", store') /\
     CharacterStore.load_character "char_aria" store' = inr (Some c') /\
     Character.level c' = 5 /\ Character.hit_points c' = 0 /\
     Character.experience_points c' = 0)
  /\ CharacterStore.create_character (healthy ticking_clock) (to_dict overgrown) empty_store
     = (inl too_large, empty_store).
Proof.
  split.
  - destruct (character_reload (healthy ticking_clock) veteran empty_store)
      as [Hreload _]; [discriminate | reflexivity |].
    destruct Hreload as (store' & c' & Hcreate & Hload & Hkept & Hlost & _);
      [cbn; lia |].
    exists store', c'.
    split; [exact Hcreate |]. split; [exact Hload |].
    destruct Hkept as (_ & _ & _ & _ & _ & Hlevel & _).
    destruct Hlost as (Hhp & _ & _ & _ & Hxp).
    split; [rewrite Hlevel; reflexivity |]. split; [exact Hhp | exact Hxp].
  - destruct (character_reload (healthy ticking_clock) overgrown empty_store)
      as [_ Hrefused]; [discriminate | reflexivity |].
    apply Hrefused. right. cbn. lia.
Defined.

(** X19. Once a character is created, creating it again is refused by the
    primary key and leaves the stored row as it is. With an identifier of
    its own the second creation always fails; with an empty identifier,
    for which one is made of the clock, it fails when the clock still
    shows the same second. An identifier that is not in the table loads as
    no character, without an error. *)
Theorem create_character_again (E : env) (d : character_dict) (store store1 : CharacterStore.t)
        (character_id : string) :
  CharacterStore.create_character E d store = (inr character_id, store1) ->
  let refused := mk_exn IntegrityError "UNIQUE constraint failed: characters.id" in
  (exists row,
     CharacterStore.get_character character_id store1 = Some row /\
     row_of row = mk_character character_id (cd_name d) (cd_class d) (cd_level d) (cd_race d)) /\
  (cd_id d <> "" ->
   character_id = cd_id d /\
   CharacterStore.create_character E d store1 = (inl refused, store1)) /\
  (cd_id d = "" ->
   character_id
   = "char_" +:+ strftime_compact (wall_clock E (CharacterStore.clock_reads store)) /\
   (strftime_compact (wall_clock E (CharacterStore.clock_reads store1))
    = strftime_compact (wall_clock E (CharacterStore.clock_reads store)) ->
    CharacterStore.create_character E d store1
    = (inl refused,
       CharacterStore.mk (CharacterStore.rows store1)
                         (S (CharacterStore.clock_reads store1))))) /\
  (forall other,
     CharacterStore.rows store1 !! other = None ->
     CharacterStore.load_character other store1 = inr None).
Proof.
  intros Hcreate refused.
  unfold CharacterStore.create_character in Hcreate.
  destruct (String.eqb_spec (cd_id d) "") as [He | Hne].
  - cbn [CharacterStore.rows CharacterStore.clock_reads] in Hcreate.
    destruct (fits_sqlite_integer (cd_level d)) eqn:Hfits; [| discriminate].
    cbn [negb] in Hcreate.
    destruct (CharacterStore.rows store !! _) eqn:Hrow in Hcreate; [discriminate |].
    injection Hcreate as <- <-.
    split; [| split; [| split]].
    + eexists. split.
      * unfold CharacterStore.get_character. cbn [CharacterStore.rows].
        apply lookup_insert_eq.
      * reflexivity.
    + intros Hid. contradiction.
    + intros _. split; [reflexivity |].
      cbn [CharacterStore.clock_reads]. intros Hsame.
      unfold CharacterStore.create_character.
      destruct (String.eqb_spec (cd_id d) "") as [_ | Hne]; [| contradiction].
      cbn [CharacterStore.rows CharacterStore.clock_reads].
      rewrite Hfits. cbn [negb]. rewrite Hsame, lookup_insert_eq. reflexivity.
    + intros other Hother. unfold CharacterStore.load_character, CharacterStore.get_character.
      rewrite Hother. reflexivity.
  - destruct (fits_sqlite_integer (cd_level d)) eqn:Hfits; [| discriminate].
    cbn [negb] in Hcreate.
    destruct (CharacterStore.rows store !! cd_id d) eqn:Hrow in Hcreate; [discriminate |].
    injection Hcreate as <- <-.
    split; [| split; [| split]].
    + eexists. split.
      * unfold CharacterStore.get_character. cbn [CharacterStore.rows].
        apply lookup_insert_eq.
      * reflexivity.
    + intros _. split; [reflexivity |].
      unfold CharacterStore.create_character.
      destruct (String.eqb_spec (cd_id d) "") as [He | _]; [contradiction |].
      rewrite Hfits. cbn [negb CharacterStore.rows]. rewrite lookup_insert_eq. reflexivity.
    + intros He. contradiction.
    + intros other Hother. unfold CharacterStore.load_character, CharacterStore.get_character.
      rewrite Hother. reflexivity.
Qed.

Lemma create_character_again_witness :
  exists store1,
    CharacterStore.create_character (healthy frozen_clock) (to_dict veteran) empty_store
    = (inr "char_aria", store1) /\
    CharacterStore.create_character (healthy frozen_clock) (to_dict veteran) store1
    = (inl (mk_exn IntegrityError "UNIQUE constraint failed: characters.id"), store1).
Proof.
  eexists. split; [reflexivity |].
  apply (create_character_again (healthy frozen_clock) (to_dict veteran) empty_store _
                                "char_aria" eq_refl).
  discriminate.
Defined.

(** ** Dice notation *)

Lemma lower_app (a b : string) : PyStr.lower (a +:+ b) = PyStr.lower a +:+ PyStr.lower b.
Proof.
  induction a as [| c a IH]; [reflexivity |].
  rewrite append_cons. cbn [PyStr.lower]. rewrite append_cons, IH. reflexivity.
Qed.

Lemma remove_spaces_app (a b : string) :
  remove_spaces (a +:+ b) = remove_spaces a +:+ remove_spaces b.
Proof.
  induction a as [| c a IH]; [reflexivity |].
  rewrite append_cons. cbn [remove_spaces]. destruct (Ascii.eqb c " ").
  - exact IH.
  - rewrite append_cons, IH. reflexivity.
Qed.

Lemma contains_char_cons (x c : ascii) (s : string) :
  PyStr.contains (String x "") (String c s)
  = Ascii.eqb x c || PyStr.contains (String x "") s.
Proof.
  cbn [PyStr.contains PyStr.startswith]. destruct (Ascii.eqb x c); reflexivity.
Qed.

Lemma contains_char_nil (x : ascii) : PyStr.contains (String x "") "" = false.
Proof. reflexivity. Qed.

Lemma contains_char_app (x : ascii) (a b : string) :
  PyStr.contains (String x "") (a +:+ b)
  = PyStr.contains (String x "") a || PyStr.contains (String x "") b.
Proof.
  induction a as [| c a IH]; [reflexivity |].
  rewrite append_cons, !contains_char_cons, IH. apply orb_assoc.
Qed.

Lemma split_none (sep : ascii) (a : string) :
  PyStr.contains (String sep "") a = false -> split_char sep a = [a].
Proof.
  induction a as [| c a IH]; [reflexivity |].
  rewrite contains_char_cons. intros H. apply orb_false_iff in H as [Hc Ha].
  cbn [split_char]. rewrite Ascii.eqb_sym, Hc, (IH Ha). reflexivity.
Qed.

Lemma split_app (sep : ascii) (a b : string) :
  PyStr.contains (String sep "") a = false ->
  split_char sep (a +:+ String sep b) = a :: split_char sep b.
Proof.
  induction a as [| c a IH]; intros H.
  - change ("" +:+ String sep b) with (String sep b).
    cbn [split_char]. rewrite Ascii.eqb_refl. reflexivity.
  - rewrite contains_char_cons in H. apply orb_false_iff in H as [Hc Ha].
    rewrite append_cons. cbn [split_char]. rewrite Ascii.eqb_sym, Hc, (IH Ha). reflexivity.
Qed.

Lemma plain_facts (s : string) :
  plain s = true ->
  PyStr.lower s = s /\ remove_spaces s = s /\
  PyStr.contains "+" s = false /\ PyStr.contains "-" s = false /\
  PyStr.contains "d" s = false.
Proof.
  induction s as [| c s IH]; [intros _; repeat split |].
  cbn [plain]. intros H. apply andb_true_iff in H as [Hc Hs].
  destruct (IH Hs) as (Hl & Hr & Hp & Hm & Hd).
  unfold plain_char in Hc.
  repeat (apply andb_true_iff in Hc as [Hc ?]).
  repeat match goal with H : negb _ = true |- _ => apply negb_true_iff in H end.
  cbn [PyStr.lower remove_spaces]. rewrite !contains_char_cons.
  unfold PyStr.lower_char.
  repeat match goal with H : _ = false |- _ => rewrite H end.
  rewrite Hl, Hr.
  rewrite (Ascii.eqb_sym "+" c), (Ascii.eqb_sym "-" c), (Ascii.eqb_sym "d" c).
  repeat match goal with H : _ = false |- _ => rewrite H end.
  repeat split.
Qed.

Lemma plain_digits (d : Decimal.uint) : plain (NilEmpty.string_of_uint d) = true.
Proof. induction d; cbn [NilEmpty.string_of_uint plain]; try rewrite IHd; reflexivity. Qed.

Lemma string_of_uint_plain (d : Decimal.uint) :
  plain (NilZero.string_of_uint d) = true /\ PyStr.truthy (NilZero.string_of_uint d) = true.
Proof.
  split.
  - destruct d; try reflexivity; apply (plain_digits (_ d)) || apply plain_digits.
  - destruct d; reflexivity.
Qed.

Lemma str_of_int_plain (z : Z) :
  0 <= z -> plain (PyStr.str_of_int z) = true /\ PyStr.truthy (PyStr.str_of_int z) = true.
Proof.
  intros Hz. unfold PyStr.str_of_int. destruct z as [| p | p]; [split; reflexivity | | lia].
  apply string_of_uint_plain.
Qed.

Lemma str_of_int_neg (z : Z) :
  0 < z -> PyStr.str_of_int (- z) = "-" +:+ PyStr.str_of_int z.
Proof.
  intros Hz. destruct z as [| p | p]; [lia | | lia]. reflexivity.
Qed.

Lemma truthy_app (a b : string) : PyStr.truthy a = true -> PyStr.truthy (a +:+ b) = true.
Proof. destruct a; [discriminate | reflexivity]. Qed.

Lemma first_piece (sep : ascii) (m tail : string) :
  PyStr.contains (String sep "") m = false ->
  tail = "" \/ (exists r, tail = String sep r) ->
  nth 0 (split_char sep (m +:+ tail)) "" = m.
Proof.
  intros Hm [-> | [r ->]].
  - rewrite append_empty_r, (split_none sep m Hm). reflexivity.
  - rewrite (split_app sep m r Hm). reflexivity.
Qed.

(** What the parser makes of the dice part [c d v] once the modifier is
    split off. *)
Lemma parse_dice_part (py_int : string -> py_exn + Z) (c v : string) (count sides : Z) :
  PyStr.contains "d" c = false ->
  PyStr.contains "d" v = false ->
  (if PyStr.truthy c then py_int c else inr 1) = inr count ->
  py_int v = inr sides ->
  PyStr.contains "d" (c +:+ "d" +:+ v) = true /\
  (if PyStr.truthy (nth 0 (split_char "d" (c +:+ "d" +:+ v)) "")
   then py_int (nth 0 (split_char "d" (c +:+ "d" +:+ v)) "") else inr 1) = inr count /\
  py_int (nth 1 (split_char "d" (c +:+ "d" +:+ v)) "") = inr sides.
Proof.
  intros Hc Hv Hcount Hsides.
  change (c +:+ "d" +:+ v) with (c +:+ String "d" v).
  rewrite (split_app "d" c v Hc), (split_none "d" v Hv). cbn [nth].
  split; [| split; assumption].
  rewrite contains_char_app. apply orb_true_iff. right. reflexivity.
Qed.

(** A notation [c d v + m], with anything after a second [+]. *)
Lemma parse_plus (py_int : string -> py_exn + Z) (c v m rest : string)
      (count sides modifier : Z) :
  PyStr.lower c = c -> remove_spaces c = c -> PyStr.contains "+" c = false ->
  PyStr.contains "d" c = false ->
  plain v = true -> plain m = true ->
  rest = "" \/ (exists r, rest = String "+" r) ->
  (if PyStr.truthy c then py_int c else inr 1) = inr count ->
  py_int v = inr sides ->
  py_int m = inr modifier ->
  DiceNotation.parse_dice_notation py_int (c +:+ "d" +:+ v +:+ "+" +:+ m +:+ rest)
  = parsed sides count modifier.
Proof.
  intros Hl Hr Hplus Hd Hv Hm Hrest Hcount Hsides Hmod.
  destruct (plain_facts v Hv) as (Hvl & Hvr & Hvp & _ & Hvd).
  destruct (plain_facts m Hm) as (Hml & Hmr & Hmp & _ & _).
  destruct (parse_dice_part py_int c v count sides Hd Hvd Hcount Hsides)
    as (Hin & Hc' & Hs').
  unfold DiceNotation.parse_dice_notation.
  replace (c +:+ "d" +:+ v +:+ "+" +:+ m +:+ rest)
    with ((c +:+ "d" +:+ v) +:+ "+" +:+ m +:+ rest)
    by (rewrite !append_assoc; reflexivity).
  rewrite !lower_app, !remove_spaces_app, Hl, Hml, Hvl.
  change (PyStr.lower "+") with "+". change (remove_spaces "+") with "+".
  change (PyStr.lower "d") with "d". change (remove_spaces "d") with "d".
  rewrite Hr, Hmr, Hvr.
  set (tail := remove_spaces (PyStr.lower rest)).
  assert (Htail : tail = "" \/ (exists r, tail = String "+" r)).
  { destruct Hrest as [-> | [r ->]]; [left; reflexivity | right].
    exists (remove_spaces (PyStr.lower r)). reflexivity. }
  set (base := c +:+ "d" +:+ v) in *.
  assert (Hbase : PyStr.contains "+" base = false).
  { unfold base. rewrite !contains_char_app, Hplus, Hvp. reflexivity. }
  assert (Hplus_in : PyStr.contains "+" (base +:+ "+" +:+ m +:+ tail) = true).
  { rewrite contains_char_app. apply orb_true_iff. right. reflexivity. }
  rewrite Hplus_in.
  change (base +:+ "+" +:+ m +:+ tail) with (base +:+ String "+" (m +:+ tail)).
  rewrite (split_app "+" base _ Hbase).
  cbn [nth]. rewrite (first_piece "+" m tail Hmp Htail), Hmod.
  rewrite Hin. cbn [negb]. rewrite Hc', Hs'. reflexivity.
Qed.

(** A notation [c d v - m], with anything after a second [-]. *)
Lemma parse_minus (py_int : string -> py_exn + Z) (c v m rest : string)
      (count sides modifier : Z) :
  plain c = true -> plain v = true -> plain m = true ->
  rest = "" \/ (exists r, rest = String "-" r /\ PyStr.contains "+" r = false) ->
  (if PyStr.truthy c then py_int c else inr 1) = inr count ->
  py_int v = inr sides ->
  py_int m = inr modifier ->
  DiceNotation.parse_dice_notation py_int (c +:+ "d" +:+ v +:+ "-" +:+ m +:+ rest)
  = parsed sides count (- modifier).
Proof.
  intros Hc Hv Hm Hrest Hcount Hsides Hmod.
  destruct (plain_facts c Hc) as (Hcl & Hcr & Hcp & Hcm & Hcd).
  destruct (plain_facts v Hv) as (Hvl & Hvr & Hvp & Hvm & Hvd).
  destruct (plain_facts m Hm) as (Hml & Hmr & Hmp & Hmm & _).
  destruct (parse_dice_part py_int c v count sides Hcd Hvd Hcount Hsides)
    as (Hin & Hc' & Hs').
  unfold DiceNotation.parse_dice_notation.
  replace (c +:+ "d" +:+ v +:+ "-" +:+ m +:+ rest)
    with ((c +:+ "d" +:+ v) +:+ "-" +:+ m +:+ rest)
    by (rewrite !append_assoc; reflexivity).
  rewrite !lower_app, !remove_spaces_app, Hcl, Hml, Hvl.
  change (PyStr.lower "-") with "-". change (remove_spaces "-") with "-".
  change (PyStr.lower "d") with "d". change (remove_spaces "d") with "d".
  rewrite Hcr, Hmr, Hvr.
  set (tail := remove_spaces (PyStr.lower rest)).
  assert (Htail : (tail = "" \/ (exists r, tail = String "-" r))
                  /\ PyStr.contains "+" tail = false).
  { destruct Hrest as [-> | (r & -> & Hr)]; [split; [left |]; reflexivity |].
    split.
    - right. exists (remove_spaces (PyStr.lower r)). reflexivity.
    - unfold tail. cbn [PyStr.lower remove_spaces].
      change (PyStr.lower_char "-") with "-"%char.
      change (Ascii.eqb "-" " ") with false. cbv iota.
      rewrite contains_char_cons. change (Ascii.eqb "+" "-") with false.
      cbn [orb]. clear - Hr.
      induction r as [| x r IH]; [reflexivity |].
      rewrite contains_char_cons in Hr. apply orb_false_iff in Hr as [Hx Hr].
      cbn [PyStr.lower remove_spaces].
      destruct (Ascii.eqb (PyStr.lower_char x) " ") eqn:Hsp; [apply IH, Hr |].
      rewrite contains_char_cons, (IH Hr), orb_false_r.
      unfold PyStr.lower_char. destruct (PyStr.is_upper x) eqn:Hup; [| exact Hx].
      apply Ascii.eqb_neq. intros Heq.
      assert (Hn : nat_of_ascii "+" = nat_of_ascii (ascii_of_nat (nat_of_ascii x + 32)))
        by (f_equal; exact Heq).
      unfold PyStr.is_upper in Hup. cbv zeta in Hup.
      apply andb_true_iff in Hup as [Hlo Hhi].
      apply Nat.leb_le in Hlo. apply Nat.leb_le in Hhi.
      rewrite nat_ascii_embedding in Hn by lia.
      change (nat_of_ascii "+") with 43%nat in Hn. lia. }
  destruct Htail as [Htail Htp].
  set (base := c +:+ "d" +:+ v) in *.
  assert (Hbase : PyStr.contains "-" base = false).
  { unfold base. rewrite !contains_char_app, Hcm, Hvm. reflexivity. }
  assert (Hno_plus : PyStr.contains "+" (base +:+ "-" +:+ m +:+ tail) = false).
  { unfold base. rewrite !contains_char_app, Hcp, Hvp, Hmp, Htp. reflexivity. }
  assert (Hminus_in : PyStr.contains "-" (base +:+ "-" +:+ m +:+ tail) = true).
  { rewrite contains_char_app. apply orb_true_iff. right. reflexivity. }
  rewrite Hno_plus, Hminus_in.
  change (base +:+ "-" +:+ m +:+ tail) with (base +:+ String "-" (m +:+ tail)).
  rewrite (split_app "-" base _ Hbase).
  cbn [nth]. rewrite (first_piece "-" m tail Hmm Htail), Hmod.
  rewrite Hin. cbn [negb]. rewrite Hc', Hs'. reflexivity.
Qed.

(** A notation [c d v] without a modifier. *)
Lemma parse_bare (py_int : string -> py_exn + Z) (c v : string) (count sides : Z) :
  plain c = true -> plain v = true ->
  (if PyStr.truthy c then py_int c else inr 1) = inr count ->
  py_int v = inr sides ->
  DiceNotation.parse_dice_notation py_int (c +:+ "d" +:+ v) = parsed sides count 0.
Proof.
  intros Hc Hv Hcount Hsides.
  destruct (plain_facts c Hc) as (Hcl & Hcr & Hcp & Hcm & Hcd).
  destruct (plain_facts v Hv) as (Hvl & Hvr & Hvp & Hvm & Hvd).
  destruct (parse_dice_part py_int c v count sides Hcd Hvd Hcount Hsides)
    as (Hin & Hc' & Hs').
  unfold DiceNotation.parse_dice_notation.
  rewrite !lower_app, !remove_spaces_app, Hcl, Hvl.
  change (PyStr.lower "d") with "d". change (remove_spaces "d") with "d".
  rewrite Hcr, Hvr.
  assert (Hno_plus : PyStr.contains "+" (c +:+ "d" +:+ v) = false)
    by (rewrite !contains_char_app, Hcp, Hvp; reflexivity).
  assert (Hno_minus : PyStr.contains "-" (c +:+ "d" +:+ v) = false)
    by (rewrite !contains_char_app, Hcm, Hvm; reflexivity).
  rewrite Hno_plus, Hno_minus, Hin. cbn [negb]. rewrite Hc', Hs'. reflexivity.
Qed.

Lemma dice_type_map_value (d : DiceType.t) : dice_type_map_get (DiceType.value d) = Some d.
Proof. destruct d; reflexivity. Qed.

Lemma count_read (py_int : string -> py_exn + Z) (count : Z) :
  (forall z, py_int (PyStr.str_of_int z) = inr z) ->
  0 <= count ->
  (if PyStr.truthy (PyStr.str_of_int count) then py_int (PyStr.str_of_int count) else inr 1)
  = inr count.
Proof.
  intros Hint Hcount. rewrite (proj2 (str_of_int_plain count Hcount)). apply Hint.
Qed.

(** X20. The notation in which a count that is not negative, a die and a
    modifier are written, [2d6], [2d6+3] or [2d6-3], is parsed back into
    the same count, die and modifier; a notation without a count, such as
    [d20], stands for one die. *)
Theorem notation_round_trip (py_int : string -> py_exn + Z)
        (count : Z) (dice_type : DiceType.t) (modifier : Z) :
  (forall z, py_int (PyStr.str_of_int z) = inr z) ->
  0 <= count ->
  DiceNotation.parse_dice_notation py_int (notation_of count dice_type modifier)
  = inr (count, dice_type, modifier) /\
  DiceNotation.parse_dice_notation
    py_int ("d" +:+ PyStr.str_of_int (DiceType.value dice_type))
  = inr (1, dice_type, 0).
Proof.
  intros Hint Hcount.
  assert (Hsides : 0 <= DiceType.value dice_type) by (destruct dice_type; cbn; lia).
  destruct (str_of_int_plain count Hcount) as [Hc _].
  destruct (str_of_int_plain _ Hsides) as [Hv _].
  pose proof (count_read py_int count Hint Hcount) as Hread.
  split.
  - unfold notation_of.
    destruct (Z.eqb_spec modifier 0) as [-> | Hne].
    + rewrite append_empty_r.
      rewrite (parse_bare py_int _ _ count (DiceType.value dice_type) Hc Hv Hread (Hint _)).
      unfold parsed. rewrite dice_type_map_value. reflexivity.
    + destruct (Z.ltb_spec 0 modifier) as [Hpos | Hneg].
      * destruct (str_of_int_plain modifier ltac:(lia)) as [Hm _].
        rewrite <- (append_empty_r (PyStr.str_of_int modifier)).
        destruct (plain_facts _ Hc) as (Hcl & Hcr & Hcp & _ & Hcd).
        rewrite (parse_plus py_int _ _ _ "" count (DiceType.value dice_type) modifier
                            Hcl Hcr Hcp Hcd Hv Hm (or_introl eq_refl) Hread (Hint _) (Hint _)).
        unfold parsed. rewrite dice_type_map_value. reflexivity.
      * destruct (str_of_int_plain (- modifier) ltac:(lia)) as [Hm _].
        rewrite <- (append_empty_r (PyStr.str_of_int (- modifier))).
        rewrite (parse_minus py_int _ _ _ "" count (DiceType.value dice_type) (- modifier)
                             Hc Hv Hm (or_introl eq_refl) Hread (Hint _) (Hint _)).
        unfold parsed. rewrite dice_type_map_value. repeat f_equal. lia.
  - change ("d" +:+ PyStr.str_of_int (DiceType.value dice_type))
      with ("" +:+ "d" +:+ PyStr.str_of_int (DiceType.value dice_type)).
    rewrite (parse_bare py_int "" _ 1 (DiceType.value dice_type) eq_refl Hv eq_refl (Hint _)).
    unfold parsed. rewrite dice_type_map_value. reflexivity.
Qed.

Lemma decimal_int_str (z : Z) : decimal_int (PyStr.str_of_int z) = inr z.
Proof.
  unfold decimal_int, PyStr.str_of_int.
  rewrite NilZero.isi.
  - f_equal. apply DecimalZ.of_to.
  - destruct z; cbn [Z.to_int]; try discriminate.
    intros H. injection H as H. exact (DecimalPos.Unsigned.to_uint_nonnil _ H).
  - destruct z; cbn [Z.to_int]; try discriminate.
    intros H. injection H as H. exact (DecimalPos.Unsigned.to_uint_nonnil _ H).
Qed.

Lemma notation_round_trip_witness :
  DiceNotation.parse_dice_notation decimal_int "2d6+3" = inr (2, DiceType.D6, 3).
Proof.
  exact (proj1 (notation_round_trip decimal_int 2 DiceType.D6 3 decimal_int_str ltac:(lia))).
Defined.

Lemma dash_clean (s : string) :
  plain s = true ->
  PyStr.lower ("-" +:+ s) = "-" +:+ s /\ remove_spaces ("-" +:+ s) = "-" +:+ s /\
  PyStr.contains "+" ("-" +:+ s) = false /\ PyStr.contains "d" ("-" +:+ s) = false /\
  PyStr.truthy ("-" +:+ s) = true.
Proof.
  intros Hs. destruct (plain_facts s Hs) as (Hl & Hr & Hp & _ & Hd).
  change ("-" +:+ s) with (String "-" s).
  cbn [PyStr.lower remove_spaces PyStr.truthy]. rewrite !contains_char_cons, Hl, Hr, Hp, Hd.
  repeat split.
Qed.

(** X21. The parser accepts more than the notation of the help text. What
    follows a second [+] is ignored, so that [2d6+3+4] is read as [2d6+3];
    and a negative count is read as it stands when the modifier is added
    with [+]: the roll of such a notation draws no die and its total is
    the modifier alone. *)
Theorem notation_accepts_more (py_int : string -> py_exn + Z) (randint : nat -> Z -> Z -> Z)
        (n : nat) (count : Z) (dice_type : DiceType.t) (modifier : Z) (rest : string) :
  (forall z, py_int (PyStr.str_of_int z) = inr z) ->
  0 < count -> 0 < modifier ->
  DiceNotation.parse_dice_notation
    py_int (notation_of count dice_type modifier +:+ "+" +:+ rest)
  = inr (count, dice_type, modifier) /\
  DiceNotation.parse_dice_notation py_int (notation_of (- count) dice_type modifier)
  = inr (- count, dice_type, modifier) /\
  exists roll,
    DiceNotation.roll_notation py_int randint n (notation_of (- count) dice_type modifier)
    = inr roll /\
    mr_count roll = - count /\ mr_results roll = [] /\ mr_total roll = modifier.
Proof.
  intros Hint Hcount Hmod.
  assert (Hsides : 0 <= DiceType.value dice_type) by (destruct dice_type; cbn; lia).
  destruct (str_of_int_plain count ltac:(lia)) as [Hc _].
  destruct (str_of_int_plain _ Hsides) as [Hv _].
  destruct (str_of_int_plain modifier ltac:(lia)) as [Hm _].
  pose proof (count_read py_int count Hint ltac:(lia)) as Hread.
  destruct (plain_facts _ Hc) as (Hcl & Hcr & Hcp & _ & Hcd).
  assert (Hneg : DiceNotation.parse_dice_notation
                   py_int (notation_of (- count) dice_type modifier)
                 = inr (- count, dice_type, modifier)).
  { unfold notation_of.
    replace (modifier =? 0) with false by (symmetry; apply Z.eqb_neq; lia).
    replace (0 <? modifier) with true by (symmetry; apply Z.ltb_lt; lia).
    destruct (dash_clean _ Hc) as (Hdl & Hdr & Hdp & Hdd & Hdt).
    rewrite <- (append_empty_r (PyStr.str_of_int modifier)).
    rewrite (parse_plus py_int (PyStr.str_of_int (- count)) _ _ "" (- count)
                        (DiceType.value dice_type) modifier).
    - unfold parsed. rewrite dice_type_map_value. reflexivity.
    - rewrite (str_of_int_neg count Hcount). exact Hdl.
    - rewrite (str_of_int_neg count Hcount). exact Hdr.
    - rewrite (str_of_int_neg count Hcount). exact Hdp.
    - rewrite (str_of_int_neg count Hcount). exact Hdd.
    - exact Hv.
    - exact Hm.
    - left. reflexivity.
    - rewrite (str_of_int_neg count Hcount) at 1. rewrite Hdt. apply Hint.
    - apply Hint.
    - apply Hint. }
  split; [| split; [exact Hneg |]].
  - unfold notation_of.
    replace (modifier =? 0) with false by (symmetry; apply Z.eqb_neq; lia).
    replace (0 <? modifier) with true by (symmetry; apply Z.ltb_lt; lia).
    rewrite !append_assoc.
    change ("+" +:+ rest) with (String "+" rest).
    rewrite (parse_plus py_int _ _ _ (String "+" rest) count (DiceType.value dice_type) modifier
                        Hcl Hcr Hcp Hcd Hv Hm (or_intror (ex_intro _ rest eq_refl))
                        Hread (Hint _) (Hint _)).
    unfold parsed. rewrite dice_type_map_value. reflexivity.
  - unfold DiceNotation.roll_notation. rewrite Hneg.
    eexists. split; [reflexivity |].
    split; [reflexivity |].
    assert (Hnil : DiceRoller.draws randint n (Z.to_nat (- count)) (DiceType.value dice_type)
                   = []).
    { replace (Z.to_nat (- count)) with 0%nat by lia. reflexivity. }
    unfold DiceRoller.roll_multiple, DiceRoller.MultiDiceRoll.
    cbn [mr_results mr_total]. rewrite Hnil. split; reflexivity.
Qed.

Lemma notation_accepts_more_witness :
  DiceNotation.parse_dice_notation decimal_int "2d6+3+4" = inr (2, DiceType.D6, 3) /\
  DiceNotation.parse_dice_notation decimal_int "-2d6+3" = inr (-2, DiceType.D6, 3).
Proof.
  destruct (notation_accepts_more decimal_int cycling 0 2 DiceType.D6 3 "4" decimal_int_str)
    as (Hmore & Hneg & _); [lia | lia |].
  split; [exact Hmore | exact Hneg].
Defined.



(** ** Start-up of the generation client *)




(** X24. When [initialize] fails, the session is closed again, the error
    is logged as the last entry and the same exception reaches the caller;
    no pull was requested. A client error of the first request is raised
    as a [ConnectionError] that names the address, and a status other than
    200 as a [ConnectionError] that names the status; the second request
    is not wrapped, and its failure is raised as it is. *)
Theorem initialize_failure
        (base_url model : string) (is_client_error : py_exn -> bool)
        (http_get_tags : nat -> py_exn + tags_reply)
        (http_post_pull : nat -> string -> py_exn + pull_reply)
        (c c' : OllamaStartup.client) (e : py_exn) :
  OllamaStartup.initialize base_url model is_client_error http_get_tags http_post_pull c
  = (inl e, c') ->
  OllamaStartup.session c' = Some false /\
  (OllamaStartup.requests c' <= 2 + OllamaStartup.requests c)%nat /\
  OllamaStartup.errors c'
  = OllamaStartup.errors c
      ++ [(OllamaClient.logger, "Failed to initialize Ollama client: " +:+ exn_text e)] /\
  (forall e0,
     http_get_tags (OllamaStartup.requests c) = inl e0 ->
     e = (if is_client_error e0
          then mk_exn ConnectionError
                      ("Cannot connect to Ollama at " +:+ base_url +:+ ": " +:+ exn_text e0)
          else e0)) /\
  (forall response,
     http_get_tags (OllamaStartup.requests c) = inr response ->
     tags_status response <> 200 ->
     e = mk_exn ConnectionError
                ("Ollama server returned status "
                 +:+ PyStr.str_of_int (tags_status response))) /\
  (forall seen e0,
     http_get_tags (OllamaStartup.requests c) = inr (mk_tags 200 (inr seen)) ->
     http_get_tags (S (OllamaStartup.requests c)) = inl e0 ->
     e = e0).
Proof.
  unfold OllamaStartup.initialize, OllamaStartup._check_connection,
    OllamaStartup._ensure_model_available, OllamaStartup.list_models,
    OllamaStartup.get_tags, OllamaStartup.as_connection_error, OllamaStartup.log_error.
  cbn [OllamaStartup.requests OllamaStartup.session OllamaStartup.errors].
  destruct (http_get_tags (OllamaStartup.requests c)) as [e1 | r1] eqn:H1.
  - intros H. injection H as <- <-.
    cbn [OllamaStartup.requests OllamaStartup.session OllamaStartup.errors].
    split; [reflexivity |]. split; [lia |]. split; [reflexivity |].
    split; [intros e0 He0; injection He0 as <-; reflexivity |].
    split; [intros response Hr; discriminate Hr | intros seen e0 Hr; discriminate Hr].
  - destruct (Z.eqb_spec (tags_status r1) 200) as [Hs1 | Hs1]; cbn [negb].
    + destruct (tags_models r1) as [e1 | seen] eqn:Hm1.
      * intros H. injection H as <- <-.
        cbn [OllamaStartup.requests OllamaStartup.session OllamaStartup.errors].
        split; [reflexivity |]. split; [lia |]. split; [reflexivity |].
        split; [intros e0 He0; discriminate He0 |].
        split; [intros response Hr Hne; injection Hr as <-; contradiction |].
        intros seen e0 Hr. injection Hr as ->. cbn in Hm1. discriminate Hm1.
      * cbn [OllamaStartup.requests OllamaStartup.session OllamaStartup.errors].
        destruct (http_get_tags (S (OllamaStartup.requests c))) as [e2 | r2] eqn:H2.
        -- intros H. injection H as <- <-.
           cbn [OllamaStartup.requests OllamaStartup.session OllamaStartup.errors].
           split; [reflexivity |]. split; [lia |]. split; [reflexivity |].
           split; [intros e0 He0; discriminate He0 |].
           split; [intros response Hr Hne; injection Hr as <-; contradiction |].
           intros seen' e0 _ He0. injection He0 as <-. reflexivity.
        -- destruct (negb (tags_status r2 =? 200)).
           ++ intros H. injection H as <- <-.
              cbn [OllamaStartup.requests OllamaStartup.session OllamaStartup.errors].
              split; [reflexivity |]. split; [lia |]. split; [reflexivity |].
              split; [intros e0 He0; discriminate He0 |].
              split; [intros response Hr Hne; injection Hr as <-; contradiction |].
              intros seen' e0 _ He0. discriminate He0.
           ++ destruct (tags_models r2) as [e2 | listed].
              ** intros H. injection H as <- <-.
                 cbn [OllamaStartup.requests OllamaStartup.session OllamaStartup.errors].
                 split; [reflexivity |]. split; [lia |]. split; [reflexivity |].
                 split; [intros e0 He0; discriminate He0 |].
                 split; [intros response Hr Hne; injection Hr as <-; contradiction |].
                 intros seen' e0 _ He0. discriminate He0.
              ** destruct (negb (existsb _ _)).
                 --- destruct (OllamaStartup.pull_model _ _ _) as [ok c2].
                     intros H. discriminate H.
                 --- intros H. discriminate H.
    + intros H. injection H as <- <-.
      cbn [OllamaStartup.requests OllamaStartup.session OllamaStartup.errors].
      split; [reflexivity |]. split; [lia |]. split; [reflexivity |].
      split; [intros e0 He0; discriminate He0 |].
      split; [intros response Hr _; injection Hr as <-; reflexivity |].
      intros seen e0 Hr. injection Hr as ->. cbn in Hs1. contradiction.
Qed.

Lemma initialize_failure_witness :
  let down := fun _ : nat => inl (mk_exn Exception "Connection refused") : py_exn + tags_reply in
  exists c',
    OllamaStartup.initialize "http://localhost:11434" "llama3" (fun _ => true)
                             down refuses_pull new_client
    = (inl (mk_exn ConnectionError
                   "Cannot connect to Ollama at http://localhost:11434: Connection refused"),
       c') /\
    OllamaStartup.session c' = Some false.
Proof.
  cbv zeta. eexists. split; [reflexivity |].
  exact (proj1 (initialize_failure
                  "http://localhost:11434" "llama3" (fun _ => true)
                  (fun _ => inl (mk_exn Exception "Connection refused")) refuses_pull
                  new_client _ _ eq_refl)).
Defined.
